(** * Workout logging workflow: template materialisation, set editing,
      submission validation and read-side grouping.

    Shallow embedding of
      - frontend/src/pages/WorkoutStartPage.tsx
          (getTargetRange, loadRoutine, handleAddSet, handleRemoveSet,
           handleSubmit)
      - frontend/src/pages/WorkoutDetailPage.tsx (setsByExercise)
    together with the part of the ECMAScript standard library these
    functions call: Number(), String() on integers, Number.isFinite,
    Math.round, the arithmetic on Numbers and String.prototype.trim. *)

From Stdlib Require Import ZArith QArith Qround Lia Bool.
From Stdlib Require Import Ascii String DecimalString DecimalZ.
From Stdlib Require Import Sorting.Sorted Sorting.Permutation.
From stdpp Require Import base list strings.

Local Open Scope string_scope.
Local Open Scope list_scope.
Local Open Scope Z_scope.

(** ** ECMAScript Numbers *)

Module JsNumber.

(** A Number is NaN, one of the two infinities, or a finite binary64
    value.  A finite value is carried by the rational it denotes, kept in
    lowest terms; every operation below that can leave the binary64 grid
    goes through [round64], so the results are the correctly rounded ones.
    The sign of zero is not represented: none of the modelled functions
    observes it (no division by a parsed zero, no Object.is). *)
Inductive number : Type :=
  | NaN
  | Infinity
  | NegInfinity
  | Num (q : Q).

(** Nearest integer to [n / d] for [0 < d], ties to the even one. *)
Definition div_half_even (n d : Z) : Z :=
  let f := n / d in
  match (2 * (n mod d) ?= d) with
  | Lt => f
  | Gt => f + 1
  | Eq => if Z.even f then f else f + 1
  end.

(** floor(log2 (n / d)) for positive [n], [d]. *)
Definition floor_log2 (n d : Z) : Z :=
  let k := Z.log2 n - Z.log2 d in
  if 0 <=? k
  then (if d * 2 ^ k <=? n then k else k - 1)
  else (if d <=? n * 2 ^ (- k) then k else k - 1).

(** Exponent of the unit in the last place for a value of magnitude
    [n / d]: 53 significant bits, subnormals below 2^-1022. *)
Definition ulp_exp (n d : Z) : Z := Z.max (floor_log2 n d - 52) (-1074).

(** Round the positive rational [n / d] to binary64 (round to nearest,
    ties to even); [None] is overflow. *)
Definition round64_pos (n d : Z) : option Q :=
  let e := ulp_exp n d in
  let m := if 0 <=? e then div_half_even n (d * 2 ^ e)
           else div_half_even (n * 2 ^ (- e)) d in
  if 1024 <=? e + Z.log2 m then None
  else if 0 <=? e then Some (inject_Z (m * 2 ^ e))
  else Some (Qred (m # Z.to_pos (2 ^ (- e)))).

Definition round64 (q : Q) : number :=
  match Qnum q with
  | Z0 => Num 0
  | Zpos n =>
      match round64_pos (Zpos n) (Zpos (Qden q)) with
      | Some r => Num r
      | None => Infinity
      end
  | Zneg n =>
      match round64_pos (Zpos n) (Zpos (Qden q)) with
      | Some r => Num (Qred (- r))
      | None => NegInfinity
      end
  end.

(** The Number value for a mathematical integer. *)
Definition of_Z (z : Z) : number := round64 (inject_Z z).

(** Number.isFinite *)
Definition isFinite (x : number) : bool :=
  match x with
  | Num _ => true
  | _ => false
  end.

(** [x < y] *)
Definition lt (x y : number) : bool :=
  match x, y with
  | NaN, _ | _, NaN => false
  | _, NegInfinity => false
  | NegInfinity, _ => true
  | Infinity, _ => false
  | Num _, Infinity => true
  | Num a, Num b => negb (Qle_bool b a)
  end.

(** [x <= y] *)
Definition le (x y : number) : bool :=
  match x, y with
  | NaN, _ | _, NaN => false
  | NegInfinity, _ => true
  | _, Infinity => true
  | Infinity, _ => false
  | Num _, NegInfinity => false
  | Num a, Num b => Qle_bool a b
  end.

(** [x > y] *)
Definition gt (x y : number) : bool := lt y x.

Definition neg (x : number) : number :=
  match x with
  | NaN => NaN
  | Infinity => NegInfinity
  | NegInfinity => Infinity
  | Num q => Num (Qred (- q))
  end.

(** [x * y] *)
Definition mul (x y : number) : number :=
  match x, y with
  | NaN, _ | _, NaN => NaN
  | Num a, Num b => round64 (a * b)
  | Num a, inf | inf, Num a =>
      match Qnum a with
      | Z0 => NaN
      | Zpos _ => inf
      | Zneg _ => neg inf
      end
  | Infinity, Infinity | NegInfinity, NegInfinity => Infinity
  | Infinity, NegInfinity | NegInfinity, Infinity => NegInfinity
  end.

(** [x - y] *)
Definition sub (x y : number) : number :=
  match x, y with
  | NaN, _ | _, NaN => NaN
  | Num a, Num b => round64 (a - b)
  | Infinity, Infinity | NegInfinity, NegInfinity => NaN
  | Infinity, _ => Infinity
  | NegInfinity, _ => NegInfinity
  | Num _, inf => neg inf
  end.

(** [x / y]; a zero divisor is taken as +0. *)
Definition div (x y : number) : number :=
  match x, y with
  | NaN, _ | _, NaN => NaN
  | Num a, Num b =>
      match Qnum b with
      | Z0 =>
          match Qnum a with
          | Z0 => NaN
          | Zpos _ => Infinity
          | Zneg _ => NegInfinity
          end
      | _ => round64 (a / b)
      end
  | Num _, _ => Num 0
  | inf, Num b =>
      match Qnum b with
      | Zneg _ => neg inf
      | _ => inf
      end
  | _, _ => NaN
  end.

(** Math.round: the nearest integer, ties towards +Infinity. *)
Definition Math_round (x : number) : number :=
  match x with
  | Num q => Num (inject_Z (Qfloor (q + (1 # 2))))
  | _ => x
  end.

End JsNumber.

(** ** Strings *)

(** White space and line terminators, as String.prototype.trim removes
    them and Number() skips them.  Strings are byte strings holding UTF-8;
    the code points are
      U+0009..U+000D, U+0020                          (one byte),
      U+00A0                                          (C2 A0),
      U+1680                                          (E1 9A 80),
      U+2000..U+200A, U+2028, U+2029, U+202F          (E2 80 ..),
      U+205F                                          (E2 81 9F),
      U+3000                                          (E3 80 80),
      U+FEFF                                          (EF BB BF). *)
Definition white_space1 (a : ascii) : bool :=
  match N_of_ascii a with
  | 9%N | 10%N | 11%N | 12%N | 13%N | 32%N => true
  | _ => false
  end.

Definition white_space2 (a b : ascii) : bool :=
  ((N_of_ascii a =? 194) && (N_of_ascii b =? 160))%N.

Definition white_space3 (a b c : ascii) : bool :=
  let x := N_of_ascii a in
  let y := N_of_ascii b in
  let z := N_of_ascii c in
  (((x =? 225) && (y =? 154) && (z =? 128))
   || ((x =? 226) && (y =? 128)
       && (((128 <=? z) && (z <=? 138)) || (z =? 168) || (z =? 169)
           || (z =? 175)))
   || ((x =? 226) && (y =? 129) && (z =? 159))
   || ((x =? 227) && (y =? 128) && (z =? 128))
   || ((x =? 239) && (y =? 187) && (z =? 191)))%N.

(** String.prototype.trimStart *)
Fixpoint trimStart (s : string) : string :=
  match s with
  | String a r =>
      if white_space1 a then trimStart r
      else
        match r with
        | String b r2 =>
            if white_space2 a b then trimStart r2
            else
              match r2 with
              | String c r3 => if white_space3 a b c then trimStart r3 else s
              | EmptyString => s
              end
        | EmptyString => s
        end
  | EmptyString => s
  end.

(** The string is made of white space only. *)
Fixpoint white_space_only (s : string) : bool :=
  match s with
  | String a r =>
      if white_space1 a then white_space_only r
      else
        match r with
        | String b r2 =>
            if white_space2 a b then white_space_only r2
            else
              match r2 with
              | String c r3 =>
                  if white_space3 a b c then white_space_only r3 else false
              | EmptyString => false
              end
        | EmptyString => false
        end
  | EmptyString => true
  end.

(** String.prototype.trimEnd: everything from the point on where only
    white space follows is dropped. *)
Fixpoint trimEnd (s : string) : string :=
  match s with
  | String a r => if white_space_only s then EmptyString else String a (trimEnd r)
  | EmptyString => EmptyString
  end.

(** String.prototype.trim *)
Definition trim (s : string) : string := trimEnd (trimStart s).

(** JavaScript truthiness of a string: the empty string is falsy. *)
Definition truthy (s : string) : bool :=
  match s with
  | EmptyString => false
  | _ => true
  end.

Module JsString.
Import JsNumber.

Definition is_digit (c : ascii) : bool :=
  let n := N_of_ascii c in ((48 <=? n) && (n <=? 57))%N.

(** Longest prefix of decimal digits, and what follows it. *)
Fixpoint span_digits (s : string) : string * string :=
  match s with
  | String c r =>
      if is_digit c
      then let '(d, rest) := span_digits r in (String c d, rest)
      else (EmptyString, s)
  | EmptyString => (EmptyString, EmptyString)
  end.

(** Value of a string of decimal digits ([None] off the digits, 0 for the
    empty string). *)
Definition digits_value (s : string) : option Z :=
  match s with
  | EmptyString => Some 0
  | _ => option_map Z.of_uint (NilEmpty.uint_of_string s)
  end.

(** ExponentPart: empty, or [e]/[E], an optional sign and digits. *)
Definition exponent_part (s : string) : option Z :=
  match s with
  | EmptyString => Some 0
  | String c r =>
      if (Ascii.eqb c "e" || Ascii.eqb c "E")%char then
        let '(sgn, r1) :=
          match r with
          | String "+"%char r' => (1, r')
          | String "-"%char r' => (-1, r')
          | _ => (1, r)
          end in
        match r1 with
        | EmptyString => None
        | _ => option_map (Z.mul sgn) (digits_value r1)
        end
      else None
  end.

(** The mathematical value [m * 10 ^ k]. *)
Definition scale10 (m k : Z) : Q :=
  if 0 <=? k then inject_Z (m * 10 ^ k) else m # Z.to_pos (10 ^ (- k)).

(** StrUnsignedDecimalLiteral other than Infinity: digits with an optional
    fraction and exponent, at least one digit before the exponent. *)
Definition unsigned_decimal (s : string) : option Q :=
  let '(ip, s1) := span_digits s in
  let '(fp, s2) :=
    match s1 with
    | String "."%char r => span_digits r
    | _ => (EmptyString, s1)
    end in
  match ip, fp with
  | EmptyString, EmptyString => None
  | _, _ =>
      match digits_value (ip ++ fp)%string, exponent_part s2 with
      | Some m, Some ex => Some (scale10 m (ex - Z.of_nat (String.length fp)))
      | _, _ => None
      end
  end.

(** StrDecimalLiteral: optional sign, then Infinity or an unsigned
    decimal literal. *)
Definition decimal_literal (s : string) : option number :=
  let '(negative, body) :=
    match s with
    | String "+"%char r => (false, r)
    | String "-"%char r => (true, r)
    | _ => (false, s)
    end in
  if String.eqb body "Infinity"
  then Some (if negative then NegInfinity else Infinity)
  else
    match unsigned_decimal body with
    | Some q => Some (round64 (if negative then - q else q))
    | None => None
    end.

Definition digit_in_base (base : Z) (c : ascii) : option Z :=
  let n := Z.of_N (N_of_ascii c) in
  let v := if (48 <=? n) && (n <=? 57) then n - 48
           else if (97 <=? n) && (n <=? 102) then n - 87
           else if (65 <=? n) && (n <=? 70) then n - 55
           else base in
  if v <? base then Some v else None.

Fixpoint value_in_base (base acc : Z) (s : string) : option Z :=
  match s with
  | EmptyString => Some acc
  | String c r =>
      match digit_in_base base c with
      | Some v => value_in_base base (acc * base + v) r
      | None => None
      end
  end.

(** NonDecimalIntegerLiteral: 0x, 0o or 0b and at least one digit. *)
Definition non_decimal_literal (s : string) : option number :=
  match s with
  | String "0"%char (String p (String c r)) =>
      let base :=
        if (Ascii.eqb p "x" || Ascii.eqb p "X")%char then 16
        else if (Ascii.eqb p "o" || Ascii.eqb p "O")%char then 8
        else if (Ascii.eqb p "b" || Ascii.eqb p "B")%char then 2
        else 0 in
      option_map of_Z (value_in_base base 0 (String c r))
  | _ => None
  end.

(** Number(s): StringToNumber.  White space is trimmed, the empty string
    is 0, anything outside the StringNumericLiteral grammar is NaN. *)
Definition Number (s : string) : number :=
  match trim s with
  | EmptyString => Num 0
  | t =>
      match decimal_literal t with
      | Some x => x
      | None =>
          match non_decimal_literal t with
          | Some x => x
          | None => NaN
          end
      end
  end.

(** String(z) for a Number holding the integer [z] (magnitude below
    10^21, where Number::toString prints plain decimal digits). *)
Definition String_of_int (z : Z) : string :=
  NilZero.string_of_int (Z.to_int z).

End JsString.

Import JsNumber JsString.

(** ** Data model *)

(** RoutineExercise['technique'] *)
Inductive Technique : Type :=
  | normal
  | dropset
  | myo_reps
  | failure
  | rest_pause.

(** An entry of a routine as the routine service returns it.  The numeric
    fields are the INTEGER columns of routine_exercises (sets,
    rep_range_min, rep_range_max, rest_time); [None] is null/undefined. *)
Module RoutineExercise.
Record t : Type := mk {
  exerciseId : Z;
  exerciseName : string;
  sets : Z;
  repRangeMin : option Z;
  repRangeMax : option Z;
  technique : Technique;
  restTime : option Z
}.
End RoutineExercise.

Module Routine.
Record t : Type := mk {
  id : Z;
  name : string;
  exercises : list RoutineExercise.t
}.
End Routine.

Module WorkoutSetForm.
Record t : Type := mk {
  weight : string;
  reps : string;
  technique : Technique;
  restTime : string
}.
End WorkoutSetForm.

Module ExerciseWorkoutForm.
Record t : Type := mk {
  exerciseId : Z;
  exerciseName : string;
  targetRange : option string;
  sets : list WorkoutSetForm.t
}.
End ExerciseWorkoutForm.

(** An element of CreateWorkoutRequest['sets']. *)
Module CreateWorkoutSet.
Record t : Type := mk {
  exerciseId : Z;
  exerciseName : string;
  setNumber : Z;
  weight : option number;
  reps : number;
  technique : Technique;
  restTime : option number
}.
End CreateWorkoutSet.

(** The text produced by Date.prototype.toISOString, carried by the
    instant (milliseconds since the epoch) it denotes: Date.parse reads
    such a text back to the same time value. *)
Definition ISOString : Type := Z.
Definition toISOString (timeValue : Z) : ISOString := timeValue.
Definition Date_of_ISOString (iso : ISOString) : Z := iso.

Module CreateWorkoutRequest.
Record t : Type := mk {
  routineId : Z;
  routineName : string;
  startedAt : ISOString;
  completedAt : option ISOString;
  duration : option number;
  notes : option string;
  sets : list CreateWorkoutSet.t
}.
End CreateWorkoutRequest.

(** A persisted set as WorkoutDetailPage receives it. *)
Module WorkoutSet.
Record t : Type := mk {
  id : Z;
  exerciseId : Z;
  exerciseName : string;
  setNumber : Z;
  weight : option number;
  reps : number;
  technique : Technique;
  restTime : option number
}.
End WorkoutSet.

(** ** WorkoutStartPage: template materialisation *)

(** Truthiness of an optional integer: undefined, null and 0 are falsy. *)
Definition truthy_number (o : option Z) : bool :=
  match o with
  | Some z => negb (z =? 0)
  | None => false
  end.

(** [${o}] inside a template literal. *)
Definition template (o : option Z) : string :=
  match o with
  | Some z => String_of_int z
  | None => "undefined"
  end.

(** [a === b] on optional integers. *)
Definition strict_eq (a b : option Z) : bool :=
  match a, b with
  | Some x, Some y => x =? y
  | None, None => true
  | _, _ => false
  end.

(** [a ?? b] *)
Definition nullish {A : Type} (a : option A) (b : A) : A :=
  match a with
  | Some x => x
  | None => b
  end.

(** [a ?? b] where [b] may itself be undefined. *)
Definition nullish_opt {A : Type} (a b : option A) : option A :=
  match a with
  | Some x => Some x
  | None => b
  end.

Definition getTargetRange (exercise : RoutineExercise.t) : option string :=
  let repRangeMin := RoutineExercise.repRangeMin exercise in
  let repRangeMax := RoutineExercise.repRangeMax exercise in
  if truthy_number repRangeMin && truthy_number repRangeMax then
    if strict_eq repRangeMin repRangeMax
    then Some (template repRangeMin ++ " repeticiones")%string
    else Some (template repRangeMin ++ "-" ++ template repRangeMax
               ++ " repeticiones")%string
  else if truthy_number repRangeMin then
    Some ("≥ " ++ template repRangeMin ++ " repeticiones")%string
  else if truthy_number repRangeMax then
    Some ("≤ " ++ template repRangeMax ++ " repeticiones")%string
  else None.

(** [Array.from({ length }, fn)]: ToLength takes a negative length to 0. *)
Definition Array_from {A : Type} (length : Z) (fn : nat -> A) : list A :=
  map fn (seq 0 (Z.to_nat length)).

(** The argument of setExercises in loadRoutine. *)
Definition materialize (data : Routine.t) : list ExerciseWorkoutForm.t :=
  map (fun exercise =>
         ExerciseWorkoutForm.mk
           (RoutineExercise.exerciseId exercise)
           (RoutineExercise.exerciseName exercise)
           (getTargetRange exercise)
           (Array_from (RoutineExercise.sets exercise) (fun _ =>
              WorkoutSetForm.mk
                ""
                (String_of_int
                   (nullish (nullish_opt (RoutineExercise.repRangeMin exercise)
                                         (RoutineExercise.repRangeMax exercise))
                            10))
                (RoutineExercise.technique exercise)
                (match RoutineExercise.restTime exercise with
                 | Some restTime => String_of_int restTime
                 | None => ""
                 end))))
      (Routine.exercises data).

(** ** WorkoutStartPage: set editing *)

Definition handleAddSet (routine : option Routine.t) (exerciseIndex : nat)
    (prev : list ExerciseWorkoutForm.t) : list ExerciseWorkoutForm.t :=
  imap (fun exIdx exercise =>
          if negb (exIdx =? exerciseIndex)%nat then exercise
          else
            let lastSet := last (ExerciseWorkoutForm.sets exercise) in
            let routineExercise :=
              r ← routine; Routine.exercises r !! exIdx in
            ExerciseWorkoutForm.mk
              (ExerciseWorkoutForm.exerciseId exercise)
              (ExerciseWorkoutForm.exerciseName exercise)
              (ExerciseWorkoutForm.targetRange exercise)
              (ExerciseWorkoutForm.sets exercise ++
               [WorkoutSetForm.mk
                  ""
                  (nullish (WorkoutSetForm.reps <$> lastSet)
                     (String_of_int
                        (nullish (routineExercise ≫= RoutineExercise.repRangeMin)
                                 10)))
                  (nullish (WorkoutSetForm.technique <$> lastSet)
                     (nullish (RoutineExercise.technique <$> routineExercise)
                              normal))
                  (nullish (WorkoutSetForm.restTime <$> lastSet)
                     (match routineExercise ≫= RoutineExercise.restTime with
                      | Some restTime => String_of_int restTime
                      | None => ""
                      end))]))
       prev.

(** [array.filter((_, idx) => keep idx)] *)
Fixpoint filter_index {A : Type} (keep : nat -> bool) (idx : nat)
    (array : list A) : list A :=
  match array with
  | [] => []
  | x :: rest =>
      if keep idx then x :: filter_index keep (S idx) rest
      else filter_index keep (S idx) rest
  end.

Definition handleRemoveSet (exerciseIndex setIndex : nat)
    (prev : list ExerciseWorkoutForm.t) : list ExerciseWorkoutForm.t :=
  imap (fun exIdx exercise =>
          if negb (exIdx =? exerciseIndex)%nat then exercise
          else if (length (ExerciseWorkoutForm.sets exercise) <=? 1)%nat
          then exercise
          else
            ExerciseWorkoutForm.mk
              (ExerciseWorkoutForm.exerciseId exercise)
              (ExerciseWorkoutForm.exerciseName exercise)
              (ExerciseWorkoutForm.targetRange exercise)
              (filter_index (fun idx => negb (idx =? setIndex)%nat) 0
                 (ExerciseWorkoutForm.sets exercise)))
       prev.

(** ** WorkoutStartPage: validation and submission *)

(** The component state handleSubmit reads. *)
Module FormState.
Record t : Type := mk {
  routine : option Routine.t;
  exercises : list ExerciseWorkoutForm.t;
  startedAt : string;
  markCompleted : bool;
  completedAt : string;
  durationMinutes : string;
  notes : string
}.
End FormState.

(** How a run of handleSubmit ends: with a message handed to setFormError
    and a return, or with the payload handed to
    workoutService.createWorkout. *)
Inductive outcome : Type :=
  | setFormError (message : string)
  | createWorkout (payload : CreateWorkoutRequest.t).

Definition msg_no_routine : string :=
  "No se pudo identificar la rutina seleccionada.".
Definition msg_no_start : string :=
  "Selecciona la fecha y hora de inicio del entrenamiento.".
Definition msg_no_exercises : string :=
  "La rutina no tiene ejercicios configurados.".
Definition msg_reps : string :=
  "Cada serie debe tener al menos 1 repetición.".
Definition msg_weight : string :=
  "El peso debe ser un número válido.".
Definition msg_rest : string :=
  "El tiempo de descanso debe ser un número válido.".
Definition msg_no_sets : string :=
  "Registra al menos una serie antes de guardar el entrenamiento.".
Definition msg_invalid_start : string :=
  "La fecha de inicio no es válida.".
Definition msg_invalid_end : string :=
  "La fecha de finalización no es válida.".
Definition msg_end_before_start : string :=
  "La fecha de finalización no puede ser anterior al inicio.".
Definition msg_duration : string :=
  "La duración debe ser un número positivo en minutos.".

(** A computation that may stop early with a form error message. *)
Definition checked (A : Type) : Type := (string + A)%type.

Definition bind {A B : Type} (m : checked A) (k : A -> checked B) : checked B :=
  match m with
  | inl message => inl message
  | inr a => k a
  end.

Notation "x <-- m ;; k" := (bind m (fun x => k))
  (at level 20, m at level 99, k at level 200, only parsing).
Notation "'stop_if' c 'with' message ;; k" :=
  (if c then inl message else k)
  (at level 20, c at level 99, message at level 9, k at level 200, only parsing).

(** Body of the inner loop of handleSubmit for one set: the three checks
    and the element pushed on flattenedSets. *)
Definition flattenSet (exercise : ExerciseWorkoutForm.t) (index : nat)
    (set : WorkoutSetForm.t) : checked CreateWorkoutSet.t :=
  let repsValue := Number (WorkoutSetForm.reps set) in
  let weightValue :=
    if String.eqb (WorkoutSetForm.weight set) "" then None
    else Some (Number (WorkoutSetForm.weight set)) in
  let restValue :=
    if String.eqb (WorkoutSetForm.restTime set) "" then None
    else Some (Number (WorkoutSetForm.restTime set)) in
  stop_if negb (isFinite repsValue) || lt repsValue (Num 1) with msg_reps ;;
  stop_if match weightValue with
          | Some w => negb (isFinite w)
          | None => false
          end with msg_weight ;;
  stop_if match restValue with
          | Some r => negb (isFinite r)
          | None => false
          end with msg_rest ;;
  inr (CreateWorkoutSet.mk
         (ExerciseWorkoutForm.exerciseId exercise)
         (ExerciseWorkoutForm.exerciseName exercise)
         (Z.of_nat index + 1)
         weightValue
         (Math_round repsValue)
         (WorkoutSetForm.technique set)
         (match restValue with
          | Some r => Some (Math_round r)
          | None => None
          end)).

(** The inner loop, from [index] on, over the sets still to visit. *)
Fixpoint flattenExercise (exercise : ExerciseWorkoutForm.t) (index : nat)
    (sets : list WorkoutSetForm.t) (flattenedSets : list CreateWorkoutSet.t)
    : checked (list CreateWorkoutSet.t) :=
  match sets with
  | [] => inr flattenedSets
  | set :: rest =>
      pushed <-- flattenSet exercise index set ;;
      flattenExercise exercise (S index) rest (flattenedSets ++ [pushed])
  end.

(** The outer loop over the exercises. *)
Fixpoint flattenExercises (exercises : list ExerciseWorkoutForm.t)
    (flattenedSets : list CreateWorkoutSet.t)
    : checked (list CreateWorkoutSet.t) :=
  match exercises with
  | [] => inr flattenedSets
  | exercise :: rest =>
      flattenedSets' <-- flattenExercise exercise 0
                           (ExerciseWorkoutForm.sets exercise) flattenedSets ;;
      flattenExercises rest flattenedSets'
  end.

Section Submission.

(** [new Date(text).getTime()] of the host: the time value in
    milliseconds, [None] for an Invalid Date (getTime is NaN). *)
Variable Date_getTime : string -> option Z.

Definition handleSubmit (state : FormState.t) : outcome :=
  let result : checked CreateWorkoutRequest.t :=
    routine <-- match FormState.routine state with
                | Some routine => inr routine
                | None => inl msg_no_routine
                end ;;
    stop_if negb (truthy (FormState.startedAt state)) with msg_no_start ;;
    stop_if (length (FormState.exercises state) =? 0)%nat with msg_no_exercises ;;
    flattenedSets <-- flattenExercises (FormState.exercises state) [] ;;
    stop_if (length flattenedSets =? 0)%nat with msg_no_sets ;;
    startedAtDate <-- match Date_getTime (FormState.startedAt state) with
                      | Some timeValue => inr timeValue
                      | None => inl msg_invalid_start
                      end ;;
    completedAtISO <--
      (if FormState.markCompleted state && truthy (FormState.completedAt state)
       then
         completedAtDate <-- match Date_getTime (FormState.completedAt state) with
                             | Some timeValue => inr timeValue
                             | None => inl msg_invalid_end
                             end ;;
         stop_if completedAtDate <? startedAtDate with msg_end_before_start ;;
         inr (Some (toISOString completedAtDate))
       else inr None) ;;
    let startedAtISO := toISOString startedAtDate in
    stop_if FormState.markCompleted state &&
            match completedAtISO with
            | Some iso => Date_of_ISOString iso <? Date_of_ISOString startedAtISO
            | None => false
            end with msg_end_before_start ;;
    durationSeconds <--
      (if truthy (trim (FormState.durationMinutes state)) then
         let minutesValue := Number (FormState.durationMinutes state) in
         stop_if negb (isFinite minutesValue) || le minutesValue (Num 0)
           with msg_duration ;;
         inr (Some (Math_round (mul minutesValue (Num 60))))
       else if FormState.markCompleted state then
         match completedAtISO with
         | Some iso =>
             let diffSeconds :=
               Math_round
                 (div (sub (of_Z (Date_of_ISOString iso))
                           (of_Z (Date_of_ISOString startedAtISO)))
                      (Num 1000)) in
             inr (if gt diffSeconds (Num 0) then Some diffSeconds else None)
         | None => inr None
         end
       else inr None) ;;
    inr (CreateWorkoutRequest.mk
           (Routine.id routine)
           (Routine.name routine)
           startedAtISO
           completedAtISO
           durationSeconds
           (if truthy (trim (FormState.notes state))
            then Some (trim (FormState.notes state))
            else None)
           flattenedSets)
  in
  match result with
  | inl message => setFormError message
  | inr payload => createWorkout payload
  end.

(** The state after loadRoutine has stored [data], before any edit:
    startedAt holds the initial formatDateTimeLocal(new Date()) text
    [now], the other inputs their useState defaults. *)
Definition loadedState (data : Routine.t) (now : string) : FormState.t :=
  FormState.mk (Some data) (materialize data) now false "" "" "".

End Submission.

(** ** WorkoutDetailPage: grouping of the persisted sets *)

Module ExerciseGroup.
Record t : Type := mk {
  exerciseName : string;
  sets : list WorkoutSet.t
}.
End ExerciseGroup.

(** A Map keyed by exercise id: the entries in insertion order, at most
    one per key. *)
Definition GroupMap : Type := list (Z * ExerciseGroup.t).

(** [grouped.get(key)] *)
Fixpoint Map_get (key : Z) (grouped : GroupMap) : option ExerciseGroup.t :=
  match grouped with
  | [] => None
  | (k, entry) :: rest => if k =? key then Some entry else Map_get key rest
  end.

(** [grouped.set(key, value)]: an existing key keeps its place. *)
Fixpoint Map_set (key : Z) (value : ExerciseGroup.t) (grouped : GroupMap)
    : GroupMap :=
  match grouped with
  | [] => [(key, value)]
  | (k, entry) :: rest =>
      if k =? key then (k, value) :: rest
      else (k, entry) :: Map_set key value rest
  end.

(** The callback of workout.sets.forEach.  [entry.sets.push(set)] changes
    the array of the entry the Map holds, which is the Map holding the
    longer array under the same key. *)
Definition groupSet (grouped : GroupMap) (set : WorkoutSet.t) : GroupMap :=
  match Map_get (WorkoutSet.exerciseId set) grouped with
  | Some entry =>
      Map_set (WorkoutSet.exerciseId set)
        (ExerciseGroup.mk (ExerciseGroup.exerciseName entry)
                          (ExerciseGroup.sets entry ++ [set]))
        grouped
  | None =>
      Map_set (WorkoutSet.exerciseId set)
        (ExerciseGroup.mk (WorkoutSet.exerciseName set) [set])
        grouped
  end.

(** Array.prototype.sort with a comparator is stable: an element goes in
    front of the first one it does not compare greater than. *)
Fixpoint sort_insert {A : Type} (compareFn : A -> A -> Z) (x : A)
    (sorted : list A) : list A :=
  match sorted with
  | [] => [x]
  | y :: rest =>
      if compareFn x y <=? 0 then x :: y :: rest
      else y :: sort_insert compareFn x rest
  end.

Definition Array_sort {A : Type} (compareFn : A -> A -> Z) (array : list A)
    : list A :=
  foldr (sort_insert compareFn) [] array.

Definition bySetNumber (a b : WorkoutSet.t) : Z :=
  WorkoutSet.setNumber a - WorkoutSet.setNumber b.

(** [sets] is workout?.sets; [None] when there is no workout or no list. *)
Definition setsByExercise (sets : option (list WorkoutSet.t))
    : list ExerciseGroup.t :=
  match sets with
  | None => []
  | Some sets =>
      let grouped := fold_left groupSet sets [] in
      map (fun entry =>
             ExerciseGroup.mk (ExerciseGroup.exerciseName (snd entry))
               (Array_sort bySetNumber (ExerciseGroup.sets (snd entry))))
          grouped
  end.

(** ** A host for the examples: dates read as UTC

    [new Date(text)] on the date-time forms of the ECMAScript format,
    YYYY-MM-DDTHH:mm with optional :ss, for a host whose local time zone
    is UTC. *)
Module UtcHost.

Definition digit (c : ascii) : option Z :=
  if is_digit c then Some (Z.of_N (N_of_ascii c) - 48) else None.

Definition two (a b : ascii) : option Z :=
  x ← digit a; y ← digit b; Some (10 * x + y).

Definition daysInMonth (year month : Z) : Z :=
  if month =? 2 then
    if ((year mod 4 =? 0) && negb (year mod 100 =? 0)) || (year mod 400 =? 0)
    then 29 else 28
  else if (month =? 4) || (month =? 6) || (month =? 9) || (month =? 11)
  then 30 else 31.

(** Days from 1970-01-01 to the given civil date. *)
Definition daysFromCivil (year month day : Z) : Z :=
  let y := if month <=? 2 then year - 1 else year in
  let era := y / 400 in
  let yoe := y - era * 400 in
  let doy := (153 * (if 2 <? month then month - 3 else month + 9) + 2) / 5
             + day - 1 in
  let doe := yoe * 365 + yoe / 4 - yoe / 100 + doy in
  era * 146097 + doe - 719468.

Definition makeTime (year month day hour minute second : Z) : option Z :=
  if (1 <=? month) && (month <=? 12) && (1 <=? day)
     && (day <=? daysInMonth year month)
     && (hour <=? 23) && (minute <=? 59) && (second <=? 59)
  then Some ((((daysFromCivil year month day * 24 + hour) * 60 + minute) * 60
              + second) * 1000)
  else None.

Definition Date_getTime (text : string) : option Z :=
  match list_ascii_of_string text with
  | [y1; y2; y3; y4; "-"; m1; m2; "-"; d1; d2; "T"; h1; h2; ":"; n1; n2]%char =>
      yh ← two y1 y2; yl ← two y3 y4; month ← two m1 m2; day ← two d1 d2;
      hour ← two h1 h2; minute ← two n1 n2;
      makeTime (100 * yh + yl) month day hour minute 0
  | [y1; y2; y3; y4; "-"; m1; m2; "-"; d1; d2; "T"; h1; h2; ":"; n1; n2;
     ":"; s1; s2]%char =>
      yh ← two y1 y2; yl ← two y3 y4; month ← two m1 m2; day ← two d1 d2;
      hour ← two h1 h2; minute ← two n1 n2; second ← two s1 s2;
      makeTime (100 * yh + yl) month day hour minute second
  | _ => None
  end.

End UtcHost.

(** ** The statements of the specification, for comparison *)

(** First occurrences of the keys, in order of appearance. *)
Fixpoint firstSeen (keys : list Z) : list Z :=
  match keys with
  | [] => []
  | k :: rest => k :: filter (fun k' => k' ≠ k) (firstSeen rest)
  end.

(** The sets of one exercise, in list order. *)
Definition setsOf (exerciseId : Z) (sets : list WorkoutSet.t)
    : list WorkoutSet.t :=
  filter (fun set => WorkoutSet.exerciseId set = exerciseId) sets.

(** The target-range label as the specification words it: a bound is
    present when it exists. *)
Definition spec_targetRange (exercise : RoutineExercise.t) : option string :=
  match RoutineExercise.repRangeMin exercise,
        RoutineExercise.repRangeMax exercise with
  | Some lo, Some hi =>
      if lo =? hi then Some (String_of_int lo ++ " repeticiones")%string
      else Some (String_of_int lo ++ "–" ++ String_of_int hi
                 ++ " repeticiones")%string
  | Some lo, None => Some ("≥" ++ String_of_int lo)%string
  | None, Some hi => Some ("≤" ++ String_of_int hi)%string
  | None, None => None
  end.

(** The default repetitions of a routine entry: repRangeMin if present,
    else repRangeMax, else 10. *)
Definition defaultReps (exercise : RoutineExercise.t) : Z :=
  match RoutineExercise.repRangeMin exercise,
        RoutineExercise.repRangeMax exercise with
  | Some lo, _ => lo
  | None, Some hi => hi
  | None, None => 10
  end.

(** ** Notions used in the statements *)

(** Number.MAX_SAFE_INTEGER *)
Definition MAX_SAFE_INTEGER : Z := 2 ^ 53 - 1.

(** Number.isSafeInteger on a mathematical integer. *)
Definition safe_integer (z : Z) : Prop :=
  - MAX_SAFE_INTEGER <= z <= MAX_SAFE_INTEGER.

(** A byte below 128 that is not white space: it starts no white space
    code point. *)
Definition plain (c : ascii) : bool :=
  negb (white_space1 c) && (N_of_ascii c <? 128)%N.

Fixpoint all_digits (s : string) : bool :=
  match s with
  | EmptyString => true
  | String c r => is_digit c && all_digits r
  end.

(** The reps text of a set is accepted when it reads as a finite number
    that is at least 1. *)
Definition reps_accepted (text : string) : bool :=
  isFinite (Number text) && le (Num 1) (Number text).

(** A weight or rest-time text is accepted when it is empty or reads as a
    finite number. *)
Definition optional_accepted (text : string) : bool :=
  String.eqb text "" || isFinite (Number text).

(** The message of the first check a set fails, in the order reps, weight,
    rest time; [None] when the set passes. *)
Definition set_message (set : WorkoutSetForm.t) : option string :=
  if negb (reps_accepted (WorkoutSetForm.reps set)) then Some msg_reps
  else if negb (optional_accepted (WorkoutSetForm.weight set)) then Some msg_weight
  else if negb (optional_accepted (WorkoutSetForm.restTime set)) then Some msg_rest
  else None.

(** The message of the first set, in list order, that fails a check. *)
Fixpoint firstMessage (sets : list WorkoutSetForm.t) : option string :=
  match sets with
  | [] => None
  | set :: rest =>
      match set_message set with
      | Some message => Some message
      | None => firstMessage rest
      end
  end.

(** The sets of the form in submission order: exercise by exercise, each
    in its array order. *)
Definition allSets (exercises : list ExerciseWorkoutForm.t)
    : list WorkoutSetForm.t :=
  flat_map ExerciseWorkoutForm.sets exercises.

(** The payload element for the set at position [index] of [exercise]:
    setNumber counted from 1, reps and rest rounded, weight as parsed. *)
Definition payloadSet (exercise : ExerciseWorkoutForm.t) (index : nat)
    (set : WorkoutSetForm.t) : CreateWorkoutSet.t :=
  CreateWorkoutSet.mk
    (ExerciseWorkoutForm.exerciseId exercise)
    (ExerciseWorkoutForm.exerciseName exercise)
    (Z.of_nat index + 1)
    (if String.eqb (WorkoutSetForm.weight set) "" then None
     else Some (Number (WorkoutSetForm.weight set)))
    (Math_round (Number (WorkoutSetForm.reps set)))
    (WorkoutSetForm.technique set)
    (if String.eqb (WorkoutSetForm.restTime set) "" then None
     else Some (Math_round (Number (WorkoutSetForm.restTime set)))).

Definition payloadSets (exercises : list ExerciseWorkoutForm.t)
    : list CreateWorkoutSet.t :=
  flat_map (fun exercise =>
              imap (payloadSet exercise) (ExerciseWorkoutForm.sets exercise))
           exercises.

(** A set passes the three checks. *)
Definition set_accepted (set : WorkoutSetForm.t) : bool :=
  reps_accepted (WorkoutSetForm.reps set)
  && optional_accepted (WorkoutSetForm.weight set)
  && optional_accepted (WorkoutSetForm.restTime set).

(** The sum of the target set counts of a routine. *)
Definition totalTargetSets (data : Routine.t) : Z :=
  foldr Z.add 0 (map RoutineExercise.sets (Routine.exercises data)).

(** What an untouched form is expected to submit for one routine entry:
    [sets] elements numbered from 1, no weight, the default repetitions,
    the technique and rest time of the entry. *)
Definition expectedSets (exercise : RoutineExercise.t)
    : list CreateWorkoutSet.t :=
  map (fun i : nat =>
         CreateWorkoutSet.mk
           (RoutineExercise.exerciseId exercise)
           (RoutineExercise.exerciseName exercise)
           (Z.of_nat i + 1)
           None
           (Num (inject_Z (defaultReps exercise)))
           (RoutineExercise.technique exercise)
           (option_map (fun r => Num (inject_Z r))
                       (RoutineExercise.restTime exercise)))
      (seq 0 (Z.to_nat (RoutineExercise.sets exercise))).

(** A routine entry an untouched form can be submitted for: a set count
    that is not negative and, when there are sets, default repetitions of
    at least 1 and numbers within the safe integers. *)
Definition loggable (exercise : RoutineExercise.t) : Prop :=
  0 <= RoutineExercise.sets exercise /\
  (0 < RoutineExercise.sets exercise ->
   1 <= defaultReps exercise <= MAX_SAFE_INTEGER /\
   forall r, RoutineExercise.restTime exercise = Some r -> safe_integer r).

(** The set loadRoutine seeds for every planned set of a routine entry. *)
Definition defaultSet (exercise : RoutineExercise.t) : WorkoutSetForm.t :=
  WorkoutSetForm.mk
    ""
    (String_of_int (defaultReps exercise))
    (RoutineExercise.technique exercise)
    (match RoutineExercise.restTime exercise with
     | Some restTime => String_of_int restTime
     | None => ""
     end).

(** The exercise name of the first set, in list order, of an exercise. *)
Definition nameOf (exerciseId : Z) (sets : list WorkoutSet.t) : string :=
  match setsOf exerciseId sets with
  | set :: _ => WorkoutSet.exerciseName set
  | [] => ""
  end.

(** The entry the grouping is expected to hold for an exercise id. *)
Definition groupOf (sets : list WorkoutSet.t) (exerciseId : Z)
    : Z * ExerciseGroup.t :=
  (exerciseId,
   ExerciseGroup.mk (nameOf exerciseId sets) (setsOf exerciseId sets)).

(** Ascending order of set numbers. *)
Definition setNumber_le (a b : WorkoutSet.t) : Prop :=
  WorkoutSet.setNumber a <= WorkoutSet.setNumber b.

(** ** Sample data for the worked examples *)

Module Sample.

(** One exercise, 3 target sets, rep range 8-12, technique normal. *)
Definition press : RoutineExercise.t :=
  RoutineExercise.mk 7 "Press de banca" 3 (Some 8) (Some 12) normal None.

Definition routine : Routine.t := Routine.mk 1 "Empuje" [press].

(** startedAt = 2024-01-01T10:00 *)
Definition startText : string := "2024-01-01T10:00".

(** completedAt = 2024-01-01T10:45 *)
Definition endText : string := "2024-01-01T10:45".

(** The untouched form, marked completed at 10:45. *)
Definition completedState (durationMinutes : string) : FormState.t :=
  FormState.mk (Some routine) (materialize routine) startText true endText
               durationMinutes "".

(** The untouched form with the given start and completion texts. *)
Definition datedState (startedAt completedAt : string) : FormState.t :=
  FormState.mk (Some routine) (materialize routine) startedAt true completedAt
               "" "".

(** A form with one exercise whose sets are [sets]. *)
Definition stateWithSets (startedAt : string) (sets : list WorkoutSetForm.t)
    : FormState.t :=
  FormState.mk (Some routine)
    [ExerciseWorkoutForm.mk 7 "Press de banca" (Some "8-12 repeticiones") sets]
    startedAt false "" "" "".

Definition setWith (weight reps restTime : string) : WorkoutSetForm.t :=
  WorkoutSetForm.mk weight reps normal restTime.

(** A routine whose entry has rep range 0-10, as the routine form allows
    (its bounds have min 0). *)
Definition warmUp : RoutineExercise.t :=
  RoutineExercise.mk 8 "Plancha" 3 (Some 0) (Some 10) normal None.

Definition warmUpRoutine : Routine.t := Routine.mk 3 "Core" [warmUp].

(** A routine entry with no sets and only an upper rep bound. *)
Definition emptyEntry : RoutineExercise.t :=
  RoutineExercise.mk 9 "Dominadas" 0 None (Some 12) dropset (Some 90).

Definition emptyRoutine : Routine.t := Routine.mk 2 "Tirón" [emptyEntry].

(** Sets of exercises A (id 1) and B (id 2). *)
Definition setA (setNumber : Z) : WorkoutSet.t :=
  WorkoutSet.mk (10 + setNumber) 1 "A" setNumber None (Num 5) normal None.
Definition setB (setNumber : Z) : WorkoutSet.t :=
  WorkoutSet.mk (20 + setNumber) 2 "B" setNumber None (Num 5) normal None.

End Sample.

(** Case analysis on the check a run of handleSubmit is at. *)
Ltac submit_case :=
  match goal with
  | |- match ?x with _ => _ end = _ -> _ => destruct x eqn:?; cbv iota beta
  end.

(** * Further functions of the pages

    The rest of this part embeds, from the same sources,
      - WorkoutStartPage.tsx: formatSeconds, totalSets, the timer tick,
        handleSetFieldChange, handleMarkCompleted, and AdminPage's
        parseAliases, handleSubmit and handleEdit;
      - WorkoutDetailPage.tsx: formatDuration, formatRestTime,
        calculateVolume, totalVolume, durationInSeconds, and
        RoutineFormPage's loadRoutine, handleSearch, handleAddExercise,
        handleRemoveExercise, moveExercise, handleExerciseFieldChange,
        validateForm and handleSubmit;
      - hooks/useAuth.tsx: exerciseService.getExercises (the URL it
        requests) and exerciseService.search;
    with the library operations they call: [+], [%], Math.floor, Math.max,
    Number.isNaN, toString on Numbers, padStart, split and join. *)

(** ** More of the ECMAScript Number operations *)

Module JsMath.

(** [x + y] *)
Definition add (x y : number) : number :=
  match x, y with
  | NaN, _ | _, NaN => NaN
  | Num a, Num b => round64 (a + b)
  | Infinity, NegInfinity | NegInfinity, Infinity => NaN
  | Infinity, _ | _, Infinity => Infinity
  | NegInfinity, _ | _, NegInfinity => NegInfinity
  end.

(** Math.floor *)
Definition Math_floor (x : number) : number :=
  match x with
  | Num q => Num (inject_Z (Qfloor q))
  | _ => x
  end.

(** Math.max(x, y) *)
Definition Math_max (x y : number) : number :=
  match x, y with
  | NaN, _ | _, NaN => NaN
  | _, _ => if lt x y then y else x
  end.

(** The integer part of a rational, towards zero. *)
Definition Qtrunc (q : Q) : Z :=
  if 0 <=? Qnum q then Qfloor q else Qceiling q.

(** [x % y]: the remainder of the truncating division, which is exact. *)
Definition rem (x y : number) : number :=
  match x, y with
  | NaN, _ | _, NaN => NaN
  | Infinity, _ | NegInfinity, _ => NaN
  | Num a, Infinity | Num a, NegInfinity => Num a
  | Num a, Num b =>
      match Qnum b with
      | Z0 => NaN
      | _ => Num (Qred (a - b * inject_Z (Qtrunc (a / b))))
      end
  end.

(** Number.isNaN *)
Definition isNaN (x : number) : bool :=
  match x with
  | NaN => true
  | _ => false
  end.

(** Truthiness of a Number: 0 and NaN are falsy. *)
Definition truthy_num (x : number) : bool :=
  match x with
  | NaN => false
  | Num q => negb (Qnum q =? 0)
  | _ => true
  end.

(** [x.toString()] and [${x}] of a Number whose text is given here: NaN,
    the infinities and the integers of magnitude below 10^21, which print
    as plain decimal digits.  The text of any other Number is left out:
    [None]. *)
Definition toString (x : number) : option string :=
  match x with
  | NaN => Some "NaN"
  | Infinity => Some "Infinity"
  | NegInfinity => Some "-Infinity"
  | Num q =>
      if (Qden q =? 1)%positive && (Z.abs (Qnum q) <? 10 ^ 21)
      then Some (String_of_int (Qnum q))
      else None
  end.

(** [s.repeat(count)] *)
Fixpoint String_repeat (s : string) (count : nat) : string :=
  match count with
  | O => ""
  | S count' => (s ++ String_repeat s count')%string
  end.

(** [s.padStart(targetLength, fillString)] on a string of one-byte
    characters. *)
Definition padStart (s : string) (targetLength : nat) (fillString : string)
    : string :=
  let fillLen := (targetLength - String.length s)%nat in
  if (fillLen =? 0)%nat || negb (truthy fillString) then s
  else (String.substring 0 fillLen (String_repeat fillString fillLen) ++ s)%string.

(** [s.split(separator)] for a separator of one byte; the pieces of the
    empty string are the empty string alone. *)
Fixpoint split (separator : ascii) (s : string) : list string :=
  match s with
  | EmptyString => [""]
  | String c rest =>
      if Ascii.eqb c separator then "" :: split separator rest
      else
        match split separator rest with
        | piece :: pieces => String c piece :: pieces
        | [] => [String c ""]
        end
  end.

(** [array.join(separator)] *)
Definition join (separator : string) (array : list string) : string :=
  String.concat separator array.

End JsMath.

Import JsMath.
(** ** WorkoutStartPage: field edits, counters, timer and completion *)

(** A key of WorkoutSetForm together with a value of that key's type: the
    last two arguments of handleSetFieldChange. *)
Inductive SetField : Type :=
  | weight_field (value : string)
  | reps_field (value : string)
  | technique_field (value : Technique)
  | restTime_field (value : string).

(** [{ ...set, [field]: value }] *)
Definition set_field (set : WorkoutSetForm.t) (field : SetField)
    : WorkoutSetForm.t :=
  match field with
  | weight_field value =>
      WorkoutSetForm.mk value (WorkoutSetForm.reps set)
        (WorkoutSetForm.technique set) (WorkoutSetForm.restTime set)
  | reps_field value =>
      WorkoutSetForm.mk (WorkoutSetForm.weight set) value
        (WorkoutSetForm.technique set) (WorkoutSetForm.restTime set)
  | technique_field value =>
      WorkoutSetForm.mk (WorkoutSetForm.weight set) (WorkoutSetForm.reps set)
        value (WorkoutSetForm.restTime set)
  | restTime_field value =>
      WorkoutSetForm.mk (WorkoutSetForm.weight set) (WorkoutSetForm.reps set)
        (WorkoutSetForm.technique set) value
  end.

Definition handleSetFieldChange (exerciseIndex setIndex : nat)
    (field : SetField) (prev : list ExerciseWorkoutForm.t)
    : list ExerciseWorkoutForm.t :=
  imap (fun exIdx exercise =>
          if negb (exIdx =? exerciseIndex)%nat then exercise
          else
            let updatedSets :=
              imap (fun sIdx set =>
                      if negb (sIdx =? setIndex)%nat then set
                      else set_field set field)
                   (ExerciseWorkoutForm.sets exercise) in
            ExerciseWorkoutForm.mk
              (ExerciseWorkoutForm.exerciseId exercise)
              (ExerciseWorkoutForm.exerciseName exercise)
              (ExerciseWorkoutForm.targetRange exercise)
              updatedSets)
       prev.

(** The totalSets memo of WorkoutStartPage. *)
Definition totalSets (exercises : list ExerciseWorkoutForm.t) : nat :=
  fold_left (fun sum exercise =>
               (sum + length (ExerciseWorkoutForm.sets exercise))%nat)
            exercises 0%nat.

(** One set-editing event of the page, as its inputs and buttons raise
    them. *)
Inductive SetEdit : Type :=
  | ChangeField (exerciseIndex setIndex : nat) (field : SetField)
  | AddSet (exerciseIndex : nat)
  | RemoveSet (exerciseIndex setIndex : nat).

(** The state update the event's handler passes to setExercises. *)
Definition setExercises (routine : option Routine.t) (edit : SetEdit)
    (prev : list ExerciseWorkoutForm.t) : list ExerciseWorkoutForm.t :=
  match edit with
  | ChangeField exerciseIndex setIndex field =>
      handleSetFieldChange exerciseIndex setIndex field prev
  | AddSet exerciseIndex => handleAddSet routine exerciseIndex prev
  | RemoveSet exerciseIndex setIndex =>
      handleRemoveSet exerciseIndex setIndex prev
  end.

(** The events of a session, applied in order. *)
Definition editSession (routine : option Routine.t) (edits : list SetEdit)
    (prev : list ExerciseWorkoutForm.t) : list ExerciseWorkoutForm.t :=
  fold_left (fun exercises edit => setExercises routine edit exercises)
            edits prev.

(** The updater of the running timer's interval. *)
Definition tick (prev : number) : number := add prev (Num 1).

Definition formatSeconds (totalSeconds : number) : option string :=
  let minutes := Math_floor (div totalSeconds (Num 60)) in
  let seconds := rem totalSeconds (Num 60) in
  minutesText ← toString minutes;
  secondsText ← toString seconds;
  Some (padStart minutesText 2 "0" ++ ":" ++ padStart secondsText 2 "0")%string.

(** [now] is the text formatDateTimeLocal(new Date()) gives at the time
    of the call. *)
Definition handleMarkCompleted (checked : bool) (now : string)
    (state : FormState.t) : FormState.t :=
  FormState.mk
    (FormState.routine state)
    (FormState.exercises state)
    (FormState.startedAt state)
    checked
    (if checked
     then if truthy (FormState.completedAt state)
          then FormState.completedAt state
          else now
     else "")
    (FormState.durationMinutes state)
    (FormState.notes state).

(** ** AdminPage: the exercise form *)

Module Exercise.
Record t : Type := mk {
  id : Z;
  name : string;
  description : option string;
  videoPath : option string;
  aliases : list string
}.
End Exercise.

Module ExerciseFormState.
Record t : Type := mk {
  name : string;
  description : string;
  videoPath : string;
  aliases : string
}.
End ExerciseFormState.

Module ExercisePayload.
Record t : Type := mk {
  name : string;
  description : option string;
  videoPath : option string;
  aliases : list string
}.
End ExercisePayload.

(** [text || undefined] *)
Definition or_undefined (text : string) : option string :=
  if truthy text then Some text else None.

(** [text || ''] for an optional text. *)
Definition or_empty (text : option string) : string :=
  match text with
  | Some text => if truthy text then text else ""
  | None => ""
  end.

Module AdminPage.

Definition parseAliases (aliasesValue : string) : list string :=
  List.filter (fun alias => (0 <? String.length alias)%nat)
    (map (fun alias => trim alias) (split "," aliasesValue)).

Definition msg_name : string := "El nombre del ejercicio es obligatorio.".

(** How handleSubmit goes on after its check: with a message for
    setFormError, or with the call of exerciseService it makes. *)
Inductive outcome : Type :=
  | setFormError (message : string)
  | updateExercise (id : Z) (payload : ExercisePayload.t)
  | createExercise (payload : ExercisePayload.t).

Definition handleSubmit (selectedExercise : option Exercise.t)
    (formState : ExerciseFormState.t) : outcome :=
  if negb (truthy (trim (ExerciseFormState.name formState)))
  then setFormError msg_name
  else
    let payload :=
      ExercisePayload.mk
        (trim (ExerciseFormState.name formState))
        (or_undefined (trim (ExerciseFormState.description formState)))
        (or_undefined (trim (ExerciseFormState.videoPath formState)))
        (parseAliases (ExerciseFormState.aliases formState)) in
    match selectedExercise with
    | Some selected => updateExercise (Exercise.id selected) payload
    | None => createExercise payload
    end.

(** The form state handleEdit stores for [exercise]. *)
Definition handleEdit (exercise : Exercise.t) : ExerciseFormState.t :=
  ExerciseFormState.mk
    (Exercise.name exercise)
    (or_empty (Exercise.description exercise))
    (or_empty (Exercise.videoPath exercise))
    (join ", " (Exercise.aliases exercise)).

End AdminPage.

(** ** WorkoutDetailPage: durations, rest times and volume *)

Module Workout.
Record t : Type := mk {
  startedAt : string;
  completedAt : option string;
  duration : option number;
  sets : option (list WorkoutSet.t)
}.
End Workout.

(** [seconds] is [None] for undefined and null. *)
Definition formatDuration (seconds : option number) : option string :=
  match seconds with
  | None => Some "N/A"
  | Some seconds =>
      if lt seconds (Num 0) then Some "N/A"
      else
        let hours := Math_floor (div seconds (Num 3600)) in
        let minutes := Math_floor (div (rem seconds (Num 3600)) (Num 60)) in
        let remainingSeconds := Math_floor (rem seconds (Num 60)) in
        if gt hours (Num 0) then
          hoursText ← toString hours;
          minutesText ← toString minutes;
          Some (hoursText ++ "h " ++ minutesText ++ "m")%string
        else if gt minutes (Num 0) then
          minutesText ← toString minutes;
          secondsText ← toString remainingSeconds;
          Some (minutesText ++ "m " ++ secondsText ++ "s")%string
        else
          secondsText ← toString remainingSeconds;
          Some (secondsText ++ "s")%string
  end.

Definition formatRestTime (seconds : option number) : option string :=
  match seconds with
  | None => Some "—"
  | Some seconds =>
      if lt seconds (Num 60) then
        secondsText ← toString seconds;
        Some (secondsText ++ "s")%string
      else
        let minutes := Math_floor (div seconds (Num 60)) in
        let remainingSeconds := rem seconds (Num 60) in
        if gt remainingSeconds (Num 0) then
          minutesText ← toString minutes;
          secondsText ← toString remainingSeconds;
          Some (minutesText ++ "m " ++ secondsText ++ "s")%string
        else
          minutesText ← toString minutes;
          Some (minutesText ++ "m")%string
  end.

Definition calculateVolume (set : WorkoutSet.t) : number :=
  match WorkoutSet.weight set with
  | None => Num 0
  | Some weight => mul weight (WorkoutSet.reps set)
  end.

(** [sets] is workout?.sets. *)
Definition totalVolume (sets : option (list WorkoutSet.t)) : number :=
  match sets with
  | None => Num 0
  | Some sets =>
      fold_left (fun acc current => add acc (calculateVolume current))
                sets (Num 0)
  end.

Section Detail.

Variable Date_getTime : string -> option Z.

(** [new Date(text).getTime()] as a Number. *)
Definition getTime (text : string) : number :=
  match Date_getTime text with
  | Some timeValue => of_Z timeValue
  | None => NaN
  end.

Definition durationInSeconds (workout : option Workout.t) : option number :=
  match workout with
  | None => None
  | Some workout =>
      match Workout.duration workout with
      | Some duration => Some duration
      | None =>
          match Workout.completedAt workout with
          | Some completedAt =>
              if truthy completedAt then
                let start := getTime (Workout.startedAt workout) in
                let end_ := getTime completedAt in
                if negb (isNaN start) && negb (isNaN end_) && le start end_
                then Some (Math_round (div (sub end_ start) (Num 1000)))
                else None
              else None
          | None => None
          end
      end
  end.

End Detail.

(** ** RoutineFormPage *)

(** The technique names as the forms and payloads hold them. *)
Definition Technique_name (technique : Technique) : string :=
  match technique with
  | normal => "normal"
  | dropset => "dropset"
  | myo_reps => "myo-reps"
  | failure => "failure"
  | rest_pause => "rest-pause"
  end.

(** [technique] is a string: handleExerciseFieldChange stores the text it
    is given under a type assertion. *)
Module RoutineExerciseForm.
Record t : Type := mk {
  exerciseId : Z;
  exerciseName : string;
  sets : number;
  repRangeMin : option number;
  repRangeMax : option number;
  technique : string;
  restTime : option number
}.
End RoutineExerciseForm.

Module CreateRoutineExercise.
Record t : Type := mk {
  exerciseId : Z;
  sets : number;
  technique : string;
  orderInRoutine : Z;
  repRangeMin : option number;
  repRangeMax : option number;
  restTime : option number
}.
End CreateRoutineExercise.

Module CreateRoutineRequest.
Record t : Type := mk {
  name : string;
  description : option string;
  exercises : list CreateRoutineExercise.t
}.
End CreateRoutineRequest.

Inductive Direction : Type := up | down.

(** The keys of RoutineExerciseForm. *)
Inductive FormKey : Type :=
  | key_exerciseId
  | key_exerciseName
  | key_sets
  | key_repRangeMin
  | key_repRangeMax
  | key_technique
  | key_restTime.

(** ** exerciseService: the request of a search *)

Module exerciseService.

(** An uppercase hexadecimal digit. *)
Definition hex_digit (n : N) : ascii :=
  ascii_of_N (if (n <? 10)%N then 48 + n else 55 + n).

(** A byte the application/x-www-form-urlencoded serializer of
    URLSearchParams leaves as it is: an ASCII letter or digit, or one of
    [*], [-], [.] and [_]. *)
Definition unreserved (c : ascii) : bool :=
  let n := N_of_ascii c in
  (((48 <=? n) && (n <=? 57)) || ((65 <=? n) && (n <=? 90))
   || ((97 <=? n) && (n <=? 122))
   || (n =? 42) || (n =? 45) || (n =? 46) || (n =? 95))%N.

(** The serializer on one byte of the UTF-8 text: a space becomes [+],
    any other byte outside the set becomes [%] and two hexadecimal
    digits. *)
Definition percent_encode (c : ascii) : string :=
  if unreserved c then String c ""
  else if (N_of_ascii c =? 32)%N then "+"
  else String "%" (String (hex_digit (N_of_ascii c / 16))
                     (String (hex_digit (N_of_ascii c mod 16)) "")).

Fixpoint urlencode (s : string) : string :=
  match s with
  | EmptyString => ""
  | String c rest => (percent_encode c ++ urlencode rest)%string
  end.

(** URLSearchParams.prototype.toString over the pairs appended so far. *)
Definition URLSearchParams_toString (list : list (string * string)) : string :=
  join "&" (map (fun pair =>
                   (urlencode (fst pair) ++ "=" ++ urlencode (snd pair))%string)
                list).

(** [searchParams.append(name, value.toString())] under [if (value)]. *)
Definition append_number (name : string) (value : option number)
    (searchParams : list (string * string)) : option (list (string * string)) :=
  match value with
  | Some value =>
      if truthy_num value then
        text ← toString value; Some (searchParams ++ [(name, text)])
      else Some searchParams
  | None => Some searchParams
  end.

(** The URL getExercises requests for the fields of [params]; [None]
    where the text of a page or limit is one [toString] leaves out. *)
Definition getExercises (q : option string) (page limit : option number)
    : option string :=
  let searchParams : list (string * string) := [] in
  let searchParams :=
    match q with
    | Some q => if truthy q then searchParams ++ [("q", q)] else searchParams
    | None => searchParams
    end in
  searchParams ← append_number "page" page searchParams;
  searchParams ← append_number "limit" limit searchParams;
  let query := URLSearchParams_toString searchParams in
  Some (if truthy query then ("/api/exercises?" ++ query)%string
        else "/api/exercises").

Definition search (query : string) (page limit : option number)
    : option string :=
  let trimmedQuery := trim query in
  getExercises (or_undefined trimmedQuery) page limit.

End exerciseService.

Module RoutineFormPage.

(** The rows loadRoutine stores for the routine it fetched. *)
Definition loadRoutine (routine : Routine.t) : list RoutineExerciseForm.t :=
  map (fun exercise =>
         RoutineExerciseForm.mk
           (RoutineExercise.exerciseId exercise)
           (RoutineExercise.exerciseName exercise)
           (of_Z (RoutineExercise.sets exercise))
           (of_Z <$> RoutineExercise.repRangeMin exercise)
           (of_Z <$> RoutineExercise.repRangeMax exercise)
           (Technique_name (RoutineExercise.technique exercise))
           (of_Z <$> RoutineExercise.restTime exercise))
      (Routine.exercises routine).

(** The ids of the addedExerciseIds memo, computed from the rows of the
    last render. *)
Definition addedExerciseIds (routineExercises : list RoutineExerciseForm.t)
    : list Z :=
  map RoutineExerciseForm.exerciseId routineExercises.

(** [rendered] are the rows of the render whose handler runs, [prev] the
    rows the state updater receives. *)
Definition handleAddExercise (rendered : list RoutineExerciseForm.t)
    (exercise : Exercise.t) (prev : list RoutineExerciseForm.t)
    : list RoutineExerciseForm.t :=
  if bool_decide (Exercise.id exercise ∈ addedExerciseIds rendered) then prev
  else
    prev ++ [RoutineExerciseForm.mk (Exercise.id exercise)
               (Exercise.name exercise) (Num 3) None None "normal" None].

Definition handleRemoveExercise (index : nat)
    (prev : list RoutineExerciseForm.t) : list RoutineExerciseForm.t :=
  filter_index (fun idx => negb (idx =? index)%nat) 0 prev.

(** [array.splice(start, 0, item)] *)
Definition splice_insert {A : Type} (start : nat) (item : A) (array : list A)
    : list A :=
  take start array ++ item :: drop start array.

(** The rows after the move; an entry is [None] where the array holds
    undefined. *)
Definition moveExercise (index : nat) (direction : Direction)
    (prev : list RoutineExerciseForm.t) : list (option RoutineExerciseForm.t) :=
  let newExercises := prev in
  let targetIndex :=
    match direction with
    | up => Z.of_nat index - 1
    | down => Z.of_nat index + 1
    end in
  if (targetIndex <? 0) || (Z.of_nat (length newExercises) <=? targetIndex)
  then Some <$> prev
  else
    let movedExercise := newExercises !! index in
    let newExercises := delete index newExercises in
    splice_insert (Z.to_nat targetIndex) movedExercise (Some <$> newExercises).

Definition handleExerciseFieldChange (index : nat) (field : FormKey)
    (value : string) (prev : list RoutineExerciseForm.t)
    : list RoutineExerciseForm.t :=
  imap (fun idx exercise =>
          if negb (idx =? index)%nat then exercise
          else
            match field with
            | key_technique =>
                RoutineExerciseForm.mk
                  (RoutineExerciseForm.exerciseId exercise)
                  (RoutineExerciseForm.exerciseName exercise)
                  (RoutineExerciseForm.sets exercise)
                  (RoutineExerciseForm.repRangeMin exercise)
                  (RoutineExerciseForm.repRangeMax exercise)
                  value
                  (RoutineExerciseForm.restTime exercise)
            | key_sets =>
                let parsed := Number value in
                RoutineExerciseForm.mk
                  (RoutineExerciseForm.exerciseId exercise)
                  (RoutineExerciseForm.exerciseName exercise)
                  (if isNaN parsed then Num 0 else Math_max (Num 1) parsed)
                  (RoutineExerciseForm.repRangeMin exercise)
                  (RoutineExerciseForm.repRangeMax exercise)
                  (RoutineExerciseForm.technique exercise)
                  (RoutineExerciseForm.restTime exercise)
            | _ =>
                let numericValue :=
                  if String.eqb value "" then None else Some (Number value) in
                match field with
                | key_repRangeMin =>
                    RoutineExerciseForm.mk
                      (RoutineExerciseForm.exerciseId exercise)
                      (RoutineExerciseForm.exerciseName exercise)
                      (RoutineExerciseForm.sets exercise)
                      numericValue
                      (RoutineExerciseForm.repRangeMax exercise)
                      (RoutineExerciseForm.technique exercise)
                      (RoutineExerciseForm.restTime exercise)
                | key_repRangeMax =>
                    RoutineExerciseForm.mk
                      (RoutineExerciseForm.exerciseId exercise)
                      (RoutineExerciseForm.exerciseName exercise)
                      (RoutineExerciseForm.sets exercise)
                      (RoutineExerciseForm.repRangeMin exercise)
                      numericValue
                      (RoutineExerciseForm.technique exercise)
                      (RoutineExerciseForm.restTime exercise)
                | key_restTime =>
                    RoutineExerciseForm.mk
                      (RoutineExerciseForm.exerciseId exercise)
                      (RoutineExerciseForm.exerciseName exercise)
                      (RoutineExerciseForm.sets exercise)
                      (RoutineExerciseForm.repRangeMin exercise)
                      (RoutineExerciseForm.repRangeMax exercise)
                      (RoutineExerciseForm.technique exercise)
                      numericValue
                | _ => exercise
                end
            end)
       prev.

Definition msg_search : string :=
  "Ingresa un término de búsqueda para encontrar ejercicios.".

(** How handleSearch goes on after its check: with the message for
    setSearchError, or with the URL that exerciseService.search
    requests. *)
Inductive searchOutcome : Type :=
  | setSearchError (message : string)
  | requested (url : option string).

Definition handleSearch (searchTerm : string) : searchOutcome :=
  if negb (truthy (trim searchTerm)) then setSearchError msg_search
  else requested (exerciseService.search (trim searchTerm) None None).

Definition msg_name : string := "El nombre de la rutina es obligatorio.".
Definition msg_no_exercises : string :=
  "Agrega al menos un ejercicio a la rutina.".
Definition msg_sets (exerciseName : string) : string :=
  ("Define la cantidad de series para " ++ exerciseName ++ ".")%string.
Definition msg_range (exerciseName : string) : string :=
  ("El rango de repeticiones en " ++ exerciseName ++ " no es válido.")%string.

(** The body of the loop of validateForm for the rows still to visit:
    the message of the first row that fails a check. *)
Fixpoint validateExercises (routineExercises : list RoutineExerciseForm.t)
    : option string :=
  match routineExercises with
  | [] => None
  | exercise :: rest =>
      if negb (truthy_num (RoutineExerciseForm.sets exercise))
         || lt (RoutineExerciseForm.sets exercise) (Num 1)
      then Some (msg_sets (RoutineExerciseForm.exerciseName exercise))
      else if match RoutineExerciseForm.repRangeMin exercise,
                    RoutineExerciseForm.repRangeMax exercise with
              | Some repRangeMin, Some repRangeMax => gt repRangeMin repRangeMax
              | _, _ => false
              end
      then Some (msg_range (RoutineExerciseForm.exerciseName exercise))
      else validateExercises rest
  end.

(** [Some message]: setError(message) and the result false; [None]:
    setError('') and the result true. *)
Definition validateForm (name : string)
    (routineExercises : list RoutineExerciseForm.t) : option string :=
  if negb (truthy (trim name)) then Some msg_name
  else if (length routineExercises =? 0)%nat then Some msg_no_exercises
  else validateExercises routineExercises.

(** How handleSubmit goes on after validateForm: with the message, or
    with the call of routineService it makes. *)
Inductive outcome : Type :=
  | setError (message : string)
  | updateRoutine (id : number) (payload : CreateRoutineRequest.t)
  | createRoutine (payload : CreateRoutineRequest.t).

(** [id] is the route parameter; [name] and [description] are the fields
    of formData. *)
Definition handleSubmit (id : option string) (name description : string)
    (routineExercises : list RoutineExerciseForm.t) : outcome :=
  match validateForm name routineExercises with
  | Some message => setError message
  | None =>
      let payload :=
        CreateRoutineRequest.mk
          (trim name)
          (or_undefined (trim description))
          (imap (fun index exercise =>
                   CreateRoutineExercise.mk
                     (RoutineExerciseForm.exerciseId exercise)
                     (RoutineExerciseForm.sets exercise)
                     (RoutineExerciseForm.technique exercise)
                     (Z.of_nat index + 1)
                     (RoutineExerciseForm.repRangeMin exercise)
                     (RoutineExerciseForm.repRangeMax exercise)
                     (RoutineExerciseForm.restTime exercise))
                routineExercises) in
      match id with
      | Some id => if truthy id then updateRoutine (Number id) payload
                   else createRoutine payload
      | None => createRoutine payload
      end
  end.

End RoutineFormPage.

(** ** Notions used in the further statements *)


(** The exercise has at least one set. *)
Definition has_sets (exercise : ExerciseWorkoutForm.t) : Prop :=
  ExerciseWorkoutForm.sets exercise <> [].

(** The Number [k / 2]: a weight entered in steps of half a unit. *)
Definition halves (k : Z) : number := Num (Qred (k # 2)).

(** Twice the volume of a set of [reps] repetitions at [k] half units, or
    at no weight. *)
Definition doubleVolume (row : option Z * Z) : Z :=
  match fst row with
  | Some k => k * snd row
  | None => 0
  end.

(** The rest of a string after one leading white space code point;
    [None] when the string does not start with one. *)
Definition white_space_prefix (s : string) : option string :=
  match s with
  | String a r =>
      if white_space1 a then Some r
      else
        match r with
        | String b r2 =>
            if white_space2 a b then Some r2
            else
              match r2 with
              | String c r3 => if white_space3 a b c then Some r3 else None
              | EmptyString => None
              end
        | EmptyString => None
        end
  | EmptyString => None
  end.

(** The byte [c] occurs in [s]. *)
Fixpoint contains (c : ascii) (s : string) : bool :=
  match s with
  | EmptyString => false
  | String a r => Ascii.eqb a c || contains c r
  end.

(** An alias as the exercise payload carries it: trimmed, not empty and
    free of commas. *)
Definition clean_alias (alias : string) : Prop :=
  trim alias = alias /\ alias <> "" /\ contains "," alias = false.

(** The exercise id and set number a payload set is filed under. *)
Definition filedUnder (set : CreateWorkoutSet.t) : Z * Z :=
  (CreateWorkoutSet.exerciseId set, CreateWorkoutSet.setNumber set).

(** The places of the sets of one form exercise: its id with the numbers
    1, 2, ... up to the number of its sets. *)
Definition places (exercise : ExerciseWorkoutForm.t) : list (Z * Z) :=
  map (fun number : nat =>
         (ExerciseWorkoutForm.exerciseId exercise, Z.of_nat number))
      (seq 1 (length (ExerciseWorkoutForm.sets exercise))).

(** A text that needs no escaping inside a query string: unreserved
    bytes, [%] and [+] only. *)
Fixpoint query_text (s : string) : bool :=
  match s with
  | EmptyString => true
  | String c rest =>
      (exerciseService.unreserved c || Ascii.eqb c "%" || Ascii.eqb c "+")
      && query_text rest
  end.

(** * Properties *)

(** ** Numbers and their decimal text *)

Module JsNumberFacts.

Lemma Qred_inject_Z (z : Z) : Qred (inject_Z z) = inject_Z z.
Proof.
  apply Qcanon.Qred_identity. simpl. apply Z.gcd_1_r.
Qed.

Lemma div_half_even_1 (n : Z) : div_half_even n 1 = n.
Proof.
  unfold div_half_even. rewrite Z.mod_1_r, Z.div_1_r. reflexivity.
Qed.

Lemma floor_log2_integer (p : positive) :
  floor_log2 (Zpos p) 1 = Z.log2 (Zpos p).
Proof.
  unfold floor_log2. change (Z.log2 1) with 0. rewrite Z.sub_0_r.
  pose proof (Z.log2_nonneg (Zpos p)) as Hk.
  destruct (Z.leb_spec 0 (Z.log2 (Zpos p))) as [_ | ?]; [| lia].
  destruct (Z.log2_spec (Zpos p)) as [Hlo _]; [lia |].
  destruct (Z.leb_spec (1 * 2 ^ Z.log2 (Zpos p)) (Zpos p)); [reflexivity | lia].
Qed.

Lemma log2_safe (p : positive) : Zpos p < 2 ^ 53 -> Z.log2 (Zpos p) <= 52.
Proof.
  intros Hp. enough (Z.log2 (Zpos p) < 53) by lia.
  apply Z.log2_lt_pow2; lia.
Qed.

(** An integer of magnitude below 2^53 is a binary64 value: rounding
    leaves it alone. *)
Lemma round64_pos_integer (p : positive) :
  Zpos p < 2 ^ 53 ->
  round64_pos (Zpos p) 1 = Some (inject_Z (Zpos p)).
Proof.
  intros Hp. pose proof (log2_safe p Hp) as Hk.
  pose proof (Z.log2_nonneg (Zpos p)) as Hk0.
  unfold round64_pos, ulp_exp. rewrite floor_log2_integer.
  remember (Z.log2 (Zpos p)) as k eqn:Ek.
  replace (Z.max (k - 52) (-1074)) with (k - 52) by lia.
  destruct (Z.leb_spec 0 (k - 52)) as [Hge | Hlt].
  - assert (k - 52 = 0) as -> by lia.
    change (1 * 2 ^ 0) with 1. rewrite div_half_even_1, <- Ek.
    destruct (Z.leb_spec 1024 (0 + k)); [lia |].
    now rewrite Z.mul_1_r.
  - rewrite div_half_even_1.
    assert (0 < 2 ^ (- (k - 52))) as Hpow by (apply Z.pow_pos_nonneg; lia).
    rewrite Z.log2_mul_pow2, <- Ek by lia.
    destruct (Z.leb_spec 1024 (k - 52 + (- (k - 52) + k))); [lia |].
    f_equal. rewrite <- Qred_inject_Z. apply Qred_complete.
    unfold Qeq. simpl. rewrite Z2Pos.id by lia. lia.
Qed.

Lemma of_Z_safe (z : Z) : safe_integer z -> of_Z z = Num (inject_Z z).
Proof.
  unfold safe_integer, MAX_SAFE_INTEGER, of_Z, round64. intros Hz.
  destruct z as [| p | p]; simpl.
  - reflexivity.
  - rewrite round64_pos_integer by lia. reflexivity.
  - rewrite round64_pos_integer by lia.
    change (- inject_Z (Zpos p))%Q with (inject_Z (Zneg p)).
    now rewrite Qred_inject_Z.
Qed.

Lemma Math_round_integer (z : Z) :
  Math_round (Num (inject_Z z)) = Num (inject_Z z).
Proof.
  unfold Math_round. do 2 f_equal.
  unfold Qfloor, Qplus, inject_Z. simpl.
  symmetry. apply Z.div_unique with (r := 1); lia.
Qed.

(** Math.round returns an integer-valued Number on every finite input. *)
Lemma Math_round_finite (x : number) :
  isFinite x = true -> exists z : Z, Math_round x = Num (inject_Z z).
Proof.
  destruct x as [| | | q]; try discriminate. intros _.
  exists (Qfloor (q + (1 # 2))). reflexivity.
Qed.

(** The integer Math.round picks is the nearest one, the upper one on a
    tie. *)
Lemma Math_round_nearest (q : Q) (z : Z) :
  Math_round (Num q) = Num (inject_Z z) ->
  (inject_Z z - (1 # 2) <= q)%Q /\ (q < inject_Z z + (1 # 2))%Q.
Proof.
  intros H.
  assert (Qfloor (q + (1 # 2)) = z) as Hz
    by (unfold Math_round in H; injection H as H; exact H).
  pose proof (Qfloor_le (q + (1 # 2))) as Hlo.
  pose proof (Qlt_floor (q + (1 # 2))) as Hhi.
  rewrite Hz in Hlo, Hhi. split.
  - apply Qplus_le_l with (z := 1 # 2). ring_simplify.
    ring_simplify in Hlo. exact Hlo.
  - apply Qplus_lt_l with (z := 1 # 2).
    eapply Qlt_le_trans; [exact Hhi |].
    rewrite inject_Z_plus. ring_simplify. apply Qle_refl.
Qed.

Lemma lt_integer (a b : Z) :
  lt (Num (inject_Z a)) (Num (inject_Z b)) = (a <? b).
Proof.
  unfold lt, Qle_bool. simpl. rewrite !Z.mul_1_r.
  rewrite Z.ltb_antisym. reflexivity.
Qed.

Lemma le_integer (a b : Z) :
  le (Num (inject_Z a)) (Num (inject_Z b)) = (a <=? b).
Proof.
  unfold le, Qle_bool. simpl. rewrite !Z.mul_1_r. reflexivity.
Qed.

(** On finite Numbers [x < y] is the negation of [y <= x]. *)
Lemma lt_not_le (x y : number) :
  isFinite x = true -> isFinite y = true -> lt x y = negb (le y x).
Proof.
  destruct x, y; try discriminate. reflexivity.
Qed.

End JsNumberFacts.

Module JsStringFacts.
Import JsNumberFacts.

Lemma digit_plain (c : ascii) : is_digit c = true -> plain c = true.
Proof.
  destruct c as [[] [] [] [] [] [] [] []]; vm_compute; congruence.
Qed.

Lemma plain_white_space (c : ascii) :
  plain c = true ->
  white_space1 c = false /\
  (forall b, white_space2 c b = false) /\
  (forall b d, white_space3 c b d = false).
Proof.
  destruct c as [[] [] [] [] [] [] [] []]; vm_compute; try discriminate;
    intros _; repeat split; reflexivity.
Qed.

Lemma trimStart_plain (c : ascii) (r : string) :
  plain c = true -> trimStart (String c r) = String c r.
Proof.
  intros (H1 & H2 & H3)%plain_white_space. simpl. rewrite H1.
  destruct r as [| b r2]; [reflexivity |]. rewrite H2.
  destruct r2 as [| d r3]; [reflexivity |]. now rewrite H3.
Qed.

Lemma white_space_only_plain (c : ascii) (r : string) :
  plain c = true -> white_space_only (String c r) = false.
Proof.
  intros (H1 & H2 & H3)%plain_white_space. simpl. rewrite H1.
  destruct r as [| b r2]; [reflexivity |]. rewrite H2.
  destruct r2 as [| d r3]; [reflexivity |]. now rewrite H3.
Qed.

Lemma trimEnd_plain (c : ascii) (r : string) :
  plain c = true -> trimEnd (String c r) = String c (trimEnd r).
Proof.
  intros H. change (trimEnd (String c r))
    with (if white_space_only (String c r) then EmptyString
          else String c (trimEnd r)).
  now rewrite white_space_only_plain.
Qed.

Lemma digit_not_sign (c : ascii) :
  is_digit c = true -> c <> "+"%char /\ c <> "-"%char /\ c <> "I"%char.
Proof.
  destruct c as [[] [] [] [] [] [] [] []]; vm_compute; intros;
    repeat split; congruence.
Qed.

Lemma all_digits_uint (d : Decimal.uint) :
  all_digits (NilEmpty.string_of_uint d) = true.
Proof.
  induction d; simpl; auto.
Qed.

Lemma string_of_uint_nonempty (d : Decimal.uint) :
  d <> Decimal.Nil -> NilEmpty.string_of_uint d <> "".
Proof.
  destruct d; simpl; congruence.
Qed.

Lemma span_all_digits (s : string) :
  all_digits s = true -> span_digits s = (s, "").
Proof.
  induction s as [| c r IH]; simpl; [reflexivity |].
  intros [Hc Hr]%andb_prop. rewrite Hc, (IH Hr). reflexivity.
Qed.

Lemma trimStart_digits (s : string) :
  all_digits s = true -> trimStart s = s.
Proof.
  destruct s as [| c r]; [reflexivity |]. simpl.
  intros [Hc _]%andb_prop. apply trimStart_plain. now apply digit_plain.
Qed.

Lemma trimEnd_digits (s : string) :
  all_digits s = true -> trimEnd s = s.
Proof.
  induction s as [| c r IH]; [reflexivity |]. simpl all_digits.
  intros [Hc Hr]%andb_prop.
  rewrite trimEnd_plain by (now apply digit_plain). now rewrite IH.
Qed.

Lemma trim_digits (s : string) : all_digits s = true -> trim s = s.
Proof.
  intros H. unfold trim. now rewrite trimStart_digits, trimEnd_digits.
Qed.

Lemma append_empty_r (s : string) : (s ++ "")%string = s.
Proof.
  induction s as [| c r IH]; [reflexivity |].
  change (String c (r ++ "")%string = String c r). now rewrite IH.
Qed.

(** A non-empty string of digits is read as the integer it writes. *)
Lemma unsigned_decimal_uint (d : Decimal.uint) :
  d <> Decimal.Nil ->
  unsigned_decimal (NilEmpty.string_of_uint d) = Some (inject_Z (Z.of_uint d)).
Proof.
  intros Hd. unfold unsigned_decimal.
  rewrite span_all_digits by apply all_digits_uint.
  rewrite append_empty_r.
  assert (digits_value (NilEmpty.string_of_uint d) = Some (Z.of_uint d)) as ->.
  { unfold digits_value. rewrite NilEmpty.usu.
    pose proof (string_of_uint_nonempty d Hd).
    destruct (NilEmpty.string_of_uint d); [congruence | reflexivity]. }
  pose proof (string_of_uint_nonempty d Hd).
  destruct (NilEmpty.string_of_uint d); [congruence |].
  simpl. unfold scale10. simpl. now rewrite Z.mul_1_r.
Qed.

Lemma decimal_literal_digits (s : string) :
  all_digits s = true -> s <> "" ->
  decimal_literal s = option_map round64 (unsigned_decimal s).
Proof.
  intros Hs Hne. destruct s as [| c r]; [congruence |].
  simpl in Hs. apply andb_prop in Hs as [Hc _].
  destruct (digit_not_sign c Hc) as (Hplus & Hminus & HI).
  unfold decimal_literal.
  destruct c as [[] [] [] [] [] [] [] []]; try discriminate Hc;
    cbv beta iota; (rewrite (proj2 (String.eqb_neq _ _)) by discriminate);
    destruct (unsigned_decimal _); reflexivity.
Qed.

Lemma Number_positive (p : positive) :
  Number (String_of_int (Zpos p)) = of_Z (Zpos p).
Proof.
  unfold String_of_int. simpl. unfold NilZero.string_of_uint.
  pose proof (DecimalPos.Unsigned.to_uint_nonnil p) as Hd.
  destruct (Pos.to_uint p) as [| | | | | | | | | |] eqn:Ed; [congruence | ..];
    rewrite <- Ed in *;
    (unfold Number; rewrite trim_digits by apply all_digits_uint;
     pose proof (string_of_uint_nonempty _ Hd) as Hne;
     destruct (NilEmpty.string_of_uint (Pos.to_uint p)) eqn:Es; [congruence |];
     rewrite <- Es in *;
     rewrite decimal_literal_digits by (auto using all_digits_uint);
     rewrite unsigned_decimal_uint by exact Hd; simpl;
     unfold Z.of_uint; rewrite DecimalPos.Unsigned.of_to; reflexivity).
Qed.

Lemma Number_negative (p : positive) :
  Number (String_of_int (Zneg p)) = of_Z (Zneg p).
Proof.
  unfold String_of_int. simpl. unfold NilZero.string_of_uint.
  pose proof (DecimalPos.Unsigned.to_uint_nonnil p) as Hd.
  pose proof (string_of_uint_nonempty _ Hd) as Hne.
  pose proof (all_digits_uint (Pos.to_uint p)) as Hall.
  pose proof (unsigned_decimal_uint _ Hd) as Hval.
  assert (match Pos.to_uint p with
          | Decimal.Nil => "0"
          | _ => NilEmpty.string_of_uint (Pos.to_uint p)
          end = NilEmpty.string_of_uint (Pos.to_uint p)) as ->
    by (destruct (Pos.to_uint p); congruence).
  destruct (NilEmpty.string_of_uint (Pos.to_uint p)) as [| c r] eqn:Es;
    [congruence |].
  unfold Number, trim.
  rewrite trimStart_plain, trimEnd_plain by reflexivity.
  rewrite (trimEnd_digits _ Hall).
  unfold decimal_literal.
  rewrite (proj2 (String.eqb_neq (String c r) "Infinity")).
  2:{ simpl in Hall. apply andb_prop in Hall as [Hc _].
      destruct (digit_not_sign c Hc) as (_ & _ & HI). congruence. }
  rewrite Hval. unfold Z.of_uint. rewrite DecimalPos.Unsigned.of_to.
  reflexivity.
Qed.

(** Reading back the decimal text of an integer gives the Number value
    for that integer. *)
Lemma Number_String_of_int (z : Z) : Number (String_of_int z) = of_Z z.
Proof.
  destruct z as [| p | p].
  - reflexivity.
  - apply Number_positive.
  - apply Number_negative.
Qed.

Lemma Number_safe_integer (z : Z) :
  safe_integer z -> Number (String_of_int z) = Num (inject_Z z).
Proof.
  intros Hz. rewrite Number_String_of_int. now apply of_Z_safe.
Qed.

(** The decimal text of an integer is never empty. *)
Lemma String_of_int_nonempty (z : Z) : String_of_int z <> "".
Proof.
  unfold String_of_int. destruct z as [| p | p]; simpl; try discriminate.
  unfold NilZero.string_of_uint.
  pose proof (string_of_uint_nonempty _ (DecimalPos.Unsigned.to_uint_nonnil p)).
  destruct (Pos.to_uint p); simpl in *; congruence.
Qed.

End JsStringFacts.

(** ** The target-range label *)

(** C10, counterexample: with repRangeMin = 0 and repRangeMax = 10 both
    bounds exist and differ, so the label should be the range from 0 to
    10; getTargetRange returns the upper-bound label instead.  With only
    repRangeMin = 0 it returns no label at all.  The texts differ from the
    stated ones as well: a hyphen joins the bounds, and the one-sided
    labels carry a space and the word repeticiones. *)
Lemma zero_bound_counts_as_absent :
  let zeroToTen := Sample.warmUp in
  let zeroOnly := RoutineExercise.mk 1 "Plancha" 3 (Some 0) None normal None in
  let eightOnly := RoutineExercise.mk 1 "Plancha" 3 (Some 8) None normal None in
  getTargetRange zeroToTen = Some "≤ 10 repeticiones" /\
  spec_targetRange zeroToTen = Some "0–10 repeticiones" /\
  getTargetRange zeroToTen <> spec_targetRange zeroToTen /\
  getTargetRange zeroOnly = None /\
  spec_targetRange zeroOnly = Some "≥0" /\
  getTargetRange eightOnly = Some "≥ 8 repeticiones" /\
  spec_targetRange eightOnly = Some "≥8" /\
  getTargetRange Sample.press = Some "8-12 repeticiones" /\
  spec_targetRange Sample.press = Some "8–12 repeticiones".
Proof.
  repeat split; try (vm_compute; reflexivity). vm_compute. discriminate.
Qed.

(** C10, as the code has it: for a routine entry whose existing bounds are
    not 0, the label is "min-max repeticiones" when both bounds exist and
    differ, "N repeticiones" when both exist and are equal, "≥ min
    repeticiones" when only the minimum exists, "≤ max repeticiones" when
    only the maximum exists, and absent when neither exists. *)
Theorem getTargetRange_labels (exercise : RoutineExercise.t) :
  (forall lo, RoutineExercise.repRangeMin exercise = Some lo -> lo <> 0) ->
  (forall hi, RoutineExercise.repRangeMax exercise = Some hi -> hi <> 0) ->
  getTargetRange exercise =
  match RoutineExercise.repRangeMin exercise,
        RoutineExercise.repRangeMax exercise with
  | Some lo, Some hi =>
      if lo =? hi then Some (String_of_int lo ++ " repeticiones")%string
      else Some (String_of_int lo ++ "-" ++ String_of_int hi
                 ++ " repeticiones")%string
  | Some lo, None => Some ("≥ " ++ String_of_int lo ++ " repeticiones")%string
  | None, Some hi => Some ("≤ " ++ String_of_int hi ++ " repeticiones")%string
  | None, None => None
  end.
Proof.
  intros Hlo Hhi. unfold getTargetRange, truthy_number, strict_eq, template.
  destruct (RoutineExercise.repRangeMin exercise) as [lo |],
           (RoutineExercise.repRangeMax exercise) as [hi |]; simpl;
    repeat match goal with
           | |- context [?z =? 0] =>
               rewrite (proj2 (Z.eqb_neq z 0)) by auto
           end; reflexivity.
Qed.

(** The entry with rep range 8-12. *)
Lemma getTargetRange_labels_witness :
  (forall lo, RoutineExercise.repRangeMin Sample.press = Some lo -> lo <> 0) /\
  (forall hi, RoutineExercise.repRangeMax Sample.press = Some hi -> hi <> 0) /\
  getTargetRange Sample.press = Some "8-12 repeticiones".
Proof.
  assert (forall lo, RoutineExercise.repRangeMin Sample.press = Some lo ->
                     lo <> 0) as Hlo by (intros lo [= <-]; discriminate).
  assert (forall hi, RoutineExercise.repRangeMax Sample.press = Some hi ->
                     hi <> 0) as Hhi by (intros hi [= <-]; discriminate).
  refine (conj Hlo (conj Hhi _)).
  exact (getTargetRange_labels Sample.press Hlo Hhi).
Defined.

(** ** Set editing *)

Module EditFacts.

(** A map over the exercises that only touches position [i] replaces the
    element there and leaves the others alone. *)
Lemma imap_at {A : Type} (f : nat -> A -> A) (l : list A) (i : nat) (x : A) :
  l !! i = Some x ->
  (forall j y, j <> i -> f j y = y) ->
  imap f l = <[i := f i x]> l.
Proof.
  intros Hi Hf. apply list_eq. intros j. rewrite list_lookup_imap.
  destruct (decide (j = i)) as [-> | Hne].
  - rewrite Hi, list_lookup_insert_eq by (eapply lookup_lt_Some; eauto).
    reflexivity.
  - rewrite list_lookup_insert_ne by congruence.
    destruct (l !! j); simpl; [rewrite Hf |]; auto.
Qed.

(** A map over the exercises that finds no position [i] changes nothing. *)
Lemma imap_out {A : Type} (f : nat -> A -> A) (l : list A) (i : nat) :
  l !! i = None ->
  (forall j y, j <> i -> f j y = y) ->
  imap f l = l.
Proof.
  intros Hi Hf. apply list_eq. intros j. rewrite list_lookup_imap.
  destruct (decide (j = i)) as [-> | Hne].
  - now rewrite Hi.
  - destruct (l !! j); simpl; [rewrite Hf |]; auto.
Qed.

Lemma filter_index_all {A : Type} (keep : nat -> bool) (array : list A) :
  forall start : nat,
  (forall idx, (start <= idx)%nat -> keep idx = true) ->
  filter_index keep start array = array.
Proof.
  induction array as [| x rest IH]; intros start Hkeep; simpl;
    [reflexivity |].
  rewrite Hkeep by lia. f_equal. apply IH. intros idx Hidx. apply Hkeep. lia.
Qed.

(** Filtering out one index is deleting the element at that index. *)
Lemma filter_index_delete {A : Type} (array : list A) :
  forall start setIndex : nat,
  filter_index (fun idx => negb (idx =? start + setIndex)%nat) start array
  = take setIndex array ++ drop (S setIndex) array.
Proof.
  induction array as [| x rest IH]; intros start setIndex; simpl.
  - now destruct setIndex.
  - destruct setIndex as [| k]; simpl.
    + rewrite Nat.add_0_r, Nat.eqb_refl. simpl. rewrite drop_0.
      apply filter_index_all. intros idx Hidx.
      destruct (Nat.eqb_spec idx start); [lia | reflexivity].
    + destruct (Nat.eqb_spec start (start + S k)) as [E | _]; [lia |]. simpl.
      f_equal. rewrite <- (IH (S start) k).
      replace (S start + k)%nat with (start + S k)%nat by lia. reflexivity.
Qed.

End EditFacts.
Import EditFacts.

(** Add set on an exercise that has sets: one set is appended, with the
    reps, technique and rest time of the last set and an empty weight;
    the other exercises are left as they were. *)
Lemma handleAddSet_clones_last (routine : option Routine.t)
    (prev : list ExerciseWorkoutForm.t) (exerciseIndex : nat)
    (exercise : ExerciseWorkoutForm.t) (lastSet : WorkoutSetForm.t) :
  prev !! exerciseIndex = Some exercise ->
  last (ExerciseWorkoutForm.sets exercise) = Some lastSet ->
  handleAddSet routine exerciseIndex prev =
  <[exerciseIndex :=
      ExerciseWorkoutForm.mk
        (ExerciseWorkoutForm.exerciseId exercise)
        (ExerciseWorkoutForm.exerciseName exercise)
        (ExerciseWorkoutForm.targetRange exercise)
        (ExerciseWorkoutForm.sets exercise ++
         [WorkoutSetForm.mk "" (WorkoutSetForm.reps lastSet)
            (WorkoutSetForm.technique lastSet)
            (WorkoutSetForm.restTime lastSet)])]> prev.
Proof.
  intros Hex Hlast. unfold handleAddSet.
  erewrite imap_at; [| exact Hex |].
  - rewrite Nat.eqb_refl, Hlast. reflexivity.
  - intros j y Hj. now rewrite (proj2 (Nat.eqb_neq j exerciseIndex)).
Qed.

(** Add set on an exercise without sets: the appended set takes reps from
    repRangeMin of the routine entry, else 10, and the technique and rest
    time of the entry. *)
Lemma handleAddSet_empty_list (routine : Routine.t)
    (prev : list ExerciseWorkoutForm.t) (exerciseIndex : nat)
    (exercise : ExerciseWorkoutForm.t) (entry : RoutineExercise.t) :
  prev !! exerciseIndex = Some exercise ->
  ExerciseWorkoutForm.sets exercise = [] ->
  Routine.exercises routine !! exerciseIndex = Some entry ->
  handleAddSet (Some routine) exerciseIndex prev =
  <[exerciseIndex :=
      ExerciseWorkoutForm.mk
        (ExerciseWorkoutForm.exerciseId exercise)
        (ExerciseWorkoutForm.exerciseName exercise)
        (ExerciseWorkoutForm.targetRange exercise)
        [WorkoutSetForm.mk ""
           (String_of_int (nullish (RoutineExercise.repRangeMin entry) 10))
           (RoutineExercise.technique entry)
           (match RoutineExercise.restTime entry with
            | Some restTime => String_of_int restTime
            | None => ""
            end)]]> prev.
Proof.
  intros Hex Hsets Hentry. unfold handleAddSet.
  erewrite imap_at; [| exact Hex |].
  - rewrite Nat.eqb_refl, Hsets. simpl. rewrite Hentry. reflexivity.
  - intros j y Hj. now rewrite (proj2 (Nat.eqb_neq j exerciseIndex)).
Qed.

(** C7: Add set on an exercise whose set list is empty must fall back to
    the routine defaults, reps being repRangeMin if present, else
    repRangeMax, else 10.  For the entry with no lower bound and upper
    bound 12 the default is 12, the value loadRoutine seeds, but
    handleAddSet appends a set with reps 10: it never looks at
    repRangeMax. *)
Theorem handleAddSet_ignores_repRangeMax :
  materialize Sample.emptyRoutine
  = [ExerciseWorkoutForm.mk 9 "Dominadas" (Some "≤ 12 repeticiones") []] /\
  handleAddSet (Some Sample.emptyRoutine) 0 (materialize Sample.emptyRoutine)
  = [ExerciseWorkoutForm.mk 9 "Dominadas" (Some "≤ 12 repeticiones")
       [WorkoutSetForm.mk "" "10" dropset "90"]] /\
  String_of_int (defaultReps Sample.emptyEntry) = "12" /\
  WorkoutSetForm.reps (defaultSet Sample.emptyEntry) = "12".
Proof.
  repeat split; vm_compute; reflexivity.
Qed.

(** C8: Remove set on an exercise with exactly one set leaves the whole
    form unchanged; on an exercise with more sets it deletes the set at
    the given index of that exercise and nothing else; and an exercise
    that had at least one set still has at least one after any remove. *)
Theorem handleRemoveSet_spec (prev : list ExerciseWorkoutForm.t)
    (exerciseIndex setIndex : nat) :
  (forall exercise,
     prev !! exerciseIndex = Some exercise ->
     length (ExerciseWorkoutForm.sets exercise) = 1%nat ->
     handleRemoveSet exerciseIndex setIndex prev = prev) /\
  (forall exercise,
     prev !! exerciseIndex = Some exercise ->
     (1 < length (ExerciseWorkoutForm.sets exercise))%nat ->
     (setIndex < length (ExerciseWorkoutForm.sets exercise))%nat ->
     handleRemoveSet exerciseIndex setIndex prev =
     <[exerciseIndex :=
         ExerciseWorkoutForm.mk
           (ExerciseWorkoutForm.exerciseId exercise)
           (ExerciseWorkoutForm.exerciseName exercise)
           (ExerciseWorkoutForm.targetRange exercise)
           (take setIndex (ExerciseWorkoutForm.sets exercise) ++
            drop (S setIndex) (ExerciseWorkoutForm.sets exercise))]> prev /\
     length (take setIndex (ExerciseWorkoutForm.sets exercise) ++
             drop (S setIndex) (ExerciseWorkoutForm.sets exercise))
     = (length (ExerciseWorkoutForm.sets exercise) - 1)%nat) /\
  (length (handleRemoveSet exerciseIndex setIndex prev) = length prev /\
   forall i before after,
     prev !! i = Some before ->
     handleRemoveSet exerciseIndex setIndex prev !! i = Some after ->
     (1 <= length (ExerciseWorkoutForm.sets before))%nat ->
     (1 <= length (ExerciseWorkoutForm.sets after))%nat) /\
  (Forall (fun exercise =>
             (1 <= length (ExerciseWorkoutForm.sets exercise))%nat) prev ->
   Forall (fun exercise =>
             (1 <= length (ExerciseWorkoutForm.sets exercise))%nat)
          (handleRemoveSet exerciseIndex setIndex prev)).
Proof.
  assert (forall i before after,
     prev !! i = Some before ->
     handleRemoveSet exerciseIndex setIndex prev !! i = Some after ->
     (1 <= length (ExerciseWorkoutForm.sets before))%nat ->
     (1 <= length (ExerciseWorkoutForm.sets after))%nat) as Hkeep.
  { intros i before after Hbefore Hafter Hone.
    unfold handleRemoveSet in Hafter.
    rewrite list_lookup_imap, Hbefore in Hafter. simpl in Hafter.
    injection Hafter as <-.
    destruct (negb (i =? exerciseIndex)%nat); [exact Hone |].
    destruct (Nat.leb_spec (length (ExerciseWorkoutForm.sets before)) 1)
      as [_ | Hmany]; [exact Hone |].
    simpl. rewrite (filter_index_delete _ 0 setIndex).
    rewrite length_app, length_take, length_drop. lia. }
  repeat split.
  - intros exercise Hex Hone. unfold handleRemoveSet.
    erewrite imap_at; [| exact Hex |].
    + rewrite Nat.eqb_refl, Hone. simpl. now apply list_insert_id.
    + intros j y Hj. now rewrite (proj2 (Nat.eqb_neq j exerciseIndex)).
  - unfold handleRemoveSet.
    erewrite imap_at; [| eassumption |].
    + rewrite Nat.eqb_refl. simpl.
      destruct (Nat.leb_spec (length (ExerciseWorkoutForm.sets exercise)) 1);
        [lia |].
      now rewrite (filter_index_delete _ 0 setIndex).
    + intros j y Hj. now rewrite (proj2 (Nat.eqb_neq j exerciseIndex)).
  - rewrite length_app, length_take, length_drop. lia.
  - unfold handleRemoveSet. apply length_imap.
  - exact Hkeep.
  - intros Hall. apply Forall_lookup. intros i after Hafter.
    assert (is_Some (prev !! i)) as [before Hbefore].
    { apply lookup_lt_is_Some. apply lookup_lt_Some in Hafter.
      unfold handleRemoveSet in Hafter. now rewrite length_imap in Hafter. }
    eapply Hkeep; eauto.
    rewrite Forall_lookup in Hall. eapply Hall; eauto.
Qed.

(** Removing the second of three sets, then trying to remove down to
    none: the last set stays. *)
Lemma handleRemoveSet_spec_witness :
  let prev := materialize Sample.routine in
  handleRemoveSet 0 1 prev
  = [ExerciseWorkoutForm.mk 7 "Press de banca" (Some "8-12 repeticiones")
       [WorkoutSetForm.mk "" "8" normal ""; WorkoutSetForm.mk "" "8" normal ""]]
  /\ handleRemoveSet 0 0 (handleRemoveSet 0 0 (handleRemoveSet 0 1 prev))
     = handleRemoveSet 0 0 (handleRemoveSet 0 1 prev).
Proof.
  intros prev. split.
  - exact (proj1 (proj1 (proj2 (handleRemoveSet_spec prev 0 1)) _
                    eq_refl ltac:(simpl; lia) ltac:(simpl; lia))).
  - exact (proj1 (handleRemoveSet_spec
                    (handleRemoveSet 0 0 (handleRemoveSet 0 1 prev)) 0 0) _
             eq_refl eq_refl).
Defined.

(** ** The per-set checks and the flattening loops *)

Module FlattenFacts.
Import JsNumberFacts.

(** The code rejects [reps < 1]; on a finite Number that is the negation
    of [1 <= reps]. *)
Lemma reps_check (text : string) :
  negb (isFinite (Number text)) || lt (Number text) (Num 1)
  = negb (reps_accepted text).
Proof.
  unfold reps_accepted.
  destruct (Number text) as [| | | q]; reflexivity.
Qed.

Lemma optional_check (text : string) :
  match (if String.eqb text "" then None else Some (Number text)) with
  | Some x => negb (isFinite x)
  | None => false
  end = negb (optional_accepted text).
Proof.
  unfold optional_accepted. now destruct (String.eqb text "").
Qed.

Lemma flattenSet_eq exercise index set :
  flattenSet exercise index set =
  match set_message set with
  | Some message => inl message
  | None => inr (payloadSet exercise index set)
  end.
Proof.
  unfold flattenSet, set_message, payloadSet.
  rewrite reps_check, !optional_check.
  destruct (reps_accepted _); [| reflexivity].
  destruct (optional_accepted (WorkoutSetForm.weight set)); [| reflexivity].
  destruct (optional_accepted (WorkoutSetForm.restTime set)); [| reflexivity].
  simpl. now destruct (String.eqb (WorkoutSetForm.restTime set) "").
Qed.

Lemma flattenExercise_eq exercise sets : forall index flattenedSets,
  flattenExercise exercise index sets flattenedSets =
  match firstMessage sets with
  | Some message => inl message
  | None =>
      inr (flattenedSets ++
           imap (fun i => payloadSet exercise (index + i)) sets)
  end.
Proof.
  induction sets as [| set rest IH]; intros index flattenedSets; simpl.
  - now rewrite app_nil_r.
  - rewrite flattenSet_eq. destruct (set_message set); [reflexivity |].
    simpl. rewrite IH. destruct (firstMessage rest); [reflexivity |].
    rewrite <- app_assoc. simpl. rewrite Nat.add_0_r.
    do 3 f_equal. apply imap_ext. intros i x _. simpl.
    now rewrite Nat.add_succ_r.
Qed.

Lemma firstMessage_app l1 l2 :
  firstMessage (l1 ++ l2) =
  match firstMessage l1 with
  | Some message => Some message
  | None => firstMessage l2
  end.
Proof.
  induction l1 as [| set rest IH]; simpl; [reflexivity |].
  destruct (set_message set); [reflexivity | exact IH].
Qed.

(** The two loops of handleSubmit: the message of the first failing set,
    or everything pushed. *)
Lemma flattenExercises_eq exercises : forall flattenedSets,
  flattenExercises exercises flattenedSets =
  match firstMessage (allSets exercises) with
  | Some message => inl message
  | None => inr (flattenedSets ++ payloadSets exercises)
  end.
Proof.
  induction exercises as [| exercise rest IH]; intros flattenedSets; simpl.
  - now rewrite app_nil_r.
  - rewrite flattenExercise_eq, firstMessage_app.
    destruct (firstMessage (ExerciseWorkoutForm.sets exercise));
      [reflexivity |].
    simpl. rewrite IH. destruct (firstMessage (allSets rest)); [reflexivity |].
    now rewrite <- app_assoc.
Qed.

Lemma firstMessage_None sets :
  firstMessage sets = None <-> Forall (fun set => set_message set = None) sets.
Proof.
  induction sets as [| set rest IH]; simpl.
  - split; [constructor | reflexivity].
  - destruct (set_message set) eqn:E.
    + split; [discriminate | intros H; inversion H; congruence].
    + rewrite IH. split; [now constructor | intros H; now inversion H].
Qed.

(** The first failing set decides the message. *)
Lemma firstMessage_first before set after message :
  Forall (fun s => set_message s = None) before ->
  set_message set = Some message ->
  firstMessage (before ++ set :: after) = Some message.
Proof.
  intros Hbefore Hset. rewrite firstMessage_app.
  apply firstMessage_None in Hbefore. rewrite Hbefore. simpl. now rewrite Hset.
Qed.

Lemma set_message_None set :
  set_message set = None <->
  reps_accepted (WorkoutSetForm.reps set) = true /\
  optional_accepted (WorkoutSetForm.weight set) = true /\
  optional_accepted (WorkoutSetForm.restTime set) = true.
Proof.
  unfold set_message.
  destruct (reps_accepted _), (optional_accepted (WorkoutSetForm.weight set)),
    (optional_accepted (WorkoutSetForm.restTime set)); simpl;
    intuition congruence.
Qed.

Lemma payloadSets_length exercises :
  length (payloadSets exercises) = length (allSets exercises).
Proof.
  unfold payloadSets, allSets.
  induction exercises as [| exercise rest IH]; simpl; [reflexivity |].
  now rewrite !length_app, length_imap, IH.
Qed.

End FlattenFacts.

(** ** handleSubmit *)

Module SubmitFacts.
Import JsNumberFacts JsStringFacts FlattenFacts.

Lemma truthy_true (s : string) : truthy s = true <-> s <> "".
Proof.
  destruct s; simpl; split; congruence.
Qed.

Lemma truthy_false (s : string) : truthy s = false <-> s = "".
Proof.
  destruct s; simpl; split; congruence.
Qed.

Lemma length_zero {A : Type} (l : list A) : (length l =? 0)%nat = true <-> l = [].
Proof.
  destruct l; simpl; split; congruence.
Qed.

Lemma length_zero_iff_nil' {A : Type} (l : list A) :
  l <> [] -> (length l =? 0)%nat = false.
Proof.
  destruct l; [congruence | reflexivity].
Qed.

(** [x <= 0] fails on a finite Number exactly when [x > 0]. *)
Lemma le_zero_false (x : number) :
  isFinite x = true -> le x (Num 0) = false -> gt x (Num 0) = true.
Proof.
  destruct x as [| | | q]; try discriminate. intros _ H.
  unfold gt, lt. simpl in *. now rewrite H.
Qed.

Section Submit.
Variable Date_getTime : string -> option Z.

(** The checks handleSubmit runs, in order, when the form names a routine,
    a start text and at least one exercise. *)
Lemma handleSubmit_unfold (st : FormState.t) :
  handleSubmit Date_getTime st =
  match FormState.routine st with
  | None => setFormError msg_no_routine
  | Some routine =>
    if negb (truthy (FormState.startedAt st)) then setFormError msg_no_start
    else if (length (FormState.exercises st) =? 0)%nat
    then setFormError msg_no_exercises
    else
      match firstMessage (allSets (FormState.exercises st)) with
      | Some message => setFormError message
      | None =>
        if (length (payloadSets (FormState.exercises st)) =? 0)%nat
        then setFormError msg_no_sets
        else
          match Date_getTime (FormState.startedAt st) with
          | None => setFormError msg_invalid_start
          | Some s =>
            if FormState.markCompleted st && truthy (FormState.completedAt st)
            then
              match Date_getTime (FormState.completedAt st) with
              | None => setFormError msg_invalid_end
              | Some c =>
                if c <? s then setFormError msg_end_before_start
                else if truthy (trim (FormState.durationMinutes st)) then
                  if negb (isFinite (Number (FormState.durationMinutes st)))
                     || le (Number (FormState.durationMinutes st)) (Num 0)
                  then setFormError msg_duration
                  else createWorkout
                    (CreateWorkoutRequest.mk (Routine.id routine)
                       (Routine.name routine) s (Some c)
                       (Some (Math_round
                                (mul (Number (FormState.durationMinutes st))
                                     (Num 60))))
                       (if truthy (trim (FormState.notes st))
                        then Some (trim (FormState.notes st)) else None)
                       (payloadSets (FormState.exercises st)))
                else createWorkout
                  (CreateWorkoutRequest.mk (Routine.id routine)
                     (Routine.name routine) s (Some c)
                     (let d := Math_round (div (sub (of_Z c) (of_Z s))
                                               (Num 1000)) in
                      if gt d (Num 0) then Some d else None)
                     (if truthy (trim (FormState.notes st))
                      then Some (trim (FormState.notes st)) else None)
                     (payloadSets (FormState.exercises st)))
              end
            else if truthy (trim (FormState.durationMinutes st)) then
              if negb (isFinite (Number (FormState.durationMinutes st)))
                 || le (Number (FormState.durationMinutes st)) (Num 0)
              then setFormError msg_duration
              else createWorkout
                (CreateWorkoutRequest.mk (Routine.id routine)
                   (Routine.name routine) s None
                   (Some (Math_round
                            (mul (Number (FormState.durationMinutes st))
                                 (Num 60))))
                   (if truthy (trim (FormState.notes st))
                    then Some (trim (FormState.notes st)) else None)
                   (payloadSets (FormState.exercises st)))
            else createWorkout
              (CreateWorkoutRequest.mk (Routine.id routine)
                 (Routine.name routine) s None None
                 (if truthy (trim (FormState.notes st))
                  then Some (trim (FormState.notes st)) else None)
                 (payloadSets (FormState.exercises st)))
          end
      end
  end.
Proof.
  unfold handleSubmit, bind, toISOString, Date_of_ISOString.
  rewrite flattenExercises_eq. simpl.
  repeat (case_match; simplify_eq/=; try reflexivity; try lia).
Qed.

Lemma set_accepted_message (set : WorkoutSetForm.t) :
  set_message set = None <-> set_accepted set = true.
Proof.
  rewrite set_message_None. unfold set_accepted.
  rewrite !andb_true_iff. tauto.
Qed.

Lemma firstMessage_accepted sets :
  firstMessage sets = None <-> Forall (fun set => set_accepted set = true) sets.
Proof.
  rewrite firstMessage_None. apply Forall_iff. intros set.
  apply set_accepted_message.
Qed.

Lemma set_message_cases set message :
  set_message set = Some message ->
  message = msg_reps \/ message = msg_weight \/ message = msg_rest.
Proof.
  unfold set_message. repeat case_match; intros; simplify_eq; auto.
Qed.

Lemma firstMessage_cases sets message :
  firstMessage sets = Some message ->
  message = msg_reps \/ message = msg_weight \/ message = msg_rest.
Proof.
  induction sets as [| set rest IH]; simpl; [discriminate |].
  destruct (set_message set) eqn:E; [| exact IH].
  intros [= <-]. eauto using set_message_cases.
Qed.

Lemma payloadSets_nil exercises :
  payloadSets exercises = [] <-> allSets exercises = [].
Proof.
  pose proof (payloadSets_length exercises) as H.
  split; intros E; rewrite E in H; simpl in H;
    [symmetry in H |]; now apply length_zero_iff_nil in H.
Qed.

(** What a successful run has checked and what it hands over. *)
Lemma handleSubmit_created (st : FormState.t) (payload : CreateWorkoutRequest.t) :
  handleSubmit Date_getTime st = createWorkout payload ->
  exists routine s,
    FormState.routine st = Some routine /\
    FormState.startedAt st <> "" /\
    FormState.exercises st <> [] /\
    Forall (fun set => set_accepted set = true)
           (allSets (FormState.exercises st)) /\
    allSets (FormState.exercises st) <> [] /\
    Date_getTime (FormState.startedAt st) = Some s /\
    CreateWorkoutRequest.routineId payload = Routine.id routine /\
    CreateWorkoutRequest.routineName payload = Routine.name routine /\
    CreateWorkoutRequest.startedAt payload = s /\
    CreateWorkoutRequest.sets payload = payloadSets (FormState.exercises st).
Proof.
  rewrite handleSubmit_unfold. intros H.
  repeat (case_match; simplify_eq/=);
    (eexists _, _; split; [reflexivity |];
     repeat match goal with
            | H : negb _ = false |- _ => apply negb_false_iff in H
            | H : truthy _ = true |- _ => apply truthy_true in H
            | H : (length _ =? 0)%nat = false |- _ =>
                apply Nat.eqb_neq in H
            | H : firstMessage _ = None |- _ =>
                apply firstMessage_accepted in H
            end;
     repeat split; try assumption; try reflexivity;
     try (intros E; rewrite E in *; simpl in *; congruence);
     try (intros E; apply payloadSets_nil in E; rewrite E in *;
          simpl in *; congruence)).
Qed.

(** The duration a successful run hands over. *)
Lemma handleSubmit_created_duration (st : FormState.t)
    (payload : CreateWorkoutRequest.t) :
  handleSubmit Date_getTime st = createWorkout payload ->
  exists s,
    Date_getTime (FormState.startedAt st) = Some s /\
    (trim (FormState.durationMinutes st) <> "" ->
     isFinite (Number (FormState.durationMinutes st)) = true /\
     gt (Number (FormState.durationMinutes st)) (Num 0) = true /\
     CreateWorkoutRequest.duration payload
     = Some (Math_round (mul (Number (FormState.durationMinutes st))
                             (Num 60)))) /\
    (trim (FormState.durationMinutes st) = "" ->
     FormState.markCompleted st = true ->
     FormState.completedAt st <> "" ->
     exists c,
       Date_getTime (FormState.completedAt st) = Some c /\
       CreateWorkoutRequest.duration payload
       = (let d := Math_round (div (sub (of_Z c) (of_Z s)) (Num 1000)) in
          if gt d (Num 0) then Some d else None)) /\
    (trim (FormState.durationMinutes st) = "" ->
     FormState.markCompleted st = false \/ FormState.completedAt st = "" ->
     CreateWorkoutRequest.duration payload = None).
Proof.
  rewrite handleSubmit_unfold.
  repeat submit_case; try discriminate; intros [= <-];
    cbn [CreateWorkoutRequest.duration];
    (eexists; split; [reflexivity |]);
    repeat match goal with
           | H : truthy _ = true |- _ => apply truthy_true in H
           | H : truthy _ = false |- _ => apply truthy_false in H
           | H : negb _ || _ = false |- _ =>
               apply orb_false_iff in H as [?%negb_false_iff ?]
           | H : _ && _ = true |- _ => apply andb_true_iff in H as [? ?]
           | H : _ && _ = false |- _ => apply andb_false_iff in H as [? | ?]
           end;
    (split; [| split]); intros;
    try congruence;
    try (repeat split; auto using le_zero_false; fail);
    try (eexists; split; [reflexivity | reflexivity]);
    try (destruct_or?; congruence).
Qed.

End Submit.
End SubmitFacts.

Import JsNumberFacts JsStringFacts FlattenFacts SubmitFacts.

(** ** Validation of a submission *)

(** Every run of handleSubmit ends in a message or in a payload. *)
Lemma handleSubmit_not_created Date_getTime st :
  (forall payload, handleSubmit Date_getTime st <> createWorkout payload) ->
  exists message, handleSubmit Date_getTime st = setFormError message.
Proof.
  intros H. destruct (handleSubmit Date_getTime st) as [message | payload].
  - now exists message.
  - now destruct (H payload).
Qed.

Lemma Forall2_imap {A B : Type} (P : A -> Prop) (R : A -> B -> Prop)
    (l : list A) :
  forall f : nat -> A -> B,
  Forall P l -> (forall i x, P x -> R x (f i x)) -> Forall2 R l (imap f l).
Proof.
  induction l as [| x l IH]; intros f Hl Hf; simpl; [constructor |].
  inversion Hl; subst. constructor; [now apply Hf |].
  apply IH; [assumption |]. intros i y. apply Hf.
Qed.

(** Each form set, in submission order, against the element sent for it. *)
Lemma Forall2_payloadSets (P : WorkoutSetForm.t -> Prop)
    (R : WorkoutSetForm.t -> CreateWorkoutSet.t -> Prop)
    (exercises : list ExerciseWorkoutForm.t) :
  Forall P (allSets exercises) ->
  (forall exercise index set, P set -> R set (payloadSet exercise index set)) ->
  Forall2 R (allSets exercises) (payloadSets exercises).
Proof.
  intros HP HR. unfold allSets, payloadSets in *.
  induction exercises as [| exercise rest IH]; simpl in *; [constructor |].
  apply Forall_app in HP as [HP1 HP2].
  apply Forall2_app; [| now apply IH].
  eapply Forall2_imap; [exact HP1 |]. intros i x. apply HR.
Qed.

(** An accepted reps text is stored as an integer that is at least 1. *)
Lemma reps_accepted_round (text : string) :
  reps_accepted text = true ->
  exists z, 1 <= z /\ Math_round (Number text) = Num (inject_Z z).
Proof.
  unfold reps_accepted. destruct (Number text) as [| | | q]; try discriminate.
  simpl. intros H%Qle_bool_iff.
  exists (Qfloor (q + (1 # 2))). split; [| reflexivity].
  change 1 with (Qfloor (inject_Z 1)). apply Qfloor_resp_le.
  eapply Qle_trans; [exact H |].
  rewrite <- (Qplus_0_r q) at 1. apply Qplus_le_r. discriminate.
Qed.

(** C3: every flattened set must have a reps text that reads as a finite
    number >= 1, and weight and rest-time texts that are empty or read as
    finite numbers.  A payload is only assembled when all sets pass; it
    carries, per set, reps and rest rounded by Math.round and the weight
    as parsed.  Otherwise the first offending set, in submission order,
    ends the submission with the message of the check it fails (reps
    before weight before rest time). *)
Theorem set_validation (Date_getTime : string -> option Z) (st : FormState.t) :
  (forall payload,
     handleSubmit Date_getTime st = createWorkout payload ->
     Forall (fun set =>
               reps_accepted (WorkoutSetForm.reps set) = true /\
               optional_accepted (WorkoutSetForm.weight set) = true /\
               optional_accepted (WorkoutSetForm.restTime set) = true)
            (allSets (FormState.exercises st)) /\
     Forall2 (fun set sent =>
                CreateWorkoutSet.reps sent
                  = Math_round (Number (WorkoutSetForm.reps set)) /\
                (exists z, 1 <= z /\
                           CreateWorkoutSet.reps sent = Num (inject_Z z)) /\
                CreateWorkoutSet.weight sent
                  = (if String.eqb (WorkoutSetForm.weight set) "" then None
                     else Some (Number (WorkoutSetForm.weight set))) /\
                CreateWorkoutSet.restTime sent
                  = (if String.eqb (WorkoutSetForm.restTime set) "" then None
                     else Some (Math_round
                                  (Number (WorkoutSetForm.restTime set)))))
             (allSets (FormState.exercises st))
             (CreateWorkoutRequest.sets payload)) /\
  (forall before set after,
     FormState.routine st <> None ->
     FormState.startedAt st <> "" ->
     allSets (FormState.exercises st) = before ++ set :: after ->
     Forall (fun s => set_accepted s = true) before ->
     (reps_accepted (WorkoutSetForm.reps set) = false ->
      handleSubmit Date_getTime st = setFormError msg_reps) /\
     (reps_accepted (WorkoutSetForm.reps set) = true ->
      optional_accepted (WorkoutSetForm.weight set) = false ->
      handleSubmit Date_getTime st = setFormError msg_weight) /\
     (reps_accepted (WorkoutSetForm.reps set) = true ->
      optional_accepted (WorkoutSetForm.weight set) = true ->
      optional_accepted (WorkoutSetForm.restTime set) = false ->
      handleSubmit Date_getTime st = setFormError msg_rest)) /\
  (forall set,
     In set (allSets (FormState.exercises st)) ->
     set_accepted set = false ->
     exists message, handleSubmit Date_getTime st = setFormError message).
Proof.
  split; [| split].
  - intros payload H.
    destruct (handleSubmit_created _ _ _ H)
      as (routine & s & _ & _ & _ & Hall & _ & _ & _ & _ & _ & Hsets).
    split.
    + eapply Forall_impl; [exact Hall |]. intros set Hset.
      unfold set_accepted in Hset. rewrite !andb_true_iff in Hset. tauto.
    + rewrite Hsets. eapply Forall2_payloadSets; [exact Hall |].
      intros exercise index set Hset. simpl.
      unfold set_accepted in Hset. rewrite !andb_true_iff in Hset.
      destruct Hset as [[Hreps _] _].
      repeat split. now apply reps_accepted_round.
  - intros before set after Hroutine Hstart Hsets Hbefore.
    assert (FormState.exercises st <> []) as Hex.
    { intros E. rewrite E in Hsets. now destruct before. }
    assert (forall message, set_message set = Some message ->
            handleSubmit Date_getTime st = setFormError message) as Hhalt.
    { intros message Hmsg. rewrite handleSubmit_unfold.
      destruct (FormState.routine st); [| congruence].
      apply truthy_true in Hstart. rewrite Hstart. simpl.
      assert ((length (FormState.exercises st) =? 0)%nat = false) as ->
        by (destruct (FormState.exercises st); [congruence | reflexivity]).
      rewrite Hsets.
      rewrite (firstMessage_first before set after message); auto.
      eapply Forall_impl; [exact Hbefore |]. intros s Hs.
      now apply set_accepted_message. }
    unfold set_message in Hhalt.
    repeat split; intros; apply Hhalt;
      repeat match goal with H : _ = _ |- _ => rewrite H end; reflexivity.
  - intros set Hin Hrej. apply handleSubmit_not_created. intros payload H.
    destruct (handleSubmit_created _ _ _ H)
      as (routine & s & _ & _ & _ & Hall & _).
    rewrite Forall_forall in Hall. apply list_elem_of_In in Hin.
    specialize (Hall set Hin). congruence.
Qed.

(** The first set is accepted and the second has reps "0": the form ends
    with the reps message, whatever its weight and rest texts. *)
Lemma set_validation_witness :
  let st := Sample.stateWithSets Sample.startText
              [Sample.setWith "" "5.0" ""; Sample.setWith "80" "0" "abc"] in
  handleSubmit UtcHost.Date_getTime st = setFormError msg_reps.
Proof.
  intros st.
  apply (proj1 (proj1 (proj2 (set_validation UtcHost.Date_getTime st))
                  [Sample.setWith "" "5.0" ""] (Sample.setWith "80" "0" "abc") []
                  ltac:(discriminate) ltac:(discriminate) eq_refl
                  ltac:(repeat constructor))).
  vm_compute. reflexivity.
Defined.

(** The reps texts "0", "-1" and "abc" are rejected; "5" and "5.0" are
    accepted and stored as 5. *)
Example reps_examples :
  reps_accepted "0" = false /\
  reps_accepted "-1" = false /\
  reps_accepted "abc" = false /\
  reps_accepted "5" = true /\ Math_round (Number "5") = Num 5 /\
  reps_accepted "5.0" = true /\ Math_round (Number "5.0") = Num 5.
Proof.
  repeat split; vm_compute; reflexivity.
Qed.

(** C5, counterexample: with a start text that is not a date and a set
    whose reps are "0", the form ends with the reps message, not with the
    invalid-start-date message: the sets are checked first. *)
Lemma invalid_start_after_set_checks :
  let st := Sample.stateWithSets "ayer" [Sample.setWith "" "0" ""] in
  FormState.startedAt st <> "" /\
  UtcHost.Date_getTime (FormState.startedAt st) = None /\
  handleSubmit UtcHost.Date_getTime st = setFormError msg_reps /\
  handleSubmit UtcHost.Date_getTime st <> setFormError msg_invalid_start.
Proof.
  intros st. repeat split; try discriminate; vm_compute; reflexivity.
Qed.

(** C5, as the code has it: the text of the start timestamp is parsed
    only after the per-set checks.  A form whose start text is non-empty
    and is not a valid date never assembles a payload, and ends with the
    invalid-start-date message exactly when a routine is loaded, every set
    passes its checks and there is at least one set; otherwise an earlier
    check gives its own message. *)
Theorem invalid_start_date
    (Date_getTime : string -> option Z) (st : FormState.t) :
  FormState.startedAt st <> "" ->
  Date_getTime (FormState.startedAt st) = None ->
  (exists message, handleSubmit Date_getTime st = setFormError message) /\
  (handleSubmit Date_getTime st = setFormError msg_invalid_start <->
   FormState.routine st <> None /\
   allSets (FormState.exercises st) <> [] /\
   Forall (fun set => set_accepted set = true)
          (allSets (FormState.exercises st))).
Proof.
  intros Hstart%truthy_true Hs. split.
  - apply handleSubmit_not_created. intros payload H.
    destruct (handleSubmit_created _ _ _ H) as (? & ? & ?). intuition congruence.
  - rewrite handleSubmit_unfold, Hstart, Hs. simpl.
    rewrite <- firstMessage_accepted, <- payloadSets_nil.
    destruct (FormState.routine st);
      [| split; [discriminate | intros []; congruence]].
    destruct (length (FormState.exercises st) =? 0)%nat eqn:Hex.
    { apply length_zero in Hex. rewrite Hex. simpl.
      split; [discriminate | intros (_ & ? & _); congruence]. }
    destruct (firstMessage _) as [message |] eqn:Hm.
    { split; [| intros (_ & _ & ?); congruence].
      intros [= ->]. apply firstMessage_cases in Hm.
      destruct Hm as [Hm | [Hm | Hm]]; discriminate Hm. }
    destruct (length (payloadSets _) =? 0)%nat eqn:Hp.
    { apply length_zero in Hp.
      split; [discriminate | intros (_ & ? & _); congruence]. }
    apply Nat.eqb_neq in Hp.
    split; [| reflexivity]. intros _. repeat split; [discriminate |].
    intros E. now rewrite E in Hp.
Qed.

(** With every set accepted, the start text "ayer" gives the
    invalid-start-date message. *)
Lemma invalid_start_date_witness :
  let st := Sample.stateWithSets "ayer" [Sample.setWith "" "8" ""] in
  FormState.startedAt st <> "" /\
  UtcHost.Date_getTime (FormState.startedAt st) = None /\
  handleSubmit UtcHost.Date_getTime st = setFormError msg_invalid_start.
Proof.
  intros st. split; [discriminate |]. split; [reflexivity |].
  apply (proj2 (invalid_start_date UtcHost.Date_getTime st
                  ltac:(discriminate) eq_refl)).
  split; [discriminate |]. split; [discriminate |]. repeat constructor.
Defined.

(** C4: a submission marked completed whose completion text is supplied,
    with both timestamps valid dates and the completion strictly before
    the start, never assembles a payload: the run ends in a form error,
    and when the earlier checks pass the message is the one of the
    completion-before-start check. *)
Theorem completedAt_before_startedAt_rejected
    (Date_getTime : string -> option Z) (st : FormState.t) (s c : Z) :
  FormState.markCompleted st = true ->
  FormState.completedAt st <> "" ->
  Date_getTime (FormState.startedAt st) = Some s ->
  Date_getTime (FormState.completedAt st) = Some c ->
  c < s ->
  (forall payload, handleSubmit Date_getTime st <> createWorkout payload) /\
  (exists message, handleSubmit Date_getTime st = setFormError message) /\
  (FormState.routine st <> None ->
   FormState.startedAt st <> "" ->
   allSets (FormState.exercises st) <> [] ->
   Forall (fun set => set_accepted set = true)
          (allSets (FormState.exercises st)) ->
   handleSubmit Date_getTime st = setFormError msg_end_before_start).
Proof.
  intros Hmark Hend%truthy_true Hs Hc Hlt.
  apply Z.ltb_lt in Hlt.
  assert (forall payload, handleSubmit Date_getTime st <> createWorkout payload)
    as Hno.
  { intros payload. rewrite handleSubmit_unfold, Hmark, Hend, Hs, Hc, Hlt.
    simpl. repeat case_match; discriminate. }
  split; [exact Hno |]. split; [now apply handleSubmit_not_created |].
  intros Hroutine Hstart%truthy_true Hsets Hall%firstMessage_accepted.
  rewrite handleSubmit_unfold, Hmark, Hend, Hs, Hc, Hlt, Hstart, Hall.
  destruct (FormState.routine st); [| congruence]. simpl.
  assert (FormState.exercises st <> []) as Hex
    by (intros E; now rewrite E in Hsets).
  apply length_zero_iff_nil' in Hex. rewrite Hex.
  assert (payloadSets (FormState.exercises st) <> []) as Hp
    by (now rewrite payloadSets_nil).
  apply length_zero_iff_nil' in Hp. now rewrite Hp.
Qed.

(** Start 10:00 and completion 09:45 of the same day. *)
Lemma completedAt_before_startedAt_rejected_witness :
  let st := Sample.datedState "2024-01-01T10:00" "2024-01-01T09:45" in
  FormState.markCompleted st = true /\
  FormState.completedAt st <> "" /\
  UtcHost.Date_getTime (FormState.startedAt st) = Some 1704103200000 /\
  UtcHost.Date_getTime (FormState.completedAt st) = Some 1704102300000 /\
  1704102300000 < 1704103200000 /\
  handleSubmit UtcHost.Date_getTime st = setFormError msg_end_before_start.
Proof.
  intros st.
  refine (conj eq_refl (conj _ (conj eq_refl (conj eq_refl (conj eq_refl _)))));
    [discriminate |].
  apply (proj2 (proj2 (completedAt_before_startedAt_rejected
                         UtcHost.Date_getTime st 1704103200000 1704102300000
                         eq_refl ltac:(discriminate) eq_refl eq_refl eq_refl))).
  - discriminate.
  - discriminate.
  - discriminate.
  - repeat constructor.
Defined.

(** C2, counterexample: a duration text made of one space is not empty and
    reads as 0, which is not greater than 0, yet the submission goes
    through with the duration left unset: the text is trimmed before it is
    tested for presence. *)
Lemma blank_duration_submitted :
  let st := FormState.mk (Some Sample.routine) (materialize Sample.routine)
              Sample.startText false "" " " "" in
  FormState.durationMinutes st <> "" /\
  Number (FormState.durationMinutes st) = Num 0 /\
  gt (Number (FormState.durationMinutes st)) (Num 0) = false /\
  exists payload,
    handleSubmit UtcHost.Date_getTime st = createWorkout payload /\
    CreateWorkoutRequest.duration payload = None.
Proof.
  simpl. repeat split; [discriminate |].
  eexists. split; vm_compute; reflexivity.
Qed.

(** C2, as the code has it: the duration of the payload is resolved in
    this order.  When the duration text is not blank (not empty once
    trimmed) it must read as a finite number greater than 0, otherwise the
    submission fails, and the duration is Math.round(minutes * 60).
    Otherwise, when the workout is marked completed and a completion text
    exists, the duration is Math.round((completedAt - startedAt) / 1000),
    recorded only when greater than 0.  Otherwise it is left unset. *)
Theorem duration_resolution
    (Date_getTime : string -> option Z) (st : FormState.t) :
  (forall payload,
     handleSubmit Date_getTime st = createWorkout payload ->
     exists s,
       Date_getTime (FormState.startedAt st) = Some s /\
       (trim (FormState.durationMinutes st) <> "" ->
        isFinite (Number (FormState.durationMinutes st)) = true /\
        gt (Number (FormState.durationMinutes st)) (Num 0) = true /\
        CreateWorkoutRequest.duration payload
        = Some (Math_round (mul (Number (FormState.durationMinutes st))
                                (Num 60)))) /\
       (trim (FormState.durationMinutes st) = "" ->
        FormState.markCompleted st = true ->
        FormState.completedAt st <> "" ->
        exists c,
          Date_getTime (FormState.completedAt st) = Some c /\
          CreateWorkoutRequest.duration payload
          = (let d := Math_round (div (sub (of_Z c) (of_Z s)) (Num 1000)) in
             if gt d (Num 0) then Some d else None)) /\
       (trim (FormState.durationMinutes st) = "" ->
        FormState.markCompleted st = false \/ FormState.completedAt st = "" ->
        CreateWorkoutRequest.duration payload = None)) /\
  (trim (FormState.durationMinutes st) <> "" ->
   isFinite (Number (FormState.durationMinutes st)) = false \/
   gt (Number (FormState.durationMinutes st)) (Num 0) = false ->
   exists message, handleSubmit Date_getTime st = setFormError message).
Proof.
  split; [intros payload; apply handleSubmit_created_duration |].
  intros Hdm Hbad. apply handleSubmit_not_created. intros payload H.
  destruct (handleSubmit_created_duration _ _ _ H) as (s & _ & Ha & _).
  destruct (Ha Hdm) as (Hfin & Hgt & _). destruct Hbad; congruence.
Qed.

(** Explicit minutes "30" on the form completed at 10:45. *)
Lemma duration_resolution_witness :
  exists payload,
    handleSubmit UtcHost.Date_getTime (Sample.completedState "30")
    = createWorkout payload /\
    trim "30" <> "" /\
    CreateWorkoutRequest.duration payload
    = Some (Math_round (mul (Number "30") (Num 60))) /\
    Math_round (mul (Number "30") (Num 60)) = Num 1800.
Proof.
  eexists. split; [vm_compute; reflexivity |].
  split; [discriminate |].
  destruct (proj1 (duration_resolution UtcHost.Date_getTime
                     (Sample.completedState "30")) _ eq_refl)
    as (s & _ & Hminutes & _).
  destruct (Hminutes ltac:(discriminate)) as (_ & _ & Hduration).
  split; [exact Hduration | vm_compute; reflexivity].
Defined.

(** The worked example of the duration rule: start 10:00, completion
    10:45, no explicit minutes gives 2700 seconds. *)
Example duration_from_timestamps :
  exists payload,
    handleSubmit UtcHost.Date_getTime (Sample.completedState "")
    = createWorkout payload /\
    CreateWorkoutRequest.duration payload = Some (Num 2700).
Proof.
  eexists. split; vm_compute; reflexivity.
Qed.

(** The same inputs with explicit minutes "30" give 1800 seconds. *)
Example duration_from_minutes :
  exists payload,
    handleSubmit UtcHost.Date_getTime (Sample.completedState "30")
    = createWorkout payload /\
    CreateWorkoutRequest.duration payload = Some (Num 1800).
Proof.
  eexists. split; vm_compute; reflexivity.
Qed.

Lemma Forall2_Forall_right {A B : Type} (Q : B -> Prop) (l : list A)
    (k : list B) :
  Forall2 (fun _ y => Q y) l k -> Forall Q k.
Proof.
  induction 1; constructor; assumption.
Qed.

(** C6, counterexample: a set with weight -5 and rest time -30 passes every
    check of handleSubmit and both negative numbers reach the payload. *)
Lemma negative_weight_and_rest_submitted :
  exists payload sent,
    handleSubmit UtcHost.Date_getTime
      (Sample.stateWithSets Sample.startText [Sample.setWith "-5" "5" "-30"])
    = createWorkout payload /\
    CreateWorkoutRequest.sets payload = [sent] /\
    CreateWorkoutSet.weight sent = Some (Num (inject_Z (-5))) /\
    CreateWorkoutSet.restTime sent = Some (Num (inject_Z (-30))) /\
    lt (Num (inject_Z (-5))) (Num 0) = true /\
    lt (Num (inject_Z (-30))) (Num 0) = true.
Proof.
  eexists _, _. repeat split; vm_compute; reflexivity.
Qed.

(** C6, as the code has it: in every assembled payload a weight, when
    present, is a finite number and a rest time, when present, is a finite
    integer; handleSubmit puts no condition on their sign. *)
Theorem payload_weight_rest_finite
    (Date_getTime : string -> option Z) (st : FormState.t)
    (payload : CreateWorkoutRequest.t) :
  handleSubmit Date_getTime st = createWorkout payload ->
  Forall (fun sent =>
            (forall w, CreateWorkoutSet.weight sent = Some w ->
                       isFinite w = true) /\
            (forall r, CreateWorkoutSet.restTime sent = Some r ->
                       isFinite r = true /\ exists z, r = Num (inject_Z z)))
         (CreateWorkoutRequest.sets payload).
Proof.
  intros H.
  destruct (handleSubmit_created _ _ _ H)
    as (routine & s & _ & _ & _ & Hall & _ & _ & _ & _ & _ & ->).
  eapply Forall2_Forall_right. eapply Forall2_payloadSets; [exact Hall |].
  intros exercise index set Hset. simpl.
  unfold set_accepted, optional_accepted in Hset.
  rewrite !andb_true_iff in Hset. destruct Hset as [[_ Hw] Hr].
  split.
  - intros w. destruct (String.eqb (WorkoutSetForm.weight set) "");
      [discriminate | intros [= <-]; exact Hw].
  - intros r. destruct (String.eqb (WorkoutSetForm.restTime set) "");
      [discriminate |]. intros [= <-]. simpl in Hr.
    destruct (Math_round_finite _ Hr) as [z Hz]. rewrite Hz. eauto.
Qed.

(** A set with weight "82.5", reps "5" and rest "90". *)
Lemma payload_weight_rest_finite_witness :
  handleSubmit UtcHost.Date_getTime
    (Sample.stateWithSets Sample.startText [Sample.setWith "82.5" "5" "90"])
  = createWorkout
      (CreateWorkoutRequest.mk 1 "Empuje" 1704103200000 None None None
         [CreateWorkoutSet.mk 7 "Press de banca" 1 (Some (Num (165 # 2)))
            (Num 5) normal (Some (Num 90))]) /\
  Forall (fun sent =>
            (forall w, CreateWorkoutSet.weight sent = Some w ->
                       isFinite w = true) /\
            (forall r, CreateWorkoutSet.restTime sent = Some r ->
                       isFinite r = true /\ exists z, r = Num (inject_Z z)))
         [CreateWorkoutSet.mk 7 "Press de banca" 1 (Some (Num (165 # 2)))
            (Num 5) normal (Some (Num 90))].
Proof.
  split; [vm_compute; reflexivity |].
  apply (payload_weight_rest_finite UtcHost.Date_getTime
           (Sample.stateWithSets Sample.startText
              [Sample.setWith "82.5" "5" "90"])
           (CreateWorkoutRequest.mk 1 "Empuje" 1704103200000 None None None
              [CreateWorkoutSet.mk 7 "Press de banca" 1 (Some (Num (165 # 2)))
                 (Num 5) normal (Some (Num 90))])).
  vm_compute. reflexivity.
Defined.

(** ** Materialisation followed by submission *)

Module MaterializeFacts.

Lemma nullish_defaultReps (exercise : RoutineExercise.t) :
  nullish (nullish_opt (RoutineExercise.repRangeMin exercise)
                       (RoutineExercise.repRangeMax exercise)) 10
  = defaultReps exercise.
Proof.
  unfold defaultReps.
  now destruct (RoutineExercise.repRangeMin exercise),
               (RoutineExercise.repRangeMax exercise).
Qed.

Lemma Array_from_const {A : Type} (n : Z) (x : A) :
  Array_from n (fun _ => x) = replicate (Z.to_nat n) x.
Proof.
  unfold Array_from. generalize 0%nat.
  induction (Z.to_nat n) as [| k IH]; intros start; simpl; [reflexivity |].
  now rewrite IH.
Qed.

(** loadRoutine gives every entry [sets] copies of its default set. *)
Lemma materialize_eq (data : Routine.t) :
  materialize data =
  map (fun exercise =>
         ExerciseWorkoutForm.mk
           (RoutineExercise.exerciseId exercise)
           (RoutineExercise.exerciseName exercise)
           (getTargetRange exercise)
           (replicate (Z.to_nat (RoutineExercise.sets exercise))
                      (defaultSet exercise)))
      (Routine.exercises data).
Proof.
  unfold materialize. apply map_ext. intros exercise.
  rewrite Array_from_const. unfold defaultSet.
  now rewrite nullish_defaultReps.
Qed.

Lemma imap_replicate {A B : Type} (n : nat) (x : A) :
  forall f : nat -> A -> B,
  imap f (replicate n x) = map (fun i => f i x) (seq 0 n).
Proof.
  induction n as [| n IH]; intros f; simpl; [reflexivity |].
  rewrite IH, <- seq_shift, map_map. reflexivity.
Qed.

Lemma defaultSet_accepted (exercise : RoutineExercise.t) :
  1 <= defaultReps exercise <= MAX_SAFE_INTEGER ->
  (forall r, RoutineExercise.restTime exercise = Some r -> safe_integer r) ->
  set_accepted (defaultSet exercise) = true.
Proof.
  intros Hreps Hrest. unfold set_accepted, defaultSet. simpl.
  unfold reps_accepted, optional_accepted.
  rewrite Number_safe_integer
    by (unfold safe_integer, MAX_SAFE_INTEGER in *; lia).
  change (Num 1) with (Num (inject_Z 1)). rewrite le_integer.
  rewrite (proj2 (Z.leb_le 1 (defaultReps exercise))) by lia. simpl.
  destruct (RoutineExercise.restTime exercise) as [r |]; simpl;
    [| reflexivity].
  rewrite (Number_safe_integer r) by auto. simpl. apply orb_true_r.
Qed.

(** What is sent for a default set is the expected element. *)
Lemma payloadSet_default (form : ExerciseWorkoutForm.t)
    (exercise : RoutineExercise.t) (index : nat) :
  1 <= defaultReps exercise <= MAX_SAFE_INTEGER ->
  (forall r, RoutineExercise.restTime exercise = Some r -> safe_integer r) ->
  payloadSet form index (defaultSet exercise) =
  CreateWorkoutSet.mk
    (ExerciseWorkoutForm.exerciseId form)
    (ExerciseWorkoutForm.exerciseName form)
    (Z.of_nat index + 1)
    None
    (Num (inject_Z (defaultReps exercise)))
    (RoutineExercise.technique exercise)
    (option_map (fun r => Num (inject_Z r)) (RoutineExercise.restTime exercise)).
Proof.
  intros Hreps Hrest. unfold payloadSet, defaultSet. simpl.
  rewrite Number_safe_integer
    by (unfold safe_integer, MAX_SAFE_INTEGER in *; lia).
  rewrite Math_round_integer. f_equal.
  destruct (RoutineExercise.restTime exercise) as [r |]; simpl;
    [| reflexivity].
  rewrite (proj2 (String.eqb_neq _ _)) by apply String_of_int_nonempty.
  rewrite (Number_safe_integer r) by auto. now rewrite Math_round_integer.
Qed.

Lemma allSets_materialize (data : Routine.t) :
  allSets (materialize data) =
  flat_map (fun exercise =>
              replicate (Z.to_nat (RoutineExercise.sets exercise))
                        (defaultSet exercise))
           (Routine.exercises data).
Proof.
  rewrite materialize_eq. unfold allSets.
  induction (Routine.exercises data) as [| exercise rest IH]; simpl;
    [reflexivity | now rewrite IH].
Qed.

Lemma loggable_sets_accepted (exercises : list RoutineExercise.t) :
  Forall loggable exercises ->
  Forall (fun set => set_accepted set = true)
         (flat_map (fun exercise =>
                      replicate (Z.to_nat (RoutineExercise.sets exercise))
                                (defaultSet exercise))
                   exercises).
Proof.
  induction 1 as [| exercise rest [Hsets Hok] _ IH]; simpl; [constructor |].
  apply Forall_app. split; [| exact IH].
  destruct (Z.to_nat (RoutineExercise.sets exercise)) eqn:En;
    [constructor |].
  destruct Hok as [Hreps Hrest]; [lia |].
  rewrite <- En. apply Forall_replicate. now apply defaultSet_accepted.
Qed.

Lemma payloadSets_materialize (data : Routine.t) :
  Forall loggable (Routine.exercises data) ->
  payloadSets (materialize data) = flat_map expectedSets (Routine.exercises data).
Proof.
  rewrite materialize_eq. unfold payloadSets.
  induction 1 as [| exercise rest [Hsets Hok] _ IH]; simpl; [reflexivity |].
  rewrite IH. f_equal. rewrite imap_replicate. unfold expectedSets.
  destruct (Z.to_nat (RoutineExercise.sets exercise)) eqn:En;
    [reflexivity |].
  destruct Hok as [Hreps Hrest]; [lia |].
  apply map_ext. intros i. now rewrite payloadSet_default.
Qed.

Lemma expectedSets_length (exercises : list RoutineExercise.t) :
  Forall loggable exercises ->
  Z.of_nat (length (flat_map expectedSets exercises))
  = foldr Z.add 0 (map RoutineExercise.sets exercises).
Proof.
  induction 1 as [| exercise rest [Hsets _] _ IH]; simpl; [reflexivity |].
  rewrite length_app, Nat2Z.inj_add, IH. unfold expectedSets.
  rewrite length_map, length_seq. lia.
Qed.

End MaterializeFacts.
Import MaterializeFacts.

(** C1, counterexample: a routine whose only entry has 3 target sets and
    rep range 0-10 has at least one RoutineExercise, yet submitting its
    untouched form produces no payload: the seeded reps are "0" and the
    run ends with the reps message.  A routine whose only entry plans 0
    sets ends with the at-least-one-set message. *)
Lemma untouched_form_not_submitted :
  Routine.exercises Sample.warmUpRoutine <> [] /\
  handleSubmit UtcHost.Date_getTime
    (loadedState Sample.warmUpRoutine Sample.startText)
  = setFormError msg_reps /\
  (forall payload,
     handleSubmit UtcHost.Date_getTime
       (loadedState Sample.warmUpRoutine Sample.startText)
     <> createWorkout payload) /\
  Routine.exercises Sample.emptyRoutine <> [] /\
  handleSubmit UtcHost.Date_getTime
    (loadedState Sample.emptyRoutine Sample.startText)
  = setFormError msg_no_sets.
Proof.
  split; [discriminate |]. split; [vm_compute; reflexivity |].
  split; [intros payload; vm_compute; discriminate |].
  split; [discriminate | vm_compute; reflexivity].
Qed.

(** C1, as the code has it: for a routine whose entries have set counts
    that are not negative and add up to at least one set, and whose entries
    with sets have default repetitions of at least 1 (numbers within the
    safe integers), an untouched form with a valid start text submits a
    payload whose number of sets is the sum of the target set counts and
    whose sets are, entry by entry, numbered 1, 2, ..., n with no weight,
    reps the default (repRangeMin if present, else repRangeMax, else 10)
    and the technique and rest time of the entry. *)
Theorem untouched_form_submission
    (Date_getTime : string -> option Z) (data : Routine.t) (now : string)
    (t : Z) :
  now <> "" ->
  Date_getTime now = Some t ->
  Forall loggable (Routine.exercises data) ->
  0 < totalTargetSets data ->
  exists payload,
    handleSubmit Date_getTime (loadedState data now) = createWorkout payload /\
    Z.of_nat (length (CreateWorkoutRequest.sets payload)) = totalTargetSets data /\
    CreateWorkoutRequest.sets payload
    = flat_map expectedSets (Routine.exercises data).
Proof.
  intros Hnow%truthy_true Ht Hlog Htotal.
  pose proof (expectedSets_length _ Hlog) as Hlen.
  fold (totalTargetSets data) in Hlen.
  pose proof (payloadSets_materialize data Hlog) as Hsets.
  eexists. split; [| split].
  - rewrite handleSubmit_unfold. unfold loadedState. simpl.
    rewrite Hnow, Ht. simpl.
    assert ((length (materialize data) =? 0)%nat = false) as ->.
    { unfold materialize. rewrite length_map.
      apply length_zero_iff_nil'. intros E.
      unfold totalTargetSets in Htotal. rewrite E in Htotal. simpl in Htotal.
      lia. }
    assert (firstMessage (allSets (materialize data)) = None) as ->.
    { apply firstMessage_accepted. rewrite allSets_materialize.
      now apply loggable_sets_accepted. }
    assert ((length (payloadSets (materialize data)) =? 0)%nat = false) as ->.
    { apply Nat.eqb_neq. rewrite Hsets. lia. }
    reflexivity.
  - simpl. rewrite Hsets. exact Hlen.
  - simpl. exact Hsets.
Qed.

(** The end-to-end example: one exercise with 3 target sets, rep range
    8-12 and technique normal submits exactly 3 sets numbered 1, 2, 3 with
    reps 8 and technique normal. *)
Lemma untouched_form_submission_witness :
  Sample.startText <> "" /\
  UtcHost.Date_getTime Sample.startText = Some 1704103200000 /\
  Forall loggable (Routine.exercises Sample.routine) /\
  0 < totalTargetSets Sample.routine /\
  exists payload,
    handleSubmit UtcHost.Date_getTime
      (loadedState Sample.routine Sample.startText) = createWorkout payload /\
    Z.of_nat (length (CreateWorkoutRequest.sets payload)) = 3 /\
    CreateWorkoutRequest.sets payload
    = [CreateWorkoutSet.mk 7 "Press de banca" 1 None (Num 8) normal None;
       CreateWorkoutSet.mk 7 "Press de banca" 2 None (Num 8) normal None;
       CreateWorkoutSet.mk 7 "Press de banca" 3 None (Num 8) normal None].
Proof.
  assert (Forall loggable (Routine.exercises Sample.routine)) as Hlog.
  { constructor; [| constructor].
    unfold loggable, MAX_SAFE_INTEGER, defaultReps, Sample.press. simpl.
    split; [lia |]. intros _. split; [lia | discriminate]. }
  refine (conj _ (conj eq_refl (conj Hlog (conj eq_refl _))));
    [discriminate |].
  exact (untouched_form_submission UtcHost.Date_getTime Sample.routine
           Sample.startText 1704103200000 ltac:(discriminate) eq_refl Hlog
           eq_refl).
Defined.

(** ** Grouping of the persisted sets *)

Module GroupFacts.

Lemma elem_of_firstSeen (keys : list Z) (k : Z) :
  k ∈ firstSeen keys <-> k ∈ keys.
Proof.
  induction keys as [| a rest IH]; simpl; [reflexivity |].
  rewrite !elem_of_cons, list_elem_of_filter, IH.
  destruct (decide (k = a)); intuition.
Qed.

Lemma NoDup_firstSeen (keys : list Z) : NoDup (firstSeen keys).
Proof.
  induction keys as [| a rest IH]; simpl; constructor.
  - rewrite list_elem_of_filter. intuition.
  - now apply NoDup_filter.
Qed.

Lemma filter_split {A : Type} (P : A -> Prop) `{forall x, Decision (P x)}
    (l : list A) : forall (x1 : list A) (a : A) (x2 : list A),
  filter P l = x1 ++ a :: x2 ->
  exists y1 y2, l = y1 ++ a :: y2 /\ filter P y1 = x1 /\ filter P y2 = x2.
Proof.
  induction l as [| b l IH]; intros x1 a x2.
  - rewrite filter_nil. now destruct x1.
  - rewrite filter_cons. destruct (decide (P b)) as [Hb | Hb].
    + destruct x1 as [| c x1]; simpl; intros [= -> E].
      * exists [], l. now rewrite filter_nil.
      * destruct (IH _ _ _ E) as (y1 & y2 & -> & <- & <-).
        exists (c :: y1), y2. repeat split.
        now rewrite filter_cons, decide_True.
    + intros E. destruct (IH _ _ _ E) as (y1 & y2 & -> & <- & <-).
      exists (b :: y1), y2. repeat split.
      now rewrite filter_cons, decide_False.
Qed.

(** A key listed before another was first seen before it: its first
    occurrence comes before every occurrence of the other. *)
Lemma firstSeen_order (keys : list Z) : forall (l1 : list Z) (a : Z)
    (l2 : list Z) (b : Z) (l3 : list Z),
  firstSeen keys = l1 ++ a :: l2 ++ b :: l3 ->
  exists p1 p2, keys = p1 ++ a :: p2 /\ (a ∉ p1) /\ (b ∉ p1).
Proof.
  induction keys as [| k rest IH]; intros l1 a l2 b l3; simpl.
  - now destruct l1.
  - destruct l1 as [| k' l1]; simpl.
    + intros [= -> E]. exists [], rest. repeat split; apply not_elem_of_nil.
    + intros [= <- E]. assert (a <> k /\ b <> k) as [Ha Hb].
      { assert (a ∈ filter (fun k' => k' <> k) (firstSeen rest)) as Ha
          by (rewrite E;
              repeat (rewrite elem_of_app || rewrite elem_of_cons); tauto).
        assert (b ∈ filter (fun k' => k' <> k) (firstSeen rest)) as Hb
          by (rewrite E;
              repeat (rewrite elem_of_app || rewrite elem_of_cons); tauto).
        apply list_elem_of_filter in Ha, Hb. tauto. }
      apply filter_split in E as (y1 & y2 & E1 & _ & E2).
      apply filter_split in E2 as (z1 & z2 & -> & _ & _).
      destruct (IH _ _ _ _ _ E1) as (p1 & p2 & -> & Hp1a & Hp1b).
      exists (k :: p1), p2. repeat split; rewrite not_elem_of_cons; tauto.
Qed.

(** A key seen again changes nothing; a new key goes to the end. *)
Lemma firstSeen_snoc (keys : list Z) (k : Z) :
  firstSeen (keys ++ [k]) =
  if decide (k ∈ keys) then firstSeen keys else firstSeen keys ++ [k].
Proof.
  induction keys as [| a rest IH].
  - case_decide as H; [now apply elem_of_nil in H | reflexivity].
  - change (firstSeen ((a :: rest) ++ [k]))
      with (a :: filter (fun k' => k' <> a) (firstSeen (rest ++ [k]))).
    change (firstSeen (a :: rest))
      with (a :: filter (fun k' => k' <> a) (firstSeen rest)).
    rewrite IH.
    destruct (decide (k ∈ rest)) as [Hin | Hout];
      destruct (decide (k ∈ a :: rest)) as [Hin' | Hout'];
      try (exfalso; apply Hout'; now right).
    + reflexivity.
    + apply elem_of_cons in Hin' as [-> | Hin']; [| contradiction].
      rewrite filter_app, filter_cons, filter_nil.
      destruct (decide (a <> a)); [congruence |]. now rewrite app_nil_r.
    + rewrite filter_app, filter_cons, filter_nil.
      destruct (decide (k <> a)) as [_ | Heq]; [reflexivity |].
      exfalso. apply Hout'. apply elem_of_cons. left.
      destruct (decide (k = a)); [assumption | contradiction].
Qed.

Lemma setsOf_snoc (k : Z) (sets : list WorkoutSet.t) (set : WorkoutSet.t) :
  setsOf k (sets ++ [set]) =
  setsOf k sets ++ (if decide (WorkoutSet.exerciseId set = k) then [set] else []).
Proof.
  unfold setsOf. rewrite filter_app, filter_cons, filter_nil.
  now destruct (decide (WorkoutSet.exerciseId set = k)).
Qed.

Lemma setsOf_nil (k : Z) (sets : list WorkoutSet.t) :
  k ∉ map WorkoutSet.exerciseId sets -> setsOf k sets = [].
Proof.
  unfold setsOf. induction sets as [| set rest IH]; simpl; [reflexivity |].
  rewrite not_elem_of_cons. intros [Hne Hrest].
  rewrite filter_cons, decide_False by congruence. now apply IH.
Qed.

Lemma setsOf_not_nil (k : Z) (sets : list WorkoutSet.t) :
  k ∈ map WorkoutSet.exerciseId sets -> setsOf k sets <> [].
Proof.
  unfold setsOf. induction sets as [| set rest IH]; simpl.
  - intros H. now apply elem_of_nil in H.
  - rewrite elem_of_cons, filter_cons.
    destruct (decide (WorkoutSet.exerciseId set = k)); [discriminate |].
    intros [-> | H]; [congruence | now apply IH].
Qed.

Lemma Map_get_groups (g : Z -> ExerciseGroup.t) (keys : list Z) (k : Z) :
  Map_get k (map (fun k' => (k', g k')) keys) =
  if decide (k ∈ keys) then Some (g k) else None.
Proof.
  induction keys as [| a rest IH].
  - case_decide as H; [now apply elem_of_nil in H | reflexivity].
  - change (Map_get k (map (fun k' => (k', g k')) (a :: rest)))
      with (if a =? k then Some (g a)
            else Map_get k (map (fun k' => (k', g k')) rest)).
    rewrite IH.
    destruct (Z.eqb_spec a k) as [E | Hne];
      destruct (decide (k ∈ rest)) as [Hin | Hout];
      destruct (decide (k ∈ a :: rest)) as [Hin' | Hout'];
      subst; try reflexivity;
      try (exfalso; apply Hout'; now left);
      try (exfalso; apply Hout'; now right).
    apply elem_of_cons in Hin' as [-> | Hin']; congruence.
Qed.

Lemma Map_set_new (g : Z -> ExerciseGroup.t) (keys : list Z) (k : Z)
    (value : ExerciseGroup.t) :
  k ∉ keys ->
  Map_set k value (map (fun k' => (k', g k')) keys)
  = map (fun k' => (k', g k')) keys ++ [(k, value)].
Proof.
  induction keys as [| a rest IH]; simpl; [reflexivity |].
  rewrite not_elem_of_cons. intros [Hne Hrest].
  destruct (Z.eqb_spec a k); [congruence |]. now rewrite IH.
Qed.

Lemma Map_set_seen (g g' : Z -> ExerciseGroup.t) (keys : list Z) (k : Z) :
  NoDup keys -> k ∈ keys ->
  (forall k', k' <> k -> g' k' = g k') ->
  Map_set k (g' k) (map (fun k' => (k', g k')) keys)
  = map (fun k' => (k', g' k')) keys.
Proof.
  intros Hnodup Hin Hg. induction Hnodup as [| a rest Ha Hrest IH]; simpl.
  - now apply elem_of_nil in Hin.
  - destruct (Z.eqb_spec a k) as [-> | Hne].
    + f_equal. apply map_ext_in. intros k' Hk'%list_elem_of_In.
      rewrite Hg; [reflexivity |]. intros ->. contradiction.
    + rewrite (Hg a) by exact Hne. f_equal. apply IH.
      apply elem_of_cons in Hin as [-> | Hin]; [congruence | exact Hin].
Qed.

(** The Map after the forEach: one entry per exercise id, in order of
    first appearance, holding the sets of that exercise in list order. *)
Lemma grouped_eq (sets : list WorkoutSet.t) :
  fold_left groupSet sets [] =
  map (groupOf sets) (firstSeen (map WorkoutSet.exerciseId sets)).
Proof.
  induction sets as [| set sets IH] using rev_ind; [reflexivity |].
  rewrite fold_left_app. simpl. rewrite IH. clear IH.
  rewrite map_app. simpl. rewrite firstSeen_snoc.
  set (k := WorkoutSet.exerciseId set).
  set (keys := firstSeen (map WorkoutSet.exerciseId sets)).
  unfold groupSet. fold k.
  change (map (groupOf sets) keys)
    with (map (fun k' => (k', snd (groupOf sets k'))) keys).
  rewrite Map_get_groups.
  destruct (decide (k ∈ map WorkoutSet.exerciseId sets)) as [Hin | Hout].
  - rewrite decide_True by (now apply elem_of_firstSeen).
    change (map (groupOf (sets ++ [set])) keys)
      with (map (fun k' => (k', snd (groupOf (sets ++ [set]) k'))) keys).
    rewrite <- (Map_set_seen (fun k' => snd (groupOf sets k'))
                  (fun k' => snd (groupOf (sets ++ [set]) k')) keys k).
    + f_equal. unfold groupOf, nameOf. simpl.
      rewrite setsOf_snoc. fold k. rewrite decide_True by reflexivity.
      pose proof (setsOf_not_nil k sets Hin).
      now destruct (setsOf k sets).
    + apply NoDup_firstSeen.
    + now apply elem_of_firstSeen.
    + intros k' Hne. unfold groupOf, nameOf. simpl.
      rewrite setsOf_snoc. fold k. rewrite decide_False by congruence.
      now rewrite app_nil_r.
  - assert (k ∉ keys) as Hkeys by (unfold keys; now rewrite elem_of_firstSeen).
    rewrite decide_False by exact Hkeys.
    rewrite Map_set_new by exact Hkeys.
    rewrite map_app. simpl. f_equal.
    + apply map_ext_in. intros k' Hk'%list_elem_of_In.
      unfold keys in Hk'. rewrite elem_of_firstSeen in Hk'.
      unfold groupOf, nameOf. rewrite setsOf_snoc. fold k.
      rewrite decide_False by (intros <-; apply Hout; exact Hk').
      now rewrite app_nil_r.
    + unfold groupOf, nameOf. rewrite setsOf_snoc. fold k.
      rewrite decide_True by reflexivity.
      now rewrite (setsOf_nil k sets Hout).
Qed.

Lemma flat_map_ext_elem {A B : Type} (f g : A -> list B) (l : list A) :
  (forall x, x ∈ l -> f x = g x) -> flat_map f l = flat_map g l.
Proof.
  induction l as [| a rest IH]; intros H; simpl; [reflexivity |].
  rewrite H by (now left). rewrite IH; [reflexivity |].
  intros x Hx. apply H. now right.
Qed.

(** Adding one element to the group of a key that is listed once adds it
    once to the concatenation of the groups. *)
Lemma flat_map_one_more {B : Type} (g : Z -> list B) (keys : list Z) (k : Z)
    (x : B) :
  NoDup keys -> k ∈ keys ->
  Permutation
    (flat_map (fun k' => g k' ++ (if decide (k = k') then [x] else [])) keys)
    (flat_map g keys ++ [x]).
Proof.
  intros Hnodup. induction Hnodup as [| a rest Ha Hrest IH]; intros Hin.
  - now apply elem_of_nil in Hin.
  - simpl. destruct (decide (k = a)) as [-> | Hne].
    + rewrite (flat_map_ext_elem _ g rest).
      * rewrite <- !app_assoc. apply Permutation_app_head.
        apply Permutation_app_comm.
      * intros k' Hk'. rewrite decide_False by (intros ->; contradiction).
        apply app_nil_r.
    + rewrite app_nil_r, <- app_assoc. apply Permutation_app_head.
      apply IH. apply elem_of_cons in Hin as [-> | Hin]; [congruence | exact Hin].
Qed.

(** The groups are a partition of the list: put end to end they hold the
    sets of the list, each once. *)
Lemma groups_partition (sets : list WorkoutSet.t) :
  Permutation
    (flat_map (fun k => setsOf k sets)
              (firstSeen (map WorkoutSet.exerciseId sets)))
    sets.
Proof.
  induction sets as [| set sets IH] using rev_ind; [reflexivity |].
  rewrite map_app. simpl. rewrite firstSeen_snoc.
  set (k := WorkoutSet.exerciseId set).
  rewrite (flat_map_ext _ _ (fun k' => setsOf_snoc k' sets set)). fold k.
  destruct (decide (k ∈ map WorkoutSet.exerciseId sets)) as [Hin | Hout].
  - rewrite flat_map_one_more.
    + now apply Permutation_app_tail.
    + apply NoDup_firstSeen.
    + now apply elem_of_firstSeen.
  - rewrite flat_map_app. simpl. rewrite decide_True by reflexivity.
    rewrite (setsOf_nil k sets Hout), app_nil_r. simpl.
    apply Permutation_app_tail.
    rewrite (flat_map_ext_elem _ (fun k' => setsOf k' sets)); [exact IH |].
    intros k' Hk'. rewrite elem_of_firstSeen in Hk'.
    rewrite decide_False by (intros E; apply Hout; now rewrite E).
    apply app_nil_r.
Qed.

(** *** The sort *)

Lemma sort_insert_perm {A : Type} (compareFn : A -> A -> Z) (x : A)
    (sorted : list A) :
  Permutation (sort_insert compareFn x sorted) (x :: sorted).
Proof.
  induction sorted as [| y rest IH]; simpl; [reflexivity |].
  destruct (compareFn x y <=? 0); [reflexivity |].
  rewrite IH. apply perm_swap.
Qed.

Lemma Array_sort_perm {A : Type} (compareFn : A -> A -> Z) (array : list A) :
  Permutation (Array_sort compareFn array) array.
Proof.
  induction array as [| x rest IH]; simpl; [reflexivity |].
  rewrite sort_insert_perm. now constructor.
Qed.

Lemma sort_insert_sorted (x : WorkoutSet.t) (sorted : list WorkoutSet.t) :
  Sorted setNumber_le sorted ->
  Sorted setNumber_le (sort_insert bySetNumber x sorted).
Proof.
  induction 1 as [| y rest Hrest IH Hhd]; simpl.
  - repeat constructor.
  - unfold bySetNumber at 1.
    destruct (Z.leb_spec (WorkoutSet.setNumber x - WorkoutSet.setNumber y) 0)
      as [Hle | Hgt].
    + constructor; [now constructor |]. constructor. unfold setNumber_le. lia.
    + constructor; [exact IH |].
      destruct rest as [| z rest']; simpl.
      * constructor. unfold setNumber_le. lia.
      * destruct (bySetNumber x z <=? 0); constructor.
        -- unfold setNumber_le. lia.
        -- now inversion Hhd.
Qed.

Lemma Array_sort_sorted (array : list WorkoutSet.t) :
  Sorted setNumber_le (Array_sort bySetNumber array).
Proof.
  induction array as [| x rest IH]; simpl; [constructor |].
  now apply sort_insert_sorted.
Qed.

(** The sort is stable: the sets with one set number keep their list
    order. *)
Lemma sort_insert_stable (n : Z) (x : WorkoutSet.t)
    (sorted : list WorkoutSet.t) :
  filter (fun s => WorkoutSet.setNumber s = n) (sort_insert bySetNumber x sorted)
  = filter (fun s => WorkoutSet.setNumber s = n) (x :: sorted).
Proof.
  induction sorted as [| y rest IH]; simpl; [reflexivity |].
  unfold bySetNumber at 1.
  destruct (Z.leb_spec (WorkoutSet.setNumber x - WorkoutSet.setNumber y) 0)
    as [Hle | Hgt]; [reflexivity |].
  rewrite (filter_cons _ y), IH, !filter_cons.
  destruct (decide (WorkoutSet.setNumber y = n)),
           (decide (WorkoutSet.setNumber x = n)); try reflexivity. lia.
Qed.

Lemma Array_sort_stable (n : Z) (array : list WorkoutSet.t) :
  filter (fun s => WorkoutSet.setNumber s = n) (Array_sort bySetNumber array)
  = filter (fun s => WorkoutSet.setNumber s = n) array.
Proof.
  induction array as [| x rest IH]; simpl; [reflexivity |].
  rewrite sort_insert_stable, !filter_cons, IH. reflexivity.
Qed.

End GroupFacts.
Import GroupFacts.

(** C9: the display grouping has one group per exercise id of the list,
    in the order in which the ids first appear (an id listed before
    another occurs in the list before every set of the other); the group
    of an id holds
    exactly the sets of the list with that id, sorted by setNumber
    ascending; put together the groups hold every set of the list once.
    The list [(A, 2), (B, 1), (A, 1)] groups into A:[1,2] then B:[1]. *)
Theorem setsByExercise_spec (sets : list WorkoutSet.t) :
  let keys := firstSeen (map WorkoutSet.exerciseId sets) in
  setsByExercise (Some sets)
  = map (fun k => ExerciseGroup.mk (nameOf k sets)
                    (Array_sort bySetNumber (setsOf k sets)))
        keys /\
  NoDup keys /\
  (forall k, k ∈ keys <-> k ∈ map WorkoutSet.exerciseId sets) /\
  (forall l1 a l2 b l3,
     keys = l1 ++ a :: l2 ++ b :: l3 ->
     exists p1 p2,
       map WorkoutSet.exerciseId sets = p1 ++ a :: p2 /\
       (a ∉ p1) /\ (b ∉ p1)) /\
  Forall2 (fun k group =>
             Permutation (ExerciseGroup.sets group) (setsOf k sets) /\
             Sorted setNumber_le (ExerciseGroup.sets group))
          keys (setsByExercise (Some sets)) /\
  Permutation (flat_map ExerciseGroup.sets (setsByExercise (Some sets))) sets /\
  setsByExercise (Some [Sample.setA 2; Sample.setB 1; Sample.setA 1])
  = [ExerciseGroup.mk "A" [Sample.setA 1; Sample.setA 2];
     ExerciseGroup.mk "B" [Sample.setB 1]].
Proof.
  intros keys.
  assert (setsByExercise (Some sets)
          = map (fun k => ExerciseGroup.mk (nameOf k sets)
                            (Array_sort bySetNumber (setsOf k sets)))
                keys) as Heq.
  { unfold setsByExercise. rewrite grouped_eq, map_map. reflexivity. }
  split; [exact Heq |].
  split; [apply NoDup_firstSeen |].
  split; [intros k; apply elem_of_firstSeen |].
  split; [intros l1 a l2 b l3; apply firstSeen_order |].
  split; [| split].
  - rewrite Heq. clear Heq. induction keys as [| k rest IH]; simpl;
      constructor; [| exact IH].
    simpl. split; [apply Array_sort_perm | apply Array_sort_sorted].
  - rewrite Heq. etransitivity; [| apply groups_partition]. fold keys.
    clear Heq. induction keys as [| k rest IH]; simpl; [reflexivity |].
    apply Permutation_app; [apply Array_sort_perm | exact IH].
  - vm_compute. reflexivity.
Qed.

(** The list [(A, 2), (B, 1), (A, 1)]: A is grouped before B, and A occurs
    in the list before every set of B. *)
Lemma setsByExercise_spec_witness :
  setsByExercise (Some [Sample.setA 2; Sample.setB 1; Sample.setA 1])
  = [ExerciseGroup.mk "A" [Sample.setA 1; Sample.setA 2];
     ExerciseGroup.mk "B" [Sample.setB 1]] /\
  exists p1 p2,
    map WorkoutSet.exerciseId [Sample.setA 2; Sample.setB 1; Sample.setA 1]
    = p1 ++ 1 :: p2 /\ (1 ∉ p1) /\ (2 ∉ p1).
Proof.
  pose proof (setsByExercise_spec
                [Sample.setA 2; Sample.setB 1; Sample.setA 1]) as H.
  cbv zeta in H. destruct H as (Heq & _ & _ & Horder & _).
  split; [exact Heq |]. exact (Horder [] 1 [] 2 [] eq_refl).
Defined.

(** * Further properties *)

(** ** Exact quotients *)

Module FloatFacts.
Import JsNumberFacts.

(** The rounded quotient is within one half of the exact one. *)
Lemma div_half_even_bounds (x d : Z) :
  0 < d ->
  2 * x - d <= 2 * div_half_even x d * d <= 2 * x + d.
Proof.
  intros Hd. unfold div_half_even.
  pose proof (Z.div_mod x d ltac:(lia)) as Hx.
  pose proof (Z.mod_pos_bound x d Hd) as Hr.
  destruct (Z.compare_spec (2 * (x mod d)) d) as [E | L | G];
    [destruct (Z.even (x / d)) |..]; nia.
Qed.

Lemma floor_log2_le (n d : Z) :
  floor_log2 n d <= Z.log2 n - Z.log2 d.
Proof.
  unfold floor_log2. repeat case_match; lia.
Qed.

(** [n / d] below 2^52 is rounded on a grid finer than 1: the exponent of
    the last place is negative. *)
Lemma ulp_exp_negative (n d : Z) :
  0 < n < 2 ^ 52 -> 0 < d ->
  - 1074 <= ulp_exp n d < 0 /\
  (ulp_exp n d <= Z.log2 n - Z.log2 d - 52 \/ ulp_exp n d = - 1074).
Proof.
  intros Hn Hd. unfold ulp_exp.
  pose proof (floor_log2_le n d) as Hfl.
  pose proof (Z.log2_nonneg d) as Hd0.
  assert (Z.log2 n < 52) as Hlog by (apply Z.log2_lt_pow2; lia).
  lia.
Qed.

(** The binary64 value of [n / d] for a quotient below 2^52: the nearest
    multiple of 2^-a, where [a] is the negated exponent of the last
    place. *)
Lemma round64_pos_grid (n d : Z) :
  0 < n < 2 ^ 52 -> 0 < d ->
  round64_pos n d
  = Some (Qred (div_half_even (n * 2 ^ (- ulp_exp n d)) d
                # Z.to_pos (2 ^ (- ulp_exp n d)))).
Proof.
  intros Hn Hd. destruct (ulp_exp_negative n d Hn Hd) as [[Hlo Hneg] _].
  unfold round64_pos.
  destruct (Z.leb_spec 0 (ulp_exp n d)) as [? | _]; [lia |].
  set (a := - ulp_exp n d) in *.
  set (m := div_half_even (n * 2 ^ a) d).
  assert (0 < 2 ^ a) as Hpow by (apply Z.pow_pos_nonneg; lia).
  pose proof (div_half_even_bounds (n * 2 ^ a) d Hd) as Hm. fold m in Hm.
  assert (0 <= m) as Hm0 by nia.
  assert (m < 2 ^ (53 + a)) as Hm1.
  { rewrite Z.pow_add_r by lia. change (2 ^ 53) with (2 * 2 ^ 52).
    assert (m <= n * 2 ^ a + 1) by nia. nia. }
  destruct (Z.leb_spec 1024 (ulp_exp n d + Z.log2 m)) as [Hover | _];
    [| reflexivity].
  exfalso. destruct (Z.eq_dec m 0) as [-> | Hne]; [simpl in Hover; lia |].
  assert (Z.log2 m < 53 + a) by (apply Z.log2_lt_pow2; lia). lia.
Qed.

(** The floor of the binary64 quotient of two integers is the integer
    quotient, as long as the grid is finer than [1 / d]. *)
Lemma grid_floor (n d a : Z) :
  0 <= n -> 0 < d -> 0 <= a -> d < 2 ^ (a + 1) ->
  div_half_even (n * 2 ^ a) d / 2 ^ a = n / d.
Proof.
  intros Hn Hd Ha Hfine.
  assert (0 < 2 ^ a) as Hpow by (apply Z.pow_pos_nonneg; lia).
  rewrite Z.pow_add_r in Hfine by lia. change (2 ^ 1) with 2 in Hfine.
  pose proof (div_half_even_bounds (n * 2 ^ a) d Hd) as Hm.
  pose proof (Z.div_mod n d ltac:(lia)) as Hnd.
  pose proof (Z.mod_pos_bound n d Hd) as Hr.
  set (m := div_half_even (n * 2 ^ a) d) in *.
  set (t := n / d) in *. set (P := 2 ^ a) in *.
  symmetry. apply Z.div_unique with (r := m - P * t); [| lia].
  left. split.
  - assert (0 <= d * (2 * (m - P * t) + 1)) by nia.
    assert (0 <= 2 * (m - P * t) + 1) by nia. lia.
  - assert (d * (2 * (m - P * t - P)) < 0) by nia.
    assert (2 * (m - P * t - P) < 0) by nia. lia.
Qed.

(** Rounding the binary64 quotient half up gives the integer quotient
    rounded half up. *)
Lemma grid_round (n d a : Z) :
  0 <= n -> 0 < d -> 1 <= a -> d < 2 ^ a ->
  (div_half_even (n * 2 ^ a) d * 2 + 2 ^ a) / (2 ^ a * 2) = (2 * n + d) / (2 * d).
Proof.
  intros Hn Hd Ha Hfine.
  assert (0 < 2 ^ (a - 1)) as Hpow' by (apply Z.pow_pos_nonneg; lia).
  assert (2 ^ a = 2 * 2 ^ (a - 1)) as Hpow.
  { replace a with (1 + (a - 1)) at 1 by lia. rewrite Z.pow_add_r by lia.
    reflexivity. }
  pose proof (div_half_even_bounds (n * 2 ^ a) d Hd) as Hm.
  pose proof (Z.div_mod (2 * n + d) (2 * d) ltac:(lia)) as Hnd.
  pose proof (Z.mod_pos_bound (2 * n + d) (2 * d) ltac:(lia)) as Hr.
  set (m := div_half_even (n * 2 ^ a) d) in *.
  set (t := (2 * n + d) / (2 * d)) in *.
  set (r := (2 * n + d) mod (2 * d)) in *.
  set (H := 2 ^ (a - 1)) in *. rewrite Hpow in *.
  symmetry. apply Z.div_unique with (r := m * 2 + 2 * H - 2 * H * 2 * t);
    [| lia].
  left. split.
  - assert (0 <= d * (2 * (m + H - 2 * H * t) + 1)) by nia.
    assert (0 <= 2 * (m + H - 2 * H * t) + 1) by nia. lia.
  - assert (d * (m + H - 2 * H * t - 2 * H) < 0) by nia.
    assert (m + H - 2 * H * t - 2 * H < 0) by nia. lia.
Qed.

Lemma fine_grid (n d : Z) :
  0 < n < 2 ^ 40 -> 0 < d < 2 ^ 13 ->
  1 <= - ulp_exp n d /\ d < 2 ^ (- ulp_exp n d).
Proof.
  intros Hn Hd.
  destruct (ulp_exp_negative n d ltac:(lia) ltac:(lia)) as [[Hlo Hneg] Hup].
  pose proof (Z.log2_nonneg d).
  assert (Z.log2 n < 40) by (apply Z.log2_lt_pow2; lia).
  assert (13 <= - ulp_exp n d) as Ha by lia.
  split; [lia |].
  apply Z.lt_le_trans with (2 ^ 13); [lia |].
  apply Z.pow_le_mono_r; lia.
Qed.

Lemma Qdiv_integers (n : Z) (p : positive) :
  (inject_Z n / inject_Z (Zpos p))%Q = n # p.
Proof.
  unfold Qdiv, Qinv, Qmult, inject_Z. simpl. now rewrite Z.mul_1_r.
Qed.

(** The quotient of two integer Numbers, for a positive dividend below
    2^52. *)
Lemma div_integers (n d : Z) :
  0 < n < 2 ^ 52 -> 0 < d ->
  div (Num (inject_Z n)) (Num (inject_Z d))
  = Num (Qred (div_half_even (n * 2 ^ (- ulp_exp n d)) d
               # Z.to_pos (2 ^ (- ulp_exp n d)))).
Proof.
  intros Hn Hd. pose proof (round64_pos_grid n d Hn Hd) as Hgrid.
  destruct d as [| p | p]; try lia. destruct n as [| np | np]; try lia.
  unfold div. cbn [Qnum inject_Z]. rewrite Qdiv_integers.
  unfold round64. cbn [Qnum Qden]. now rewrite Hgrid.
Qed.

(** Math.floor(n / d) on integer Numbers is the integer quotient. *)
Lemma Math_floor_div (n d : Z) :
  0 <= n < 2 ^ 40 -> 0 < d < 2 ^ 13 ->
  Math_floor (div (Num (inject_Z n)) (Num (inject_Z d)))
  = Num (inject_Z (n / d)).
Proof.
  intros Hn Hd. destruct (Z.eq_dec n 0) as [-> | Hne].
  - destruct d as [| p | p]; try lia. reflexivity.
  - destruct (fine_grid n d ltac:(lia) Hd) as [Ha Hfine].
    rewrite div_integers by lia. unfold Math_floor. do 2 f_equal.
    rewrite (Qfloor_comp _ _ (Qred_correct _)). unfold Qfloor.
    assert (0 < 2 ^ (- ulp_exp n d)) by (apply Z.pow_pos_nonneg; lia).
    rewrite Z2Pos.id by lia. apply grid_floor; try lia.
    rewrite Z.pow_add_r by lia. lia.
Qed.

(** Math.round(n / d) on integer Numbers is the integer quotient rounded
    half up. *)
Lemma Math_round_div (n d : Z) :
  0 <= n < 2 ^ 40 -> 0 < d < 2 ^ 13 ->
  Math_round (div (Num (inject_Z n)) (Num (inject_Z d)))
  = Num (inject_Z ((2 * n + d) / (2 * d))).
Proof.
  intros Hn Hd. destruct (Z.eq_dec n 0) as [-> | Hne].
  - destruct d as [| p | p]; try lia.
    change (div (Num (inject_Z 0)) (Num (inject_Z (Zpos p)))) with (Num 0).
    unfold Math_round. do 2 f_equal. simpl.
    symmetry. apply Z.div_small. lia.
  - destruct (fine_grid n d ltac:(lia) Hd) as [Ha Hfine].
    rewrite div_integers by lia. unfold Math_round. do 2 f_equal.
    assert (Qred (div_half_even (n * 2 ^ (- ulp_exp n d)) d
                  # Z.to_pos (2 ^ (- ulp_exp n d))) + (1 # 2)
            == (div_half_even (n * 2 ^ (- ulp_exp n d)) d
                # Z.to_pos (2 ^ (- ulp_exp n d))) + (1 # 2))%Q as Heq
      by (now rewrite Qred_correct).
    rewrite (Qfloor_comp _ _ Heq). unfold Qfloor, Qplus. cbn [Qnum Qden].
    assert (0 < 2 ^ (- ulp_exp n d)) by (apply Z.pow_pos_nonneg; lia).
    rewrite Pos2Z.inj_mul, Z2Pos.id by lia.
    rewrite Z.mul_1_l. apply grid_round; lia.
Qed.

(** The sum, difference and product of integer Numbers within the safe
    integers are the exact integers. *)
Lemma add_integers (a b : Z) :
  safe_integer (a + b) ->
  add (Num (inject_Z a)) (Num (inject_Z b)) = Num (inject_Z (a + b)).
Proof.
  intros H. unfold add.
  replace (inject_Z a + inject_Z b)%Q with (inject_Z (a + b))
    by (unfold Qplus, inject_Z; simpl; f_equal; lia).
  now apply of_Z_safe.
Qed.

Lemma sub_integers (a b : Z) :
  safe_integer (a - b) ->
  sub (Num (inject_Z a)) (Num (inject_Z b)) = Num (inject_Z (a - b)).
Proof.
  intros H. unfold sub.
  replace (inject_Z a - inject_Z b)%Q with (inject_Z (a - b))
    by (unfold Qminus, Qplus, Qopp, inject_Z; simpl; f_equal; lia).
  now apply of_Z_safe.
Qed.

Lemma mul_integers (a b : Z) :
  safe_integer (a * b) ->
  mul (Num (inject_Z a)) (Num (inject_Z b)) = Num (inject_Z (a * b)).
Proof.
  intros H. unfold mul.
  replace (inject_Z a * inject_Z b)%Q with (inject_Z (a * b))
    by (unfold Qmult, inject_Z; simpl; f_equal; lia).
  now apply of_Z_safe.
Qed.

End FloatFacts.
Import FloatFacts.

(** ** Set editing: counts and invariants *)

Module EditCountFacts.

Lemma neq_index (i : nat) :
  forall j : nat, j <> i -> negb (j =? i)%nat = true.
Proof.
  intros j Hj. now destruct (Nat.eqb_spec j i).
Qed.

Lemma totalSets_acc exercises : forall start : nat,
  fold_left (fun sum exercise =>
               (sum + length (ExerciseWorkoutForm.sets exercise))%nat)
            exercises start
  = (start + totalSets exercises)%nat.
Proof.
  unfold totalSets.
  induction exercises as [| exercise rest IH]; intros start; simpl; [lia |].
  rewrite IH, (IH (length _)). lia.
Qed.

Lemma totalSets_cons exercise rest :
  totalSets (exercise :: rest)
  = (length (ExerciseWorkoutForm.sets exercise) + totalSets rest)%nat.
Proof.
  unfold totalSets at 1. simpl. apply totalSets_acc.
Qed.

Lemma totalSets_app l1 l2 :
  totalSets (l1 ++ l2) = (totalSets l1 + totalSets l2)%nat.
Proof.
  induction l1 as [| exercise rest IH]; simpl; [reflexivity |].
  rewrite !totalSets_cons, IH. lia.
Qed.

Lemma totalSets_allSets exercises :
  totalSets exercises = length (allSets exercises).
Proof.
  unfold allSets.
  induction exercises as [| exercise rest IH]; simpl; [reflexivity |].
  rewrite totalSets_cons, length_app, IH. reflexivity.
Qed.

(** Replacing one exercise changes the count by the difference of the two
    set lists. *)
Lemma totalSets_insert prev (i : nat) exercise exercise' :
  prev !! i = Some exercise ->
  (totalSets (<[i := exercise']> prev)
   + length (ExerciseWorkoutForm.sets exercise)
   = totalSets prev + length (ExerciseWorkoutForm.sets exercise'))%nat.
Proof.
  intros Hi. pose proof (lookup_lt_Some _ _ _ Hi) as Hlt.
  rewrite insert_take_drop by assumption.
  rewrite <- (take_drop_middle prev i exercise Hi) at 3.
  rewrite !totalSets_app, !totalSets_cons. lia.
Qed.

(** What each handler does at the exercise it addresses. *)
Lemma handleSetFieldChange_at exerciseIndex setIndex field prev exercise :
  prev !! exerciseIndex = Some exercise ->
  handleSetFieldChange exerciseIndex setIndex field prev =
  <[exerciseIndex :=
      ExerciseWorkoutForm.mk
        (ExerciseWorkoutForm.exerciseId exercise)
        (ExerciseWorkoutForm.exerciseName exercise)
        (ExerciseWorkoutForm.targetRange exercise)
        (match ExerciseWorkoutForm.sets exercise !! setIndex with
         | Some set =>
             <[setIndex := set_field set field]>
               (ExerciseWorkoutForm.sets exercise)
         | None => ExerciseWorkoutForm.sets exercise
         end)]> prev.
Proof.
  intros He. unfold handleSetFieldChange.
  rewrite (imap_at _ _ _ _ He)
    by (intros j y Hj; now rewrite neq_index).
  rewrite Nat.eqb_refl. cbn [negb]. do 2 f_equal.
  destruct (ExerciseWorkoutForm.sets exercise !! setIndex) as [set |] eqn:Hs.
  - rewrite (imap_at _ _ _ _ Hs)
      by (intros j y Hj; now rewrite neq_index).
    now rewrite Nat.eqb_refl.
  - apply (imap_out _ _ _ Hs). intros j y Hj. now rewrite neq_index.
Qed.

Lemma handleSetFieldChange_out exerciseIndex setIndex field prev :
  prev !! exerciseIndex = None ->
  handleSetFieldChange exerciseIndex setIndex field prev = prev.
Proof.
  intros He. apply (imap_out _ _ _ He). intros j y Hj. now rewrite neq_index.
Qed.

Lemma handleAddSet_at routine exerciseIndex prev exercise :
  prev !! exerciseIndex = Some exercise ->
  exists newSet,
    WorkoutSetForm.weight newSet = "" /\
    handleAddSet routine exerciseIndex prev =
    <[exerciseIndex :=
        ExerciseWorkoutForm.mk
          (ExerciseWorkoutForm.exerciseId exercise)
          (ExerciseWorkoutForm.exerciseName exercise)
          (ExerciseWorkoutForm.targetRange exercise)
          (ExerciseWorkoutForm.sets exercise ++ [newSet])]> prev.
Proof.
  intros He. unfold handleAddSet.
  rewrite (imap_at _ _ _ _ He)
    by (intros j y Hj; now rewrite neq_index).
  rewrite Nat.eqb_refl. cbn [negb]. eexists. split; [| reflexivity].
  reflexivity.
Qed.

Lemma handleAddSet_out routine exerciseIndex prev :
  prev !! exerciseIndex = None ->
  handleAddSet routine exerciseIndex prev = prev.
Proof.
  intros He. apply (imap_out _ _ _ He). intros j y Hj. now rewrite neq_index.
Qed.

Lemma handleRemoveSet_at exerciseIndex setIndex prev exercise :
  prev !! exerciseIndex = Some exercise ->
  handleRemoveSet exerciseIndex setIndex prev =
  <[exerciseIndex :=
      if (length (ExerciseWorkoutForm.sets exercise) <=? 1)%nat then exercise
      else
        ExerciseWorkoutForm.mk
          (ExerciseWorkoutForm.exerciseId exercise)
          (ExerciseWorkoutForm.exerciseName exercise)
          (ExerciseWorkoutForm.targetRange exercise)
          (take setIndex (ExerciseWorkoutForm.sets exercise)
           ++ drop (S setIndex) (ExerciseWorkoutForm.sets exercise))]> prev.
Proof.
  intros He. unfold handleRemoveSet.
  rewrite (imap_at _ _ _ _ He)
    by (intros j y Hj; now rewrite neq_index).
  rewrite Nat.eqb_refl. cbn [negb].
  now rewrite (filter_index_delete _ 0 setIndex).
Qed.

Lemma handleRemoveSet_out exerciseIndex setIndex prev :
  prev !! exerciseIndex = None ->
  handleRemoveSet exerciseIndex setIndex prev = prev.
Proof.
  intros He. apply (imap_out _ _ _ He). intros j y Hj. now rewrite neq_index.
Qed.

Lemma length_delete_at {A : Type} (l : list A) (i : nat) :
  (i < length l)%nat ->
  length (take i l ++ drop (S i) l) = (length l - 1)%nat.
Proof.
  intros Hi. rewrite length_app, length_take, length_drop. lia.
Qed.

Lemma delete_out {A : Type} (l : list A) (i : nat) :
  (length l <= i)%nat -> take i l ++ drop (S i) l = l.
Proof.
  intros Hi. rewrite take_ge, drop_ge by lia. apply app_nil_r.
Qed.

End EditCountFacts.
Import EditCountFacts.

(** X1: handleSetFieldChange replaces one field of one set: the set at
    [setIndex] of the exercise at [exerciseIndex].  When either index
    points at nothing the state is left as it was. *)
Theorem handleSetFieldChange_point_update
    (exerciseIndex setIndex : nat) (field : SetField)
    (prev : list ExerciseWorkoutForm.t) :
  handleSetFieldChange exerciseIndex setIndex field prev =
  match prev !! exerciseIndex with
  | Some exercise =>
      match ExerciseWorkoutForm.sets exercise !! setIndex with
      | Some set =>
          <[exerciseIndex :=
              ExerciseWorkoutForm.mk
                (ExerciseWorkoutForm.exerciseId exercise)
                (ExerciseWorkoutForm.exerciseName exercise)
                (ExerciseWorkoutForm.targetRange exercise)
                (<[setIndex := set_field set field]>
                   (ExerciseWorkoutForm.sets exercise))]> prev
      | None => prev
      end
  | None => prev
  end.
Proof.
  destruct (prev !! exerciseIndex) as [exercise |] eqn:He.
  - rewrite (handleSetFieldChange_at _ _ _ _ _ He).
    destruct (ExerciseWorkoutForm.sets exercise !! setIndex); [reflexivity |].
    destruct exercise. now apply list_insert_id.
  - now apply handleSetFieldChange_out.
Qed.

Module EditTotalFacts.

(** Editing a field never changes how many sets the page counts. *)
Lemma totalSets_change
    (exerciseIndex setIndex : nat) (field : SetField)
    (prev : list ExerciseWorkoutForm.t) :
  totalSets (handleSetFieldChange exerciseIndex setIndex field prev)
  = totalSets prev.
Proof.
  destruct (prev !! exerciseIndex) as [exercise |] eqn:He.
  - rewrite (handleSetFieldChange_at _ _ _ _ _ He).
    pose proof (totalSets_insert prev exerciseIndex exercise
                  (ExerciseWorkoutForm.mk
                     (ExerciseWorkoutForm.exerciseId exercise)
                     (ExerciseWorkoutForm.exerciseName exercise)
                     (ExerciseWorkoutForm.targetRange exercise)
                     (match ExerciseWorkoutForm.sets exercise !! setIndex with
                      | Some set =>
                          <[setIndex := set_field set field]>
                            (ExerciseWorkoutForm.sets exercise)
                      | None => ExerciseWorkoutForm.sets exercise
                      end)) He) as H.
    cbn [ExerciseWorkoutForm.sets] in H.
    destruct (ExerciseWorkoutForm.sets exercise !! setIndex);
      [rewrite length_insert in H |]; lia.
  - now rewrite handleSetFieldChange_out.
Qed.

(** Add set raises the count by exactly one when the index names an
    exercise, and changes nothing otherwise. *)
Lemma totalSets_add (routine : option Routine.t)
    (exerciseIndex : nat) (prev : list ExerciseWorkoutForm.t) :
  totalSets (handleAddSet routine exerciseIndex prev)
  = if bool_decide (exerciseIndex < length prev)%nat
    then S (totalSets prev) else totalSets prev.
Proof.
  destruct (prev !! exerciseIndex) as [exercise |] eqn:He.
  - pose proof (lookup_lt_Some _ _ _ He) as Hlt.
    rewrite bool_decide_eq_true_2 by assumption.
    destruct (handleAddSet_at routine _ _ _ He) as (newSet & _ & ->).
    pose proof (totalSets_insert prev exerciseIndex exercise
                  (ExerciseWorkoutForm.mk
                     (ExerciseWorkoutForm.exerciseId exercise)
                     (ExerciseWorkoutForm.exerciseName exercise)
                     (ExerciseWorkoutForm.targetRange exercise)
                     (ExerciseWorkoutForm.sets exercise ++ [newSet])) He) as H.
    cbn [ExerciseWorkoutForm.sets] in H. rewrite length_app in H. simpl in H.
    lia.
  - apply lookup_ge_None in He.
    rewrite bool_decide_eq_false_2 by lia.
    rewrite handleAddSet_out; [reflexivity | now apply lookup_ge_None].
Qed.

(** Remove set lowers the count by exactly one when the exercise has more
    than one set and the index names one of them; in every other case the
    count stays. *)
Lemma totalSets_remove (exerciseIndex setIndex : nat)
    (prev : list ExerciseWorkoutForm.t) :
  totalSets (handleRemoveSet exerciseIndex setIndex prev)
  = match prev !! exerciseIndex with
    | Some exercise =>
        if (1 <? length (ExerciseWorkoutForm.sets exercise))%nat
           && (setIndex <? length (ExerciseWorkoutForm.sets exercise))%nat
        then (totalSets prev - 1)%nat
        else totalSets prev
    | None => totalSets prev
    end.
Proof.
  destruct (prev !! exerciseIndex) as [exercise |] eqn:He.
  - rewrite (handleRemoveSet_at _ _ _ _ He).
    pose proof (totalSets_insert prev exerciseIndex exercise) as H.
    destruct (Nat.leb_spec (length (ExerciseWorkoutForm.sets exercise)) 1)
      as [Hle | Hgt].
    + specialize (H exercise He).
      destruct (Nat.ltb_spec 1 (length (ExerciseWorkoutForm.sets exercise)));
        [lia |]. cbn [andb]. lia.
    + specialize (H (ExerciseWorkoutForm.mk
                       (ExerciseWorkoutForm.exerciseId exercise)
                       (ExerciseWorkoutForm.exerciseName exercise)
                       (ExerciseWorkoutForm.targetRange exercise)
                       (take setIndex (ExerciseWorkoutForm.sets exercise)
                        ++ drop (S setIndex) (ExerciseWorkoutForm.sets exercise)))
                    He).
      cbn [ExerciseWorkoutForm.sets] in H.
      destruct (Nat.ltb_spec 1 (length (ExerciseWorkoutForm.sets exercise)));
        [| lia]. cbn [andb].
      destruct (Nat.ltb_spec setIndex
                  (length (ExerciseWorkoutForm.sets exercise))) as [Hs | Hs].
      * rewrite length_delete_at in H by assumption. lia.
      * rewrite delete_out in H |- * by assumption. lia.
  - now rewrite handleRemoveSet_out.
Qed.

End EditTotalFacts.
Import EditTotalFacts.

(** X2: how each editing event moves the number of sets the page counts: a
    field change never does; Add set raises it by exactly one when the
    index names an exercise; Remove set lowers it by exactly one when the
    exercise has more than one set and the index names one of them; in
    every other case the count stays. *)
Theorem totalSets_setExercises (routine : option Routine.t) (edit : SetEdit)
    (prev : list ExerciseWorkoutForm.t) :
  totalSets (setExercises routine edit prev)
  = match edit with
    | ChangeField _ _ _ => totalSets prev
    | AddSet exerciseIndex =>
        if bool_decide (exerciseIndex < length prev)%nat
        then S (totalSets prev) else totalSets prev
    | RemoveSet exerciseIndex setIndex =>
        match prev !! exerciseIndex with
        | Some exercise =>
            if (1 <? length (ExerciseWorkoutForm.sets exercise))%nat
               && (setIndex <? length (ExerciseWorkoutForm.sets exercise))%nat
            then (totalSets prev - 1)%nat
            else totalSets prev
        | None => totalSets prev
        end
    end.
Proof.
  destruct edit as [e s field | e | e s]; cbn [setExercises].
  - apply totalSets_change.
  - apply totalSets_add.
  - apply totalSets_remove.
Qed.

(** X3: removing the set that Add set has just appended gives the state back,
    provided the exercise had a set before; on an exercise without sets
    the removal is refused and the appended set stays. *)
Theorem handleAddSet_handleRemoveSet (routine : option Routine.t)
    (exerciseIndex : nat) (prev : list ExerciseWorkoutForm.t)
    (exercise : ExerciseWorkoutForm.t) :
  prev !! exerciseIndex = Some exercise ->
  let added := handleAddSet routine exerciseIndex prev in
  handleRemoveSet exerciseIndex (length (ExerciseWorkoutForm.sets exercise))
    added
  = if bool_decide (ExerciseWorkoutForm.sets exercise = []) then added
    else prev.
Proof.
  intros He added. subst added.
  pose proof (lookup_lt_Some _ _ _ He) as Hlt.
  destruct (handleAddSet_at routine _ _ _ He) as (newSet & _ & ->).
  erewrite handleRemoveSet_at
    by (rewrite list_lookup_insert_eq by assumption; reflexivity).
  cbn [ExerciseWorkoutForm.sets]. rewrite length_app. simpl.
  rewrite list_insert_insert_eq.
  destruct (ExerciseWorkoutForm.sets exercise) as [| set sets] eqn:Hsets.
  - rewrite bool_decide_eq_true_2 by reflexivity. reflexivity.
  - rewrite bool_decide_eq_false_2 by discriminate.
    destruct (Nat.leb_spec (length (set :: sets) + 1) 1) as [Hle | _];
      [simpl in Hle; lia |].
    rewrite take_app_length, drop_app_ge by lia.
    replace (S (length (set :: sets)) - length (set :: sets))%nat with 1%nat
      by lia.
    simpl. rewrite app_nil_r, <- Hsets.
    destruct exercise. now apply list_insert_id.
Qed.

Lemma handleAddSet_handleRemoveSet_witness :
  handleRemoveSet 0 3 (handleAddSet (Some Sample.routine) 0
                         (materialize Sample.routine))
  = materialize Sample.routine.
Proof.
  exact (handleAddSet_handleRemoveSet (Some Sample.routine) 0
           (materialize Sample.routine) _ eq_refl).
Defined.

(** ** Edit sessions *)

Module SessionFacts.



Lemma delete_nonempty {A : Type} (l : list A) (i : nat) :
  (1 < length l)%nat -> take i l ++ drop (S i) l <> [].
Proof.
  intros Hl E. apply (f_equal length) in E.
  rewrite length_app, length_take, length_drop in E. simpl in E. lia.
Qed.

Lemma setExercises_has_sets routine edit prev :
  Forall has_sets prev -> Forall has_sets (setExercises routine edit prev).
Proof.
  intros Hall.
  destruct edit as [e s field | e | e s]; simpl;
    destruct (prev !! e) as [exercise |] eqn:He.
  - rewrite (handleSetFieldChange_at _ _ _ _ _ He).
    apply Forall_insert; [assumption |].
    pose proof (proj1 (Forall_lookup _ _) Hall _ _ He) as Hex.
    unfold has_sets in *. cbn [ExerciseWorkoutForm.sets].
    destruct (ExerciseWorkoutForm.sets exercise !! s); [| assumption].
    intros E. apply (f_equal length) in E. rewrite length_insert in E.
    destruct (ExerciseWorkoutForm.sets exercise); [congruence | discriminate].
  - now rewrite handleSetFieldChange_out.
  - destruct (handleAddSet_at routine _ _ _ He) as (newSet & _ & ->).
    apply Forall_insert; [assumption |].
    unfold has_sets. cbn [ExerciseWorkoutForm.sets].
    intros E. now apply app_nil in E as [_ E].
  - now rewrite handleAddSet_out.
  - rewrite (handleRemoveSet_at _ _ _ _ He).
    apply Forall_insert; [assumption |].
    pose proof (proj1 (Forall_lookup _ _) Hall _ _ He) as Hex.
    destruct (Nat.leb_spec (length (ExerciseWorkoutForm.sets exercise)) 1);
      [assumption |].
    unfold has_sets. cbn [ExerciseWorkoutForm.sets].
    now apply delete_nonempty.
  - now rewrite handleRemoveSet_out.
Qed.


Lemma editSession_has_sets routine edits : forall prev,
  Forall has_sets prev -> Forall has_sets (editSession routine edits prev).
Proof.
  unfold editSession.
  induction edits as [| edit rest IH]; intros prev H; simpl; [assumption |].
  now apply IH, setExercises_has_sets.
Qed.

Lemma materialize_has_sets data :
  Forall (fun exercise => 1 <= RoutineExercise.sets exercise)
         (Routine.exercises data) ->
  Forall has_sets (materialize data).
Proof.
  unfold materialize. intros H. apply Forall_fmap.
  eapply Forall_impl; [exact H |]. intros exercise Hsets.
  cbv [compose has_sets Array_from ExerciseWorkoutForm.sets].
  intros E. apply (f_equal length) in E.
  rewrite length_map, length_seq in E. simpl in E, Hsets. lia.
Qed.

Lemma allSets_has_sets exercises :
  exercises <> [] -> Forall has_sets exercises -> allSets exercises <> [].
Proof.
  unfold allSets. destruct exercises as [| exercise rest]; [congruence |].
  intros _ H. inversion H as [| ? ? Hex _]; subst. simpl.
  intros E. now apply app_nil in E as [E _].
Qed.

End SessionFacts.
Import SessionFacts.


(** X5: a form built from a routine whose entries all plan at least one set
    never meets the message for a log without sets, however its sets are
    edited before the submission. *)
Theorem edited_log_never_empty (Date_getTime : string -> option Z)
    (data : Routine.t) (edits : list SetEdit)
    (startedAt completedAt durationMinutes notes : string)
    (markCompleted : bool) :
  Forall (fun exercise => 1 <= RoutineExercise.sets exercise)
         (Routine.exercises data) ->
  handleSubmit Date_getTime
    (FormState.mk (Some data)
       (editSession (Some data) edits (materialize data))
       startedAt markCompleted completedAt durationMinutes notes)
  <> setFormError msg_no_sets.
Proof.
  intros Hsets.
  pose proof (editSession_has_sets (Some data) edits _
                (materialize_has_sets data Hsets)) as Hall.
  rewrite handleSubmit_unfold. cbn [FormState.routine FormState.startedAt
    FormState.exercises FormState.markCompleted FormState.completedAt
    FormState.durationMinutes FormState.notes].
  set (exercises := editSession (Some data) edits (materialize data)) in *.
  destruct (negb (truthy startedAt)); [discriminate |].
  destruct (length exercises =? 0)%nat eqn:Hlen; [discriminate |].
  destruct (firstMessage (allSets exercises)) as [message |] eqn:Hfirst.
  - apply firstMessage_cases in Hfirst as [-> | [-> | ->]]; discriminate.
  - destruct (length (payloadSets exercises) =? 0)%nat eqn:Hpayload.
    + exfalso. apply length_zero in Hpayload. apply payloadSets_nil in Hpayload.
      apply (allSets_has_sets exercises); [| assumption | assumption].
      intros E. rewrite E in Hlen. discriminate.
    + repeat (case_match; try discriminate).
Qed.

Lemma edited_log_never_empty_witness :
  handleSubmit UtcHost.Date_getTime
    (FormState.mk (Some Sample.routine)
       (editSession (Some Sample.routine)
          [RemoveSet 0 0; RemoveSet 0 0; RemoveSet 0 0; RemoveSet 0 0]
          (materialize Sample.routine))
       Sample.startText false "" "" "")
  <> setFormError msg_no_sets.
Proof.
  apply edited_log_never_empty.
  repeat constructor; vm_compute; discriminate.
Defined.

(** ** What a submission sends *)

Module PayloadFacts.

Lemma div_half_even_nonneg (n d : Z) :
  0 <= n -> 0 < d -> 0 <= div_half_even n d.
Proof.
  intros Hn Hd. unfold div_half_even.
  pose proof (Z.div_pos n d Hn Hd).
  destruct (2 * (n mod d) ?= d); [destruct (Z.even (n / d)) | |]; lia.
Qed.

Lemma round64_pos_nonneg (n d : Z) (r : Q) :
  0 < n -> 0 < d -> round64_pos n d = Some r -> (0 <= r)%Q.
Proof.
  intros Hn Hd. unfold round64_pos.
  set (e := ulp_exp n d).
  destruct (1024 <=? _); [discriminate |].
  destruct (Z.leb_spec 0 e) as [He | He]; intros [= <-].
  - assert (0 <= div_half_even n (d * 2 ^ e)).
    { apply div_half_even_nonneg; [lia |].
      apply Z.mul_pos_pos; [lia | now apply Z.pow_pos_nonneg]. }
    assert (0 <= 2 ^ e) by now apply Z.pow_nonneg.
    unfold Qle, inject_Z. simpl. nia.
  - rewrite Qred_correct. unfold Qle. simpl.
    pose proof (div_half_even_nonneg (n * 2 ^ (- e)) d) as H.
    assert (0 <= 2 ^ (- e)) by (apply Z.pow_nonneg; lia).
    lia.
Qed.

(** Rounding a positive rational to binary64 gives a Number that is not
    negative, or overflows to Infinity. *)
Lemma round64_positive (q : Q) :
  0 < Qnum q ->
  round64 q = Infinity \/ exists r, (0 <= r)%Q /\ round64 q = Num r.
Proof.
  intros Hq. unfold round64. destruct (Qnum q) as [| n | n] eqn:En; try lia.
  destruct (round64_pos (Zpos n) (Zpos (Qden q))) as [r |] eqn:Er;
    [right | now left].
  exists r. split; [| reflexivity].
  now apply (round64_pos_nonneg (Zpos n) (Zpos (Qden q))).
Qed.

Lemma Math_round_nonneg (r : Q) :
  (0 <= r)%Q -> exists z, 0 <= z /\ Math_round (Num r) = Num (inject_Z z).
Proof.
  intros Hr. exists (Qfloor (r + (1 # 2))). split; [| reflexivity].
  change 0 with (Qfloor 0). apply Qfloor_resp_le.
  apply Qle_trans with r; [assumption |].
  rewrite <- (Qplus_0_r r) at 1. apply Qplus_le_r. discriminate.
Qed.

Lemma gt_zero_positive (q : Q) : gt (Num q) (Num 0) = true -> 0 < Qnum q.
Proof.
  unfold gt, lt, Qle_bool. simpl. rewrite Z.mul_1_r.
  intros H. apply negb_true_iff, Z.leb_gt in H. exact H.
Qed.

Lemma gt_zero_integer (z : Z) :
  gt (Num (inject_Z z)) (Num 0) = (0 <? z).
Proof.
  unfold gt. apply (lt_integer 0 z).
Qed.

(** The decimal text of a non-negative integer is made of digits. *)
Lemma all_digits_String_of_int (z : Z) :
  0 <= z -> all_digits (String_of_int z) = true.
Proof.
  intros Hz. destruct z as [| p | p]; [reflexivity | | lia].
  unfold String_of_int. simpl. unfold NilZero.string_of_uint.
  pose proof (all_digits_uint (Pos.to_uint p)) as H.
  destruct (Pos.to_uint p); [reflexivity | exact H ..].
Qed.

Lemma trim_String_of_int (z : Z) :
  0 <= z -> trim (String_of_int z) = String_of_int z.
Proof.
  intros Hz. now apply trim_digits, all_digits_String_of_int.
Qed.

Section Payload.
Variable Date_getTime : string -> option Z.

(** The completion time a successful run hands over. *)
Lemma handleSubmit_created_completedAt st payload :
  handleSubmit Date_getTime st = createWorkout payload ->
  CreateWorkoutRequest.completedAt payload
  = (if FormState.markCompleted st && truthy (FormState.completedAt st)
     then Date_getTime (FormState.completedAt st) else None) /\
  (forall c, CreateWorkoutRequest.completedAt payload = Some c ->
     CreateWorkoutRequest.startedAt payload <= c).
Proof.
  rewrite handleSubmit_unfold.
  repeat submit_case; try discriminate; intros [= <-];
    cbn [CreateWorkoutRequest.completedAt CreateWorkoutRequest.startedAt];
    (split; [reflexivity |]); intros c' [= <-];
    match goal with
    | H : (_ <? _) = false |- _ => apply Z.ltb_ge in H; exact H
    end.
Qed.

End Payload.
End PayloadFacts.
Import PayloadFacts.

(** X7: the completion time of a payload: present exactly when the workout is
    marked completed with a completion text, it is then the time that
    text reads as, and it is never earlier than the start sent with it. *)
Theorem completedAt_sent (Date_getTime : string -> option Z)
    (st : FormState.t) (payload : CreateWorkoutRequest.t) :
  handleSubmit Date_getTime st = createWorkout payload ->
  CreateWorkoutRequest.completedAt payload
  = (if FormState.markCompleted st && truthy (FormState.completedAt st)
     then Date_getTime (FormState.completedAt st) else None) /\
  (forall c, CreateWorkoutRequest.completedAt payload = Some c ->
     CreateWorkoutRequest.startedAt payload <= c).
Proof.
  apply handleSubmit_created_completedAt.
Qed.

Lemma completedAt_sent_witness :
  exists payload,
    handleSubmit UtcHost.Date_getTime (Sample.completedState "")
    = createWorkout payload /\
    CreateWorkoutRequest.completedAt payload
    = UtcHost.Date_getTime Sample.endText.
Proof.
  eexists. split; [vm_compute; reflexivity |].
  exact (proj1 (completedAt_sent UtcHost.Date_getTime
                  (Sample.completedState "") _ eq_refl)).
Defined.

(** X8: ticking and unticking the completion box, then submitting: an unticked
    box sends no completion time whatever the field held; a ticked box
    sends the time the field held, or the current time when the field was
    empty. *)
Theorem handleMarkCompleted_submission (Date_getTime : string -> option Z)
    (checked : bool) (now : string) (st : FormState.t)
    (payload : CreateWorkoutRequest.t) :
  handleSubmit Date_getTime (handleMarkCompleted checked now st)
  = createWorkout payload ->
  CreateWorkoutRequest.completedAt payload
  = if checked then
      if truthy (FormState.completedAt st)
      then Date_getTime (FormState.completedAt st)
      else if truthy now then Date_getTime now else None
    else None.
Proof.
  intros H. apply handleSubmit_created_completedAt in H as [-> _].
  unfold handleMarkCompleted.
  cbn [FormState.markCompleted FormState.completedAt].
  destruct checked; [| reflexivity]. cbn [andb].
  destruct (truthy (FormState.completedAt st)) eqn:E; [now rewrite E |].
  reflexivity.
Qed.

Lemma handleMarkCompleted_submission_witness :
  exists payload,
    handleSubmit UtcHost.Date_getTime
      (handleMarkCompleted false Sample.endText (Sample.completedState ""))
    = createWorkout payload /\
    CreateWorkoutRequest.completedAt payload = None.
Proof.
  eexists. split; [vm_compute; reflexivity |].
  exact (handleMarkCompleted_submission UtcHost.Date_getTime false
           Sample.endText (Sample.completedState "") _ eq_refl).
Defined.

(** X9: the duration of a payload is never NaN, negative or fractional: it is
    a whole number of seconds, or Infinity when the minutes typed are
    beyond the range of a Number once multiplied by 60. *)
Theorem duration_sent_shape (Date_getTime : string -> option Z)
    (st : FormState.t) (payload : CreateWorkoutRequest.t) (d : number) :
  handleSubmit Date_getTime st = createWorkout payload ->
  CreateWorkoutRequest.duration payload = Some d ->
  d = Infinity \/ exists z : Z, 0 <= z /\ d = Num (inject_Z z).
Proof.
  intros H Hd.
  destruct (handleSubmit_created_duration _ _ _ H)
    as (s & _ & Hminutes & Hstamps & Hnone).
  destruct (decide (trim (FormState.durationMinutes st) = "")) as [Hdm | Hdm].
  - destruct (FormState.markCompleted st) eqn:Hmark;
      [| rewrite Hnone in Hd by auto; discriminate].
    destruct (decide (FormState.completedAt st = "")) as [Hc | Hc];
      [rewrite Hnone in Hd by auto; discriminate |].
    destruct (Hstamps Hdm eq_refl Hc) as (c & _ & Hduration).
    rewrite Hduration in Hd. cbv zeta in Hd.
    destruct (div (sub (of_Z c) (of_Z s)) (Num 1000)) as [| | | q];
      try discriminate Hd.
    + injection Hd as <-. now left.
    + destruct (gt (Math_round (Num q)) (Num 0)) eqn:Hgt; [| discriminate].
      injection Hd as <-. right.
      exists (Qfloor (q + (1 # 2))). split; [| reflexivity].
      change (Math_round (Num q)) with (Num (inject_Z (Qfloor (q + (1 # 2)))))
        in Hgt.
      rewrite gt_zero_integer in Hgt. apply Z.ltb_lt in Hgt. lia.
  - destruct (Hminutes Hdm) as (Hfin & Hgt & Hduration).
    rewrite Hduration in Hd. injection Hd as <-.
    destruct (Number (FormState.durationMinutes st)) as [| | | q];
      try discriminate Hfin.
    apply gt_zero_positive in Hgt. unfold mul.
    destruct (round64_positive (q * 60)) as [-> | (r & Hr & ->)].
    + simpl. lia.
    + now left.
    + right. now apply Math_round_nonneg.
Qed.

Lemma duration_sent_shape_witness :
  exists payload z,
    handleSubmit UtcHost.Date_getTime (Sample.completedState "1.5")
    = createWorkout payload /\
    0 <= z /\
    CreateWorkoutRequest.duration payload = Some (Num (inject_Z z)).
Proof.
  eexists. 
  destruct (duration_sent_shape UtcHost.Date_getTime
              (Sample.completedState "1.5") _ (Num 90) eq_refl eq_refl)
    as [Hinf | (z & Hz & Heq)]; [discriminate |].
  exists z. split; [reflexivity |]. split; [exact Hz |].
  now rewrite <- Heq.
Defined.

(** X10: whole minutes typed as plain digits are sent as exactly sixty times
    as many seconds. *)
Theorem duration_from_whole_minutes (Date_getTime : string -> option Z)
    (st : FormState.t) (payload : CreateWorkoutRequest.t) (m : Z) :
  0 < m -> 60 * m <= MAX_SAFE_INTEGER ->
  FormState.durationMinutes st = String_of_int m ->
  handleSubmit Date_getTime st = createWorkout payload ->
  CreateWorkoutRequest.duration payload = Some (Num (inject_Z (60 * m))).
Proof.
  intros Hm Hsafe Htext H.
  destruct (handleSubmit_created_duration _ _ _ H) as (s & _ & Hminutes & _).
  rewrite Htext in Hminutes.
  destruct Hminutes as (_ & _ & ->).
  { rewrite trim_String_of_int by lia. apply String_of_int_nonempty. }
  unfold MAX_SAFE_INTEGER in Hsafe.
  rewrite Number_safe_integer by (unfold safe_integer, MAX_SAFE_INTEGER; lia).
  change (Num 60) with (Num (inject_Z 60)).
  rewrite (mul_integers m 60)
    by (unfold safe_integer, MAX_SAFE_INTEGER; lia).
  rewrite Math_round_integer. do 3 f_equal. lia.
Qed.

Lemma duration_from_whole_minutes_witness :
  exists payload,
    handleSubmit UtcHost.Date_getTime (Sample.completedState "45")
    = createWorkout payload /\
    CreateWorkoutRequest.duration payload = Some (Num 2700).
Proof.
  eexists. split; [vm_compute; reflexivity |].
  refine (duration_from_whole_minutes UtcHost.Date_getTime
            (Sample.completedState "45") _ 45 _ _ eq_refl eq_refl).
  - lia.
  - unfold MAX_SAFE_INTEGER. lia.
Defined.

(** X11: without minutes typed, a completed workout's duration is the whole
    number of seconds nearest to the elapsed time, halves rounded up, and
    no duration when less than half a second elapsed. *)
Theorem duration_from_timestamps_exact (Date_getTime : string -> option Z)
    (st : FormState.t) (payload : CreateWorkoutRequest.t) (s c : Z) :
  trim (FormState.durationMinutes st) = "" ->
  FormState.markCompleted st = true ->
  FormState.completedAt st <> "" ->
  Date_getTime (FormState.startedAt st) = Some s ->
  Date_getTime (FormState.completedAt st) = Some c ->
  safe_integer s -> safe_integer c -> c - s < 2 ^ 40 ->
  handleSubmit Date_getTime st = createWorkout payload ->
  CreateWorkoutRequest.duration payload
  = if 500 <=? c - s
    then Some (Num (inject_Z ((c - s + 500) / 1000)))
    else None.
Proof.
  intros Hdm Hmark Hc Hs Hcs Hsafe_s Hsafe_c Hdiff H.
  pose proof (handleSubmit_created_completedAt _ _ _ H) as [Hsent Hle].
  destruct (handleSubmit_created _ _ _ H)
    as (routine & s' & _ & _ & _ & _ & _ & Hs' & _ & _ & Hstart & _).
  rewrite Hs in Hs'. injection Hs' as <-.
  rewrite Hmark, (proj2 (truthy_true _) Hc), Hcs in Hsent. cbn [andb] in Hsent.
  specialize (Hle c Hsent). rewrite Hstart in Hle.
  destruct (handleSubmit_created_duration _ _ _ H) as (s' & Hs' & _ & Hstamps & _).
  rewrite Hs in Hs'. injection Hs' as <-.
  destruct (Hstamps Hdm Hmark Hc) as (c' & Hc' & ->).
  rewrite Hcs in Hc'. injection Hc' as <-. cbv zeta.
  rewrite !of_Z_safe by assumption.
  rewrite sub_integers
    by (unfold safe_integer, MAX_SAFE_INTEGER in *; lia).
  change (Num 1000) with (Num (inject_Z 1000)).
  rewrite (Math_round_div (c - s) 1000) by lia.
  replace ((2 * (c - s) + 1000) / (2 * 1000)) with ((c - s + 500) / 1000)
    by (replace (2 * (c - s) + 1000) with (2 * (c - s + 500)) by lia;
        now rewrite Z.div_mul_cancel_l by lia).
  rewrite gt_zero_integer.
  destruct (Z.leb_spec 500 (c - s)) as [Hge | Hlt].
  - assert (1 <= (c - s + 500) / 1000)
      by (apply Z.div_le_lower_bound; lia).
    now rewrite (proj2 (Z.ltb_lt _ _)) by lia.
  - rewrite Z.div_small by lia. reflexivity.
Qed.

Lemma duration_from_timestamps_exact_witness :
  exists payload,
    handleSubmit UtcHost.Date_getTime (Sample.completedState "")
    = createWorkout payload /\
    CreateWorkoutRequest.duration payload = Some (Num 2700).
Proof.
  eexists. split; [vm_compute; reflexivity |].
  refine (duration_from_timestamps_exact UtcHost.Date_getTime
            (Sample.completedState "") _ 1704103200000 1704105900000
            eq_refl eq_refl _ eq_refl eq_refl _ _ _ eq_refl).
  - discriminate.
  - unfold safe_integer, MAX_SAFE_INTEGER. lia.
  - unfold safe_integer, MAX_SAFE_INTEGER. lia.
  - lia.
Defined.

(** ** Clock and duration texts *)

Module FormatFacts.

Lemma toString_integer (z : Z) :
  Z.abs z < 10 ^ 21 -> toString (Num (inject_Z z)) = Some (String_of_int z).
Proof.
  intros Hz. unfold toString. cbn [inject_Z Qnum Qden].
  rewrite Pos.eqb_refl. now rewrite (proj2 (Z.ltb_lt _ _) Hz).
Qed.

Lemma Math_floor_integer (z : Z) :
  Math_floor (Num (inject_Z z)) = Num (inject_Z z).
Proof.
  unfold Math_floor. now rewrite Qfloor_Z.
Qed.

(** [a % b] on integer Numbers is the remainder of the truncating
    division. *)
Lemma rem_integers (a b : Z) :
  0 < b ->
  rem (Num (inject_Z a)) (Num (inject_Z b)) = Num (inject_Z (Z.rem a b)).
Proof.
  intros Hb. destruct b as [| p | p]; try lia.
  unfold rem. cbn [inject_Z Qnum]. f_equal.
  change (Zpos p # 1) with (inject_Z (Zpos p)).
  change (a # 1) with (inject_Z a).
  assert (Qtrunc (inject_Z a / inject_Z (Zpos p)) = Z.quot a (Zpos p)) as ->.
  { rewrite Qdiv_integers. unfold Qtrunc. cbn [Qnum].
    destruct (Z.leb_spec 0 a) as [Ha | Ha].
    - unfold Qfloor. now rewrite Z.quot_div_nonneg by lia.
    - unfold Qceiling, Qfloor, Qopp. cbn [Qnum Qden].
      rewrite <- (Z.opp_involutive a) at 2.
      rewrite Z.quot_opp_l by lia.
      now rewrite Z.quot_div_nonneg by lia. }
  rewrite <- (Qred_inject_Z (Z.rem a (Zpos p))). apply Qred_complete.
  rewrite <- inject_Z_mult. unfold Qminus. rewrite <- inject_Z_opp.
  rewrite <- inject_Z_plus. apply inject_Z_injective.
  pose proof (Z.quot_rem' a (Zpos p)). lia.
Qed.

Lemma rem_nonneg_integers (a b : Z) :
  0 <= a -> 0 < b ->
  rem (Num (inject_Z a)) (Num (inject_Z b)) = Num (inject_Z (a mod b)).
Proof.
  intros Ha Hb. rewrite rem_integers by assumption.
  now rewrite Z.rem_mod_nonneg by lia.
Qed.

(** The timer after [k] ticks from zero holds the integer [k]. *)
Lemma ticks (k : nat) :
  Z.of_nat k <= MAX_SAFE_INTEGER ->
  Nat.iter k tick (Num 0) = Num (inject_Z (Z.of_nat k)).
Proof.
  induction k as [| k IH]; intros Hk; [reflexivity |].
  rewrite Nat.iter_succ, IH by lia. unfold tick.
  change (Num 1) with (Num (inject_Z 1)).
  rewrite add_integers by (unfold safe_integer, MAX_SAFE_INTEGER in *; lia).
  do 2 f_equal. lia.
Qed.

(** Below 60 the padded text has exactly two characters. *)
Lemma padStart_two_digits (r : Z) :
  0 <= r < 60 ->
  String.length (padStart (String_of_int r) 2 "0") = 2%nat.
Proof.
  intros Hr. rewrite <- (Z2Nat.id r) by lia.
  assert (Z.to_nat r < 60)%nat as Hn by lia.
  generalize dependent (Z.to_nat r). intros n Hn.
  do 60 (destruct n as [| n]; [reflexivity |]). lia.
Qed.

Lemma append_snoc_neq (s t : string) (c d : ascii) :
  c <> d -> (s ++ String c "")%string <> (t ++ String d "")%string.
Proof.
  intros Hcd. revert t.
  induction s as [| a s IH]; intros [| b t] E.
  - change (String c "" = String d "") in E. congruence.
  - change (String c "" = String b (t ++ String d "")) in E.
    injection E as _ E. destruct t; discriminate E.
  - change (String a (s ++ String c "") = String d "") in E.
    injection E as _ E. destruct s; discriminate E.
  - change (String a (s ++ String c "") = String b (t ++ String d "")) in E.
    injection E as _ E. now apply IH in E.
Qed.

Lemma append_assoc3 (a b c : string) :
  (a ++ b ++ c)%string = ((a ++ b) ++ c)%string.
Proof.
  induction a as [| x a IH]; [reflexivity |].
  change (String x (a ++ b ++ c) = String x ((a ++ b) ++ c))%string.
  now rewrite IH.
Qed.

End FormatFacts.
Import FormatFacts.

(** X12: the timer display after [k] one-second ticks from a reset reads
    minutes:seconds with [k / 60] minutes (not wrapped at the hour) and
    [k mod 60] seconds, the seconds always on two digits: the
    floating-point quotient never slips to the neighbouring minute. *)
Theorem timer_display (k : nat) :
  Z.of_nat k < 2 ^ 40 ->
  formatSeconds (Nat.iter k tick (Num 0))
  = Some (padStart (String_of_int (Z.of_nat k / 60)) 2 "0" ++ ":"
          ++ padStart (String_of_int (Z.of_nat k mod 60)) 2 "0")%string /\
  String.length (padStart (String_of_int (Z.of_nat k mod 60)) 2 "0") = 2%nat.
Proof.
  intros Hk. split.
  - rewrite ticks by (unfold MAX_SAFE_INTEGER; lia).
    unfold formatSeconds. change (Num 60) with (Num (inject_Z 60)).
    rewrite Math_floor_div, rem_nonneg_integers by lia.
    pose proof (Z.div_pos (Z.of_nat k) 60 ltac:(lia) ltac:(lia)).
    assert (Z.of_nat k / 60 <= Z.of_nat k)
      by (apply Z.div_le_upper_bound; lia).
    pose proof (Z.mod_pos_bound (Z.of_nat k) 60 ltac:(lia)).
    rewrite !toString_integer by lia. reflexivity.
  - apply padStart_two_digits. apply Z.mod_pos_bound. lia.
Qed.

Lemma timer_display_witness :
  formatSeconds (Nat.iter 125 tick (Num 0)) = Some "02:05".
Proof.
  exact (proj1 (timer_display 125 ltac:(lia))).
Defined.

(** X17: formatDuration answers N/A exactly for an absent duration and for one
    below zero; in particular NaN is not answered with N/A. *)
Theorem formatDuration_not_available (seconds : option number) :
  formatDuration seconds = Some "N/A" <->
  seconds = None \/ exists x, seconds = Some x /\ lt x (Num 0) = true.
Proof.
  split.
  - destruct seconds as [x |]; [| now left]. intros H. right.
    exists x. split; [reflexivity |].
    unfold formatDuration in H.
    destruct (lt x (Num 0)); [reflexivity | exfalso].
    cbv zeta in H.
    repeat match type of H with
           | (if ?c then _ else _) = _ => destruct c
           | context [toString ?y] => destruct (toString y); cbn in H
           end; try discriminate; injection H as H.
    + rewrite !append_assoc3 in H.
      now apply (append_snoc_neq _ "N/" "m" "A") in H.
    + rewrite !append_assoc3 in H.
      now apply (append_snoc_neq _ "N/" "s" "A") in H.
    + now apply (append_snoc_neq _ "N/" "s" "A") in H.
  - intros [-> | (x & -> & Hx)]; [reflexivity |].
    unfold formatDuration. now rewrite Hx.
Qed.

(** X18: for a whole number of seconds formatDuration splits exactly: hours
    and minutes from one hour on (the seconds are dropped), minutes and
    seconds from one minute on, seconds below. *)
Theorem formatDuration_whole_seconds (s : Z) :
  0 <= s < 2 ^ 40 ->
  formatDuration (Some (Num (inject_Z s)))
  = Some (if (3600 <=? s)%Z then
            String_of_int (s / 3600) ++ "h "
            ++ String_of_int (s mod 3600 / 60) ++ "m"
          else if (60 <=? s)%Z then
            String_of_int (s / 60) ++ "m " ++ String_of_int (s mod 60) ++ "s"
          else String_of_int s ++ "s")%string.
Proof.
  intros Hs. unfold formatDuration.
  change (Num 0) with (Num (inject_Z 0)). rewrite lt_integer.
  rewrite (proj2 (Z.ltb_ge _ _)) by lia.
  change (Num 3600) with (Num (inject_Z 3600)).
  change (Num 60) with (Num (inject_Z 60)).
  pose proof (Z.mod_pos_bound s 3600 ltac:(lia)).
  pose proof (Z.mod_pos_bound s 60 ltac:(lia)).
  rewrite !rem_nonneg_integers by lia.
  rewrite !Math_floor_div by lia. rewrite Math_floor_integer.
  change (Num (inject_Z 0)) with (Num 0). rewrite !gt_zero_integer.
  pose proof (Z.div_pos s 3600 ltac:(lia) ltac:(lia)).
  assert (s / 3600 <= s) by (apply Z.div_le_upper_bound; lia).
  pose proof (Z.div_pos (s mod 3600) 60 ltac:(lia) ltac:(lia)).
  assert (s mod 3600 / 60 <= s mod 3600)
    by (apply Z.div_le_upper_bound; lia).
  rewrite !toString_integer by lia. cbn [mbind option_bind].
  destruct (Z.leb_spec 3600 s) as [Hh | Hh].
  - assert (1 <= s / 3600) by (apply Z.div_le_lower_bound; lia).
    now rewrite (proj2 (Z.ltb_lt _ _)) by lia.
  - rewrite (Z.div_small s 3600) by lia. cbn [Z.ltb Z.compare].
    rewrite (Z.mod_small s 3600) by lia.
    destruct (Z.leb_spec 60 s) as [Hm | Hm].
    + assert (1 <= s / 60) by (apply Z.div_le_lower_bound; lia).
      now rewrite (proj2 (Z.ltb_lt _ _)) by lia.
    + rewrite (Z.div_small s 60) by lia. cbn [Z.ltb Z.compare].
      now rewrite (Z.mod_small s 60) by lia.
Qed.

Lemma formatDuration_whole_seconds_witness :
  formatDuration (Some (Num 3725)) = Some "1h 2m".
Proof.
  exact (formatDuration_whole_seconds 3725 ltac:(lia)).
Defined.

(** X19: for a whole number of seconds formatRestTime prints the seconds alone
    below one minute (negative ones included), and from one minute on the
    minutes followed by the seconds unless these are zero. *)
Theorem formatRestTime_whole_seconds (s : Z) :
  - 2 ^ 40 < s < 2 ^ 40 ->
  formatRestTime (Some (Num (inject_Z s)))
  = Some (if (s <? 60)%Z then String_of_int s ++ "s"
          else if (0 <? s mod 60)%Z then
            String_of_int (s / 60) ++ "m " ++ String_of_int (s mod 60) ++ "s"
          else String_of_int (s / 60) ++ "m")%string.
Proof.
  intros Hs. unfold formatRestTime.
  change (Num 60) with (Num (inject_Z 60)). rewrite lt_integer.
  destruct (Z.ltb_spec s 60) as [Hlt | Hge].
  - now rewrite toString_integer by lia.
  - pose proof (Z.mod_pos_bound s 60 ltac:(lia)).
    rewrite rem_nonneg_integers, Math_floor_div by lia.
    rewrite gt_zero_integer.
    pose proof (Z.div_pos s 60 ltac:(lia) ltac:(lia)).
    assert (s / 60 <= s) by (apply Z.div_le_upper_bound; lia).
    rewrite !toString_integer by lia. cbn [mbind option_bind].
    now destruct (0 <? s mod 60).
Qed.

Lemma formatRestTime_whole_seconds_witness :
  formatRestTime (Some (Num 90)) = Some "1m 30s".
Proof.
  exact (formatRestTime_whole_seconds 90 ltac:(lia)).
Defined.

(** ** WorkoutDetailPage: volume and duration *)

Module VolumeFacts.

Lemma fine_grid_13 (n d : Z) :
  0 < n < 2 ^ 40 -> 0 < d < 2 ^ 13 -> 13 <= - ulp_exp n d.
Proof.
  intros Hn Hd.
  destruct (ulp_exp_negative n d ltac:(lia) ltac:(lia)) as [[Hlo Hneg] Hup].
  pose proof (Z.log2_nonneg d).
  assert (Z.log2 n < 40) by (apply Z.log2_lt_pow2; lia).
  lia.
Qed.

(** Where the quotient lies on the grid, rounding leaves it alone. *)
Lemma grid_exact (n d a m j : Z) :
  0 < d -> 0 <= j <= a -> n * 2 ^ j = m * d ->
  div_half_even (n * 2 ^ a) d = m * 2 ^ (a - j).
Proof.
  intros Hd Hj Hm.
  assert (n * 2 ^ a = m * 2 ^ (a - j) * d) as E.
  { replace a with (j + (a - j)) at 1 by lia.
    rewrite Z.pow_add_r by lia. nia. }
  unfold div_half_even. rewrite E.
  rewrite Z.div_mul, Z.mod_mul by lia.
  now destruct (Z.compare_spec (2 * 0) d); try lia.
Qed.

Lemma round64_pos_exact (n d m j : Z) :
  0 < n < 2 ^ 40 -> 0 < d < 2 ^ 13 -> 0 <= j <= 13 -> n * 2 ^ j = m * d ->
  round64_pos n d = Some (Qred (n # Z.to_pos d)).
Proof.
  intros Hn Hd Hj Hm.
  pose proof (fine_grid_13 n d Hn Hd) as Ha.
  rewrite round64_pos_grid by lia.
  rewrite (grid_exact n d _ m j) by lia.
  f_equal. apply Qred_complete. unfold Qeq. cbn [Qnum Qden].
  assert (0 < 2 ^ (- ulp_exp n d)) by (apply Z.pow_pos_nonneg; lia).
  rewrite !Z2Pos.id by lia.
  replace (- ulp_exp n d) with (j + (- ulp_exp n d - j)) at 2 by lia.
  rewrite Z.pow_add_r by lia. nia.
Qed.

(** A non-negative dyadic rational with a small numerator and denominator
    is a binary64 value: rounding returns it. *)
Lemma round64_exact (q : Q) (m j : Z) :
  0 <= Qnum q < 2 ^ 40 -> Zpos (Qden q) < 2 ^ 13 -> 0 <= j <= 13 ->
  Qnum q * 2 ^ j = m * Zpos (Qden q) ->
  round64 q = Num (Qred q).
Proof.
  intros Hn Hd Hj Hm. unfold round64.
  destruct (Qnum q) as [| n | n] eqn:En; try lia.
  - f_equal. change 0%Q with (Qred 0). apply Qred_complete.
    unfold Qeq. rewrite En. reflexivity.
  - rewrite (round64_pos_exact (Zpos n) (Zpos (Qden q)) m j) by lia.
    do 2 f_equal. destruct q as [qn qd]. cbn in *. now subst.
Qed.

Lemma Qred_halves (K : Z) :
  0 <= K ->
  0 <= Qnum (Qred (K # 2)) <= K /\
  Zpos (Qden (Qred (K # 2))) <= 2 /\
  Qnum (Qred (K # 2)) * 2 = K * Zpos (Qden (Qred (K # 2))).
Proof.
  intros HK. unfold Qred.
  pose proof (Z.ggcd_correct_divisors K 2) as Hdiv.
  pose proof (Z.ggcd_gcd K 2) as Hg.
  pose proof (Z.gcd_nonneg K 2) as Hpos.
  destruct (Z.ggcd K 2) as (g, (aa, bb)). cbn [fst snd] in *.
  destruct Hdiv as [HKa H2b]. rewrite <- Hg in Hpos. cbn [Qnum Qden].
  assert (g <> 0) by (intros ->; lia).
  assert (0 < bb) by (apply Z.mul_pos_cancel_l with g; lia).
  assert (0 <= aa) by (apply Z.mul_nonneg_cancel_l with g; lia).
  rewrite Z2Pos.id by lia.
  assert (bb <= 2) by nia.
  assert (aa <= K) by nia.
  repeat split; try lia.
  rewrite HKa, H2b at 1. ring.
Qed.

Lemma halves_zero : halves 0 = Num 0.
Proof.
  reflexivity.
Qed.

(** The sum of two weights in half units is exact. *)
Lemma add_halves (K x : Z) :
  0 <= K -> 0 <= x -> K + x < 2 ^ 39 ->
  add (halves K) (halves x) = halves (K + x).
Proof.
  intros HK Hx Hsum. unfold halves, add.
  destruct (Qred_halves K HK) as (Hn1 & Hd1 & He1).
  destruct (Qred_halves x Hx) as (Hn2 & Hd2 & He2).
  pose proof (Pos2Z.is_pos (Qden (Qred (K # 2)))).
  pose proof (Pos2Z.is_pos (Qden (Qred (x # 2)))).
  rewrite (round64_exact _ (K + x) 1).
  - f_equal. apply Qred_complete. rewrite !Qred_correct.
    unfold Qeq, Qplus. cbn [Qnum Qden]. rewrite Pos2Z.inj_mul. lia.
  - unfold Qplus. cbn [Qnum]. nia.
  - unfold Qplus. cbn [Qden]. rewrite Pos2Z.inj_mul. nia.
  - lia.
  - unfold Qplus. cbn [Qnum Qden]. rewrite Pos2Z.inj_mul. nia.
Qed.

(** A weight in half units times whole repetitions is exact. *)
Lemma mul_halves (k r : Z) :
  0 <= k -> 0 <= r -> k * r < 2 ^ 40 ->
  mul (halves k) (Num (inject_Z r)) = halves (k * r).
Proof.
  intros Hk Hr Hprod. unfold halves, mul.
  destruct (Qred_halves k Hk) as (Hn1 & Hd1 & He1).
  pose proof (Pos2Z.is_pos (Qden (Qred (k # 2)))).
  rewrite (round64_exact _ (k * r) 1).
  - f_equal. apply Qred_complete. rewrite Qred_correct.
    unfold Qeq, Qmult, inject_Z. cbn [Qnum Qden].
    rewrite Pos2Z.inj_mul. lia.
  - unfold Qmult, inject_Z. cbn [Qnum]. nia.
  - unfold Qmult, inject_Z. cbn [Qden]. rewrite Pos2Z.inj_mul. lia.
  - lia.
  - unfold Qmult, inject_Z. cbn [Qnum Qden]. rewrite Pos2Z.inj_mul. nia.
Qed.

Lemma doubleVolume_nonneg (row : option Z * Z) :
  0 <= snd row -> (forall k, fst row = Some k -> 0 <= k) ->
  0 <= doubleVolume row.
Proof.
  intros Hr Hk. unfold doubleVolume. destruct (fst row) as [k |]; [| lia].
  specialize (Hk k eq_refl). nia.
Qed.

Lemma sum_doubleVolume_nonneg (rows : list (option Z * Z)) :
  Forall (fun row => 0 <= snd row /\ forall k, fst row = Some k -> 0 <= k)
         rows ->
  0 <= foldr Z.add 0 (doubleVolume <$> rows).
Proof.
  induction 1 as [| row rest [Hr Hk] _ IH]; [simpl; lia |].
  pose proof (doubleVolume_nonneg row Hr Hk).
  rewrite fmap_cons. cbn [foldr]. lia.
Qed.

(** The running sum of totalVolume from an exact start. *)
Lemma totalVolume_acc (rows : list (option Z * Z)) (sets : list WorkoutSet.t) :
  Forall2 (fun row set =>
             WorkoutSet.weight set = halves <$> fst row /\
             WorkoutSet.reps set = Num (inject_Z (snd row)))
          rows sets ->
  Forall (fun row => 0 <= snd row /\ forall k, fst row = Some k -> 0 <= k)
         rows ->
  forall K : Z,
  0 <= K ->
  K + foldr Z.add 0 (doubleVolume <$> rows) < 2 ^ 39 ->
  fold_left (fun acc current => add acc (calculateVolume current))
            sets (halves K)
  = halves (K + foldr Z.add 0 (doubleVolume <$> rows)).
Proof.
  intros Hsets.
  induction Hsets as [| row set rows sets [Hw Hr] _ IH];
    intros Hrows K HK Hsum.
  - simpl. f_equal. lia.
  - inversion Hrows as [| ? ? [Hreps Hweight] Hrest]; subst.
    pose proof (sum_doubleVolume_nonneg rows Hrest) as Hnonneg.
    pose proof (doubleVolume_nonneg row Hreps Hweight) as Hrow.
    rewrite fmap_cons in Hsum |- *. cbn [foldr fold_left] in Hsum |- *.
    assert (add (halves K) (calculateVolume set)
            = halves (K + doubleVolume row)) as ->.
    { unfold calculateVolume. rewrite Hw, Hr.
      destruct row as [[k |] r];
        cbn [fst snd fmap option_fmap option_map] in *.
      - assert (0 <= k) by now apply Hweight.
        change (doubleVolume (Some k, r)) with (k * r) in *.
        rewrite mul_halves by lia. apply add_halves; lia.
      - change (doubleVolume (None, r)) with 0 in *.
        rewrite <- halves_zero. apply add_halves; lia. }
    rewrite IH by (try assumption; lia).
    f_equal. lia.
Qed.

End VolumeFacts.
Import VolumeFacts.

(** X20: the total volume is exact for weights entered in steps of half a unit
    and whole repetitions: it is half the sum of half-units times
    repetitions, a set without weight counting for nothing, as long as
    that sum stays below 2^39. *)
Theorem totalVolume_half_steps (rows : list (option Z * Z))
    (sets : list WorkoutSet.t) :
  Forall2 (fun row set =>
             WorkoutSet.weight set = halves <$> fst row /\
             WorkoutSet.reps set = Num (inject_Z (snd row)))
          rows sets ->
  Forall (fun row => 0 <= snd row /\ forall k, fst row = Some k -> 0 <= k)
         rows ->
  foldr Z.add 0 (doubleVolume <$> rows) < 2 ^ 39 ->
  totalVolume (Some sets) = halves (foldr Z.add 0 (doubleVolume <$> rows)).
Proof.
  intros Hsets Hrows Hsum. unfold totalVolume. rewrite <- halves_zero.
  now rewrite (totalVolume_acc rows sets Hsets Hrows 0) by lia.
Qed.

Lemma totalVolume_half_steps_witness :
  totalVolume
    (Some [WorkoutSet.mk 1 7 "Press de banca" 1 (Some (Num (125 # 2)))
             (Num 8) normal None;
           WorkoutSet.mk 2 7 "Press de banca" 2 None (Num 12) normal None;
           WorkoutSet.mk 3 7 "Press de banca" 3 (Some (Num 60))
             (Num 5) normal None])
  = Num 800.
Proof.
  refine (totalVolume_half_steps [(Some 125, 8); (None, 12); (Some 120, 5)]
            _ _ _ _).
  - repeat constructor.
  - repeat constructor; cbn; intros; simplify_eq; lia.
  - vm_compute. reflexivity.
Defined.

(** X21: without a stored duration the detail page computes one from the two
    timestamps: the whole number of seconds nearest to the elapsed time,
    halves rounded up, and none when the completion precedes the start. *)
Theorem durationInSeconds_from_timestamps (Date_getTime : string -> option Z)
    (workout : Workout.t) (completedAt : string) (s c : Z) :
  Workout.duration workout = None ->
  Workout.completedAt workout = Some completedAt ->
  completedAt <> "" ->
  Date_getTime (Workout.startedAt workout) = Some s ->
  Date_getTime completedAt = Some c ->
  safe_integer s -> safe_integer c -> c - s < 2 ^ 40 ->
  durationInSeconds Date_getTime (Some workout)
  = if s <=? c then Some (Num (inject_Z ((c - s + 500) / 1000))) else None.
Proof.
  intros Hd Hc Hne Hs Hcs Hsafe_s Hsafe_c Hdiff.
  unfold durationInSeconds, getTime.
  rewrite Hd, Hc, (proj2 (truthy_true _) Hne), Hs, Hcs.
  rewrite !of_Z_safe by assumption. cbn [isNaN negb andb].
  rewrite le_integer.
  destruct (Z.leb_spec s c) as [Hle | Hlt]; [| reflexivity].
  rewrite sub_integers by (unfold safe_integer, MAX_SAFE_INTEGER in *; lia).
  change (Num 1000) with (Num (inject_Z 1000)).
  rewrite (Math_round_div (c - s) 1000) by lia.
  do 3 f_equal.
  replace (2 * (c - s) + 1000) with (2 * (c - s + 500)) by lia.
  now rewrite Z.div_mul_cancel_l by lia.
Qed.

Lemma durationInSeconds_from_timestamps_witness :
  durationInSeconds UtcHost.Date_getTime
    (Some (Workout.mk Sample.startText (Some Sample.endText) None None))
  = Some (Num 2700).
Proof.
  refine (durationInSeconds_from_timestamps UtcHost.Date_getTime
            (Workout.mk Sample.startText (Some Sample.endText) None None)
            Sample.endText 1704103200000 1704105900000
            eq_refl eq_refl _ eq_refl eq_refl _ _ _).
  - discriminate.
  - unfold safe_integer, MAX_SAFE_INTEGER. lia.
  - unfold safe_integer, MAX_SAFE_INTEGER. lia.
  - lia.
Defined.

(** ** RoutineFormPage: the rows of a routine *)

Module RoutineRowFacts.
Import RoutineFormPage.

Lemma Math_max_one (x : number) :
  isNaN x = false ->
  le (Num 1) (Math_max (Num 1) x) = true /\
  truthy_num (Math_max (Num 1) x) = true /\
  lt (Math_max (Num 1) x) (Num 1) = false.
Proof.
  destruct x as [| | | q]; try discriminate; intros _; try (now vm_compute).
  unfold Math_max. destruct (lt (Num 1) (Num q)) eqn:Hlt.
  - unfold lt, le, truthy_num, Qle_bool in *. cbn [Qnum Qden] in *.
    apply negb_true_iff, Z.leb_gt in Hlt.
    repeat split.
    + apply Z.leb_le. lia.
    + apply negb_true_iff, Z.eqb_neq. lia.
    + apply negb_false_iff, Z.leb_le. lia.
  - now vm_compute.
Qed.


Lemma moveExercise_down before x y after :
  moveExercise (length before) down (before ++ x :: y :: after)
  = Some <$> (before ++ y :: x :: after).
Proof.
  unfold moveExercise. rewrite length_app. cbn [length].
  destruct (Z.ltb_spec (Z.of_nat (length before) + 1) 0); [lia |].
  destruct (Z.leb_spec (Z.of_nat (length before + S (S (length after))))
                       (Z.of_nat (length before) + 1)); [lia |].
  cbn [orb].
  replace (Z.to_nat (Z.of_nat (length before) + 1))
    with (S (length before)) by lia.
  rewrite list_lookup_middle by reflexivity.
  rewrite delete_middle. unfold splice_insert.
  rewrite (cons_middle y before after), app_assoc, fmap_app.
  rewrite take_app_length', drop_app_length'
    by (rewrite length_fmap, length_app; simpl; lia).
  rewrite !fmap_app, !fmap_cons, <- !app_assoc. reflexivity.
Qed.

Lemma moveExercise_up before x y after :
  moveExercise (S (length before)) up (before ++ x :: y :: after)
  = Some <$> (before ++ y :: x :: after).
Proof.
  unfold moveExercise. rewrite length_app. cbn [length].
  destruct (Z.ltb_spec (Z.of_nat (S (length before)) - 1) 0); [lia |].
  destruct (Z.leb_spec (Z.of_nat (length before + S (S (length after))))
                       (Z.of_nat (S (length before)) - 1)); [lia |].
  cbn [orb].
  replace (Z.to_nat (Z.of_nat (S (length before)) - 1))
    with (length before) by lia.
  rewrite (cons_middle x before (y :: after)), app_assoc.
  rewrite list_lookup_middle by (rewrite length_app; simpl; lia).
  replace (S (length before)) with (length (before ++ [x]))
    by (rewrite length_app; simpl; lia).
  rewrite delete_middle. unfold splice_insert.
  rewrite <- app_assoc, fmap_app.
  rewrite take_app_length', drop_app_length' by now rewrite length_fmap.
  rewrite !fmap_app, !fmap_cons. reflexivity.
Qed.

(** Two neighbours of a list, with what is before and after them. *)
Lemma neighbours {A : Type} (l : list A) (i : nat) :
  (S i < length l)%nat ->
  exists a b, l = take i l ++ a :: b :: drop (S (S i)) l.
Proof.
  intros Hi.
  destruct (lookup_lt_is_Some_2 l i ltac:(lia)) as [a Ha].
  destruct (lookup_lt_is_Some_2 l (S i) Hi) as [b Hb].
  exists a, b.
  rewrite <- (take_drop_middle l i a Ha) at 1. do 2 f_equal.
  rewrite <- (take_drop_middle l (S i) b Hb) at 1.
  rewrite drop_app_length' by (rewrite length_take; lia).
  reflexivity.
Qed.

Lemma moveExercise_first prev : moveExercise 0 up prev = Some <$> prev.
Proof.
  reflexivity.
Qed.

Lemma moveExercise_last prev (index : nat) :
  (length prev <= S index)%nat ->
  moveExercise index down prev = Some <$> prev.
Proof.
  intros Hi. unfold moveExercise.
  destruct (Z.leb_spec (Z.of_nat (length prev)) (Z.of_nat index + 1));
    [| lia].
  now rewrite orb_true_r.
Qed.

(** The checks of validateForm on a row loaded from a stored routine. *)
Lemma validateExercises_loaded (exercises : list RoutineExercise.t) :
  Forall (fun exercise =>
            1 <= RoutineExercise.sets exercise <= MAX_SAFE_INTEGER /\
            forall lo hi,
              RoutineExercise.repRangeMin exercise = Some lo ->
              RoutineExercise.repRangeMax exercise = Some hi ->
              safe_integer lo /\ safe_integer hi /\ lo <= hi)
         exercises ->
  validateExercises
    (map (fun exercise =>
            RoutineExerciseForm.mk
              (RoutineExercise.exerciseId exercise)
              (RoutineExercise.exerciseName exercise)
              (of_Z (RoutineExercise.sets exercise))
              (of_Z <$> RoutineExercise.repRangeMin exercise)
              (of_Z <$> RoutineExercise.repRangeMax exercise)
              (Technique_name (RoutineExercise.technique exercise))
              (of_Z <$> RoutineExercise.restTime exercise))
         exercises)
  = None.
Proof.
  induction 1 as [| exercise rest [Hsets Hrange] _ IH]; [reflexivity |].
  cbn [map validateExercises RoutineExerciseForm.sets
       RoutineExerciseForm.repRangeMin RoutineExerciseForm.repRangeMax].
  rewrite of_Z_safe by (unfold safe_integer, MAX_SAFE_INTEGER in *; lia).
  change (Num 1) with (Num (inject_Z 1)). rewrite lt_integer.
  rewrite (proj2 (Z.ltb_ge _ _)) by lia.
  unfold truthy_num. cbn [inject_Z Qnum].
  rewrite (proj2 (Z.eqb_neq _ _)) by lia. cbn [negb orb].
  destruct (RoutineExercise.repRangeMin exercise) as [lo |];
    destruct (RoutineExercise.repRangeMax exercise) as [hi |];
    cbn [fmap option_fmap option_map]; try exact IH.
  destruct (Hrange lo hi eq_refl eq_refl) as (Hlo & Hhi & Hle).
  rewrite !of_Z_safe by assumption. unfold gt. rewrite lt_integer.
  now rewrite (proj2 (Z.ltb_ge _ _)) by lia.
Qed.

End RoutineRowFacts.
Import RoutineRowFacts.

(** X23: adding a search result keeps the exercise ids of the rows distinct:
    the rows are left alone when the id is there already, and otherwise
    the exercise is appended with three sets, the normal technique and
    nothing else set; removing that last row gives the rows back. *)
Theorem handleAddExercise_distinct (exercise : Exercise.t)
    (prev : list RoutineExerciseForm.t) :
  NoDup (RoutineFormPage.addedExerciseIds prev) ->
  let next := RoutineFormPage.handleAddExercise prev exercise prev in
  NoDup (RoutineFormPage.addedExerciseIds next) /\
  Exercise.id exercise ∈ RoutineFormPage.addedExerciseIds next /\
  RoutineFormPage.handleAddExercise next exercise next = next /\
  (Exercise.id exercise ∉ RoutineFormPage.addedExerciseIds prev ->
   next = prev ++ [RoutineExerciseForm.mk (Exercise.id exercise)
                     (Exercise.name exercise) (Num 3) None None "normal"
                     None] /\
   RoutineFormPage.handleRemoveExercise (length prev) next = prev).
Proof.
  intros Hnodup next. subst next.
  unfold RoutineFormPage.handleAddExercise.
  destruct (decide (Exercise.id exercise
                    ∈ RoutineFormPage.addedExerciseIds prev)) as [Hin | Hnew].
  - rewrite !bool_decide_eq_true_2 by assumption.
    repeat split; try assumption; try reflexivity; intros; contradiction.
  - rewrite !bool_decide_eq_false_2 by assumption.
    unfold RoutineFormPage.addedExerciseIds in *.
    rewrite !map_app. cbn [map RoutineExerciseForm.exerciseId].
    assert (Exercise.id exercise
            ∈ map RoutineExerciseForm.exerciseId prev ++ [Exercise.id exercise])
      as Hthere by (apply elem_of_app; right; apply list_elem_of_singleton;
                    reflexivity).
    rewrite bool_decide_eq_true_2 by assumption.
    split; [| split; [assumption | split; [reflexivity |]]].
    + apply NoDup_app. repeat split; [assumption | | apply NoDup_singleton].
      intros x Hx Hx'. apply list_elem_of_singleton in Hx'. now subst.
    + intros _. split; [reflexivity |].
      unfold RoutineFormPage.handleRemoveExercise.
      rewrite (filter_index_delete _ 0 (length prev)).
      rewrite take_app_length, drop_app_ge by lia.
      replace (S (length prev) - length prev)%nat with 1%nat by lia.
      simpl. now rewrite app_nil_r.
Qed.

Lemma handleAddExercise_distinct_witness :
  RoutineFormPage.addedExerciseIds
    (RoutineFormPage.handleAddExercise []
       (Exercise.mk 7 "Press de banca" None None []) [])
  = [7].
Proof.
  pose proof (handleAddExercise_distinct
                (Exercise.mk 7 "Press de banca" None None []) []
                NoDup_nil_2) as (_ & _ & _ & H).
  destruct (H (not_elem_of_nil _)) as [-> _]. reflexivity.
Defined.

(** X24: moving a row down, or the row after it up, swaps the two neighbours
    and nothing else; doing the opposite move on the moved row undoes
    it. *)
Theorem moveExercise_swaps_neighbours
    (before after : list RoutineExerciseForm.t)
    (a b : RoutineExerciseForm.t) :
  let prev := before ++ a :: b :: after in
  let swapped := before ++ b :: a :: after in
  RoutineFormPage.moveExercise (length before) down prev = Some <$> swapped /\
  RoutineFormPage.moveExercise (S (length before)) up prev = Some <$> swapped /\
  RoutineFormPage.moveExercise (S (length before)) up swapped = Some <$> prev /\
  RoutineFormPage.moveExercise (length before) down swapped = Some <$> prev.
Proof.
  intros prev swapped. subst prev swapped.
  repeat split; auto using moveExercise_down, moveExercise_up.
Qed.


(** X25: moving a row that is there never loses, repeats or invents a row: the
    result holds no undefined entry and is a rearrangement of the rows. *)
Theorem moveExercise_permutation (index : nat) (direction : Direction)
    (prev : list RoutineExerciseForm.t) :
  (index < length prev)%nat ->
  exists rows,
    RoutineFormPage.moveExercise index direction prev = Some <$> rows /\
    rows ≡ₚ prev.
Proof.
  intros Hi. destruct direction.
  - destruct index as [| i]; [now exists prev |].
    destruct (neighbours prev i Hi) as (a & b & E).
    exists (take i prev ++ b :: a :: drop (S (S i)) prev). split.
    + rewrite E at 1.
      rewrite <- (length_take_le prev i) at 1 by lia.
      apply moveExercise_up.
    + rewrite E at 3. apply Permutation_app_head, perm_swap.
  - destruct (decide (S index < length prev)%nat) as [Hnext | Hlast].
    + destruct (neighbours prev index Hnext) as (a & b & E).
      exists (take index prev ++ b :: a :: drop (S (S index)) prev). split.
      * rewrite E at 1.
        rewrite <- (length_take_le prev index) at 1 by lia.
        apply moveExercise_down.
      * rewrite E at 3. apply Permutation_app_head, perm_swap.
    + exists prev. split; [| reflexivity].
      apply moveExercise_last. lia.
Qed.

Lemma moveExercise_permutation_witness :
  exists rows,
    RoutineFormPage.moveExercise 1 up
      [RoutineExerciseForm.mk 7 "Press de banca" (Num 3) None None "normal"
         None;
       RoutineExerciseForm.mk 9 "Remo" (Num 4) None None "normal" None]
    = Some <$> rows /\
    length rows = 2%nat.
Proof.
  destruct (moveExercise_permutation 1 up
              [RoutineExerciseForm.mk 7 "Press de banca" (Num 3) None None
                 "normal" None;
               RoutineExerciseForm.mk 9 "Remo" (Num 4) None None "normal"
                 None] ltac:(simpl; lia)) as (rows & Hmove & Hperm).
  exists rows. split; [exact Hmove |].
  now rewrite (Permutation_length Hperm).
Defined.

(** X26: at the edges: the first row does not move up and the last row does
    not move down, the rows being returned as they are; but called with
    the index just past the last row, a move up is not refused: nothing is
    taken out and an undefined entry is put in front of the last row. *)
Theorem moveExercise_edges (prev : list RoutineExerciseForm.t) :
  RoutineFormPage.moveExercise 0 up prev = Some <$> prev /\
  RoutineFormPage.moveExercise (length prev - 1) down prev = Some <$> prev /\
  (prev <> [] ->
   RoutineFormPage.moveExercise (length prev) up prev
   = (Some <$> take (length prev - 1) prev)
     ++ None :: (Some <$> drop (length prev - 1) prev)).
Proof.
  split; [apply moveExercise_first |].
  split; [apply moveExercise_last; lia |].
  intros Hne. unfold RoutineFormPage.moveExercise.
  assert (0 < length prev)%nat
    by (destruct prev; [congruence | simpl; lia]).
  destruct (Z.ltb_spec (Z.of_nat (length prev) - 1) 0); [lia |].
  destruct (Z.leb_spec (Z.of_nat (length prev)) (Z.of_nat (length prev) - 1));
    [lia |].
  cbn [orb].
  rewrite (lookup_ge_None_2 prev (length prev)) by lia.
  rewrite delete_take_drop, take_ge, drop_ge, app_nil_r by lia.
  unfold RoutineFormPage.splice_insert.
  replace (Z.to_nat (Z.of_nat (length prev) - 1))
    with (length prev - 1)%nat by lia.
  now rewrite fmap_take, fmap_drop.
Qed.

Lemma moveExercise_edges_witness :
  RoutineFormPage.moveExercise 1 up
    [RoutineExerciseForm.mk 7 "Press de banca" (Num 3) None None "normal"
       None]
  = [None;
     Some (RoutineExerciseForm.mk 7 "Press de banca" (Num 3) None None
             "normal" None)].
Proof.
  apply (proj2 (proj2 (moveExercise_edges
                         [RoutineExerciseForm.mk 7 "Press de banca" (Num 3)
                            None None "normal" None]))).
  discriminate.
Defined.

(** X27: typing in the sets field stores 0 when the text reads as no number,
    and otherwise a number that is at least 1, never one between: the
    row then passes the sets check of validateForm exactly when the text
    read as a number. *)
Theorem handleExerciseFieldChange_sets (index : nat) (value : string)
    (prev : list RoutineExerciseForm.t) (exercise : RoutineExerciseForm.t) :
  prev !! index = Some exercise ->
  exists sets,
    RoutineFormPage.handleExerciseFieldChange index key_sets value prev
    = <[index :=
          RoutineExerciseForm.mk
            (RoutineExerciseForm.exerciseId exercise)
            (RoutineExerciseForm.exerciseName exercise)
            sets
            (RoutineExerciseForm.repRangeMin exercise)
            (RoutineExerciseForm.repRangeMax exercise)
            (RoutineExerciseForm.technique exercise)
            (RoutineExerciseForm.restTime exercise)]> prev /\
    (if isNaN (Number value) then sets = Num 0
     else le (Num 1) sets = true) /\
    negb (truthy_num sets) || lt sets (Num 1) = isNaN (Number value).
Proof.
  intros Hi.
  exists (if isNaN (Number value) then Num 0
          else Math_max (Num 1) (Number value)).
  split.
  - unfold RoutineFormPage.handleExerciseFieldChange.
    rewrite (imap_at _ _ _ _ Hi)
      by (intros j y Hj; now rewrite neq_index).
    now rewrite Nat.eqb_refl.
  - destruct (isNaN (Number value)) eqn:Hnan; [split; reflexivity |].
    destruct (Math_max_one _ Hnan) as (Hle & Htruthy & Hlt).
    now rewrite Hle, Htruthy, Hlt.
Qed.

Lemma handleExerciseFieldChange_sets_witness :
  exists sets,
    RoutineFormPage.handleExerciseFieldChange 0 key_sets "0.5"
      [RoutineExerciseForm.mk 7 "Press de banca" (Num 3) None None "normal"
         None]
    = [RoutineExerciseForm.mk 7 "Press de banca" sets None None "normal"
         None] /\
    le (Num 1) sets = true.
Proof.
  destruct (handleExerciseFieldChange_sets 0 "0.5"
              [RoutineExerciseForm.mk 7 "Press de banca" (Num 3) None None
                 "normal" None] _ eq_refl) as (sets & Hrows & Hsets & _).
  exists sets. split; [exact Hrows | exact Hsets].
Defined.



(** X29: a stored routine opened for editing and saved untouched passes
    validateForm and is sent to updateRoutine with every row as it was
    loaded, numbered by position, provided its name is not blank, it has
    an exercise, every exercise plans at least one set and no lower bound
    exceeds its upper bound. *)
Theorem loaded_routine_resubmitted (id description : string)
    (routine : Routine.t) :
  id <> "" ->
  trim (Routine.name routine) <> "" ->
  Routine.exercises routine <> [] ->
  Forall (fun exercise =>
            1 <= RoutineExercise.sets exercise <= MAX_SAFE_INTEGER /\
            forall lo hi,
              RoutineExercise.repRangeMin exercise = Some lo ->
              RoutineExercise.repRangeMax exercise = Some hi ->
              safe_integer lo /\ safe_integer hi /\ lo <= hi)
         (Routine.exercises routine) ->
  RoutineFormPage.handleSubmit (Some id) (Routine.name routine) description
    (RoutineFormPage.loadRoutine routine)
  = RoutineFormPage.updateRoutine (Number id)
      (CreateRoutineRequest.mk
         (trim (Routine.name routine))
         (or_undefined (trim description))
         (imap (fun index exercise =>
                  CreateRoutineExercise.mk
                    (RoutineExercise.exerciseId exercise)
                    (Num (inject_Z (RoutineExercise.sets exercise)))
                    (Technique_name (RoutineExercise.technique exercise))
                    (Z.of_nat index + 1)
                    (of_Z <$> RoutineExercise.repRangeMin exercise)
                    (of_Z <$> RoutineExercise.repRangeMax exercise)
                    (of_Z <$> RoutineExercise.restTime exercise))
               (Routine.exercises routine))).
Proof.
  intros Hid Hname Hexercises Hrows.
  unfold RoutineFormPage.handleSubmit, RoutineFormPage.validateForm,
    RoutineFormPage.loadRoutine.
  rewrite (proj2 (truthy_true _) Hname), (proj2 (truthy_true _) Hid).
  cbn [negb]. rewrite length_map.
  rewrite length_zero_iff_nil' by assumption.
  rewrite validateExercises_loaded by assumption.
  do 2 f_equal. apply list_eq. intros i.
  rewrite !list_lookup_imap.
  match goal with
  | |- context [map ?f ?l] => change (map f l) with (f <$> l)
  end.
  rewrite list_lookup_fmap.
  destruct (Routine.exercises routine !! i) as [exercise |] eqn:Hi;
    [| reflexivity].
  destruct (proj1 (Forall_lookup _ _) Hrows i exercise Hi) as [Hsets _].
  cbn [fmap option_fmap option_map mbind option_bind
       RoutineExerciseForm.exerciseId RoutineExerciseForm.sets
       RoutineExerciseForm.technique RoutineExerciseForm.repRangeMin
       RoutineExerciseForm.repRangeMax RoutineExerciseForm.restTime].
  now rewrite of_Z_safe
    by (unfold safe_integer, MAX_SAFE_INTEGER in *; lia).
Qed.

Lemma loaded_routine_resubmitted_witness :
  exists payload,
    RoutineFormPage.handleSubmit (Some "1") "Empuje" ""
      (RoutineFormPage.loadRoutine Sample.routine)
    = RoutineFormPage.updateRoutine (Num 1) payload /\
    length (CreateRoutineRequest.exercises payload) = 1%nat.
Proof.
  eexists. split; [| shelve].
  refine (loaded_routine_resubmitted "1" "" Sample.routine _ _ _ _).
  - discriminate.
  - discriminate.
  - discriminate.
  - repeat constructor; cbn in *; simplify_eq;
      unfold safe_integer, MAX_SAFE_INTEGER; lia.
  Unshelve. reflexivity.
Defined.

(** ** AdminPage: aliases and the exercise payload *)

Module TrimFacts.

Lemma trimStart_step (s : string) :
  trimStart s = match white_space_prefix s with
                | Some r => trimStart r
                | None => s
                end.
Proof.
  destruct s as [| a r]; [reflexivity |].
  cbn [trimStart white_space_only white_space_prefix].
  destruct (white_space1 a); [reflexivity |].
  destruct r as [| b r2]; [reflexivity |].
  destruct (white_space2 a b); [reflexivity |].
  destruct r2 as [| c r3]; [reflexivity |].
  now destruct (white_space3 a b c).
Qed.

Lemma white_space_only_step (s : string) :
  white_space_only s = match s with
                       | EmptyString => true
                       | _ => match white_space_prefix s with
                              | Some r => white_space_only r
                              | None => false
                              end
                       end.
Proof.
  destruct s as [| a r]; [reflexivity |].
  cbn [trimStart white_space_only white_space_prefix].
  destruct (white_space1 a); [reflexivity |].
  destruct r as [| b r2]; [reflexivity |].
  destruct (white_space2 a b); [reflexivity |].
  destruct r2 as [| c r3]; [reflexivity |].
  now destruct (white_space3 a b c).
Qed.

Lemma white_space_prefix_length (s r : string) :
  white_space_prefix s = Some r -> (String.length r < String.length s)%nat.
Proof.
  destruct s as [| a r']; [discriminate |].
  cbn [white_space_prefix].
  destruct (white_space1 a); [intros [= <-]; cbn; lia |].
  destruct r' as [| b r2]; [discriminate |].
  destruct (white_space2 a b); [intros [= <-]; cbn; lia |].
  destruct r2 as [| c r3]; [discriminate |].
  destruct (white_space3 a b c); [intros [= <-]; cbn; lia | discriminate].
Qed.

Lemma append_cons (a : ascii) (s t : string) :
  (String a s ++ t)%string = String a (s ++ t)%string.
Proof.
  reflexivity.
Qed.

Lemma append_nil_l (t : string) : ("" ++ t)%string = t.
Proof.
  reflexivity.
Qed.

(** Stripping one leading white space code point looks at the head of
    the string only. *)
Lemma white_space_prefix_app (s r w : string) :
  white_space_prefix s = Some r ->
  white_space_prefix (s ++ w) = Some (r ++ w)%string.
Proof.
  destruct s as [| a r']; [discriminate |].
  rewrite append_cons. cbn [white_space_prefix].
  destruct (white_space1 a); [now intros [= <-] |].
  destruct r' as [| b r2]; [discriminate |].
  rewrite append_cons.
  destruct (white_space2 a b); [now intros [= <-] |].
  destruct r2 as [| c r3]; [discriminate |].
  rewrite append_cons.
  destruct (white_space3 a b c); [now intros [= <-] | discriminate].
Qed.

Lemma white_space_only_app (s w : string) :
  white_space_only s = true -> white_space_only w = true ->
  white_space_only (s ++ w) = true.
Proof.
  remember (String.length s) as n eqn:Hn. revert s Hn.
  induction n as [n IH] using lt_wf_ind. intros s -> Hs Hw.
  destruct s as [| a s']; [exact Hw |].
  rewrite white_space_only_step in Hs.
  destruct (white_space_prefix (String a s')) as [r |] eqn:Hp;
    [| discriminate].
  rewrite white_space_only_step, append_cons.
  rewrite <- append_cons, (white_space_prefix_app _ _ w Hp).
  eapply IH; [| reflexivity | assumption | assumption].
  now apply white_space_prefix_length.
Qed.

(** What trimStart returns does not start with white space. *)
Lemma trimStart_fixed (s : string) : white_space_prefix (trimStart s) = None.
Proof.
  remember (String.length s) as n eqn:Hn. revert s Hn.
  induction n as [n IH] using lt_wf_ind. intros s ->.
  rewrite trimStart_step.
  destruct (white_space_prefix s) as [r |] eqn:Hp; [| exact Hp].
  eapply IH; [| reflexivity]. now apply white_space_prefix_length.
Qed.

Lemma trimStart_id (s : string) :
  white_space_prefix s = None -> trimStart s = s.
Proof.
  intros H. now rewrite trimStart_step, H.
Qed.

(** trimEnd cuts a tail of white space off. *)
Lemma trimEnd_prefix (s : string) :
  exists w, s = (trimEnd s ++ w)%string /\ white_space_only w = true.
Proof.
  induction s as [| a r (w & Hr & Hw)]; [now exists "" |].
  cbn [trimEnd]. destruct (white_space_only (String a r)) eqn:Hs.
  - now exists (String a r).
  - exists w. split; [| exact Hw]. rewrite append_cons. now rewrite <- Hr.
Qed.

Lemma trimEnd_idempotent (s : string) : trimEnd (trimEnd s) = trimEnd s.
Proof.
  induction s as [| a r IH]; [reflexivity |].
  cbn [trimEnd]. destruct (white_space_only (String a r)) eqn:Hs;
    [reflexivity |].
  cbn [trimEnd]. rewrite IH.
  destruct (white_space_only (String a (trimEnd r))) eqn:Ht; [| reflexivity].
  destruct (trimEnd_prefix r) as (w & Hr & Hw).
  pose proof (white_space_only_app _ _ Ht Hw) as H.
  rewrite append_cons, <- Hr in H. congruence.
Qed.

Lemma trimEnd_keeps_head (t : string) :
  white_space_prefix t = None -> white_space_prefix (trimEnd t) = None.
Proof.
  intros Ht. destruct (white_space_prefix (trimEnd t)) as [r |] eqn:Hp;
    [| reflexivity].
  destruct (trimEnd_prefix t) as (w & Hr & _).
  apply (white_space_prefix_app _ _ w) in Hp. rewrite <- Hr in Hp.
  congruence.
Qed.

(** Trimming twice is trimming once. *)
Lemma trim_idempotent (s : string) : trim (trim s) = trim s.
Proof.
  unfold trim.
  rewrite (trimStart_id (trimEnd (trimStart s)))
    by apply trimEnd_keeps_head, trimStart_fixed.
  apply trimEnd_idempotent.
Qed.

(** A trimmed string is left alone by trimStart. *)
Lemma trimmed_start (s : string) : trim s = s -> trimStart s = s.
Proof.
  intros H. apply trimStart_id. rewrite <- H. unfold trim.
  apply trimEnd_keeps_head, trimStart_fixed.
Qed.

Lemma trim_after_space (s : string) : trim s = s -> trim (String " " s) = s.
Proof.
  intros H. unfold trim in *. now rewrite trimStart_step.
Qed.

Lemma contains_app (c : ascii) (s t : string) :
  contains c (s ++ t) = contains c s || contains c t.
Proof.
  induction s as [| a s IH]; [reflexivity |].
  rewrite append_cons. cbn [contains]. rewrite IH. apply orb_assoc.
Qed.

Lemma trimStart_suffix (s : string) :
  exists p, s = (p ++ trimStart s)%string.
Proof.
  remember (String.length s) as n eqn:Hn. revert s Hn.
  induction n as [n IH] using lt_wf_ind. intros s ->.
  rewrite trimStart_step.
  destruct (white_space_prefix s) as [r |] eqn:Hp; [| now exists ""].
  destruct (IH _ (white_space_prefix_length _ _ Hp) r eq_refl) as [p Hr].
  revert Hp. destruct s as [| a r']; [discriminate |].
  cbn [white_space_prefix].
  destruct (white_space1 a);
    [intros [= ->]; exists (String a p); rewrite append_cons; congruence |].
  destruct r' as [| b r2]; [discriminate |].
  destruct (white_space2 a b);
    [intros [= ->]; exists (String a (String b p)); rewrite !append_cons;
     congruence |].
  destruct r2 as [| c r3]; [discriminate |].
  destruct (white_space3 a b c); [| discriminate].
  intros [= ->]. exists (String a (String b (String c p))).
  rewrite !append_cons. congruence.
Qed.

(** Trimming brings in no byte that was not there. *)
Lemma contains_trim (c : ascii) (s : string) :
  contains c s = false -> contains c (trim s) = false.
Proof.
  intros H. unfold trim.
  destruct (trimStart_suffix s) as [p Hp].
  destruct (trimEnd_prefix (trimStart s)) as (w & Hw & _).
  rewrite Hp, Hw, !contains_app in H.
  now apply orb_false_iff in H as [_ [H _]%orb_false_iff].
Qed.

Lemma split_nonempty (sep : ascii) (s : string) : split sep s <> [].
Proof.
  destruct s as [| a r]; cbn; [discriminate |].
  destruct (Ascii.eqb a sep); [discriminate |].
  destruct (split sep r); discriminate.
Qed.

(** No piece of a split holds the separator. *)
Lemma split_pieces (sep : ascii) (s : string) :
  Forall (fun piece => contains sep piece = false) (split sep s).
Proof.
  induction s as [| a r IH]; cbn [split]; [now repeat constructor |].
  destruct (Ascii.eqb a sep) eqn:Ha; [now constructor |].
  destruct (split sep r) as [| piece pieces].
  - constructor; [| constructor]. cbn [contains]. now rewrite Ha.
  - inversion IH as [| ? ? Hpiece Hpieces]; subst.
    constructor; [| assumption]. cbn [contains]. now rewrite Ha.
Qed.

Lemma split_no_separator (sep : ascii) (s : string) :
  contains sep s = false -> split sep s = [s].
Proof.
  induction s as [| a r IH]; [reflexivity |].
  cbn [contains split]. intros [Ha Hr]%orb_false_iff.
  now rewrite Ha, IH.
Qed.

Lemma split_at_separator (sep : ascii) (s rest : string) :
  contains sep s = false ->
  split sep (s ++ String sep rest) = s :: split sep rest.
Proof.
  induction s as [| a r IH]; intros Hs.
  - rewrite append_nil_l. cbn [split]. now rewrite Ascii.eqb_refl.
  - cbn [contains] in Hs. apply orb_false_iff in Hs as [Ha Hr].
    rewrite append_cons. cbn [split]. now rewrite Ha, IH.
Qed.

Lemma join_cons_head (sep : string) (c : ascii) (x : string)
    (rest : list string) :
  join sep (String c x :: rest) = String c (join sep (x :: rest)).
Proof.
  destruct rest; reflexivity.
Qed.

(** Splitting what join has put together with ", " gives the elements
    back, each but the first behind the space. *)
Lemma split_join (aliases : list string) : forall first : string,
  Forall (fun alias => contains "," alias = false) (first :: aliases) ->
  split "," (join ", " (first :: aliases))
  = first :: map (String " ") aliases.
Proof.
  induction aliases as [| second rest IH]; intros first Hall.
  - inversion Hall; subst. now apply split_no_separator.
  - inversion Hall as [| ? ? Hfirst Hrest]; subst.
    inversion Hrest as [| ? ? Hsecond Hrest']; subst.
    change (join ", " (first :: second :: rest))
      with (first ++ String "," (String " " (join ", " (second :: rest))))%string.
    rewrite split_at_separator by assumption. f_equal.
    rewrite <- join_cons_head.
    rewrite IH; [reflexivity |]. constructor; assumption.
Qed.

Lemma length_positive (s : string) :
  (0 <? String.length s)%nat = true <-> s <> "".
Proof.
  destruct s; cbn; split; congruence.
Qed.

(** The aliases parseAliases returns are clean. *)
Lemma parseAliases_Forall_clean (aliasesValue : string) :
  Forall clean_alias (AdminPage.parseAliases aliasesValue).
Proof.
  unfold AdminPage.parseAliases. apply Forall_forall. intros alias Hin.
  apply list_elem_of_In, filter_In in Hin as [Hin Hlen].
  apply in_map_iff in Hin as (piece & <- & Hin).
  apply list_elem_of_In in Hin.
  repeat split.
  - apply trim_idempotent.
  - now apply length_positive.
  - apply contains_trim.
    exact (proj1 (Forall_forall _ _) (split_pieces "," aliasesValue) _ Hin).
Qed.

(** Clean aliases joined with ", " are read back as they were. *)
Lemma parseAliases_join_clean (aliases : list string) :
  Forall clean_alias aliases ->
  AdminPage.parseAliases (join ", " aliases) = aliases.
Proof.
  intros Hclean. unfold AdminPage.parseAliases.
  destruct aliases as [| first rest]; [reflexivity |].
  rewrite split_join
    by (eapply Forall_impl; [exact Hclean | now intros ? (_ & _ & ?)]).
  inversion Hclean as [| ? ? (Htrim & Hne & _) Hrest]; subst.
  cbn [map List.filter]. rewrite Htrim.
  rewrite (proj2 (length_positive first) Hne). f_equal.
  clear Hclean Htrim Hne. induction Hrest as [| alias rest (Htrim & Hne & _) _ IH];
    [reflexivity |].
  cbn [map List.filter]. rewrite trim_after_space by assumption.
  rewrite (proj2 (length_positive alias) Hne). now rewrite IH.
Qed.

End TrimFacts.
Import TrimFacts.

(** X13: every alias parseAliases returns is trimmed, not empty and free of
    commas, whatever text it is given; so reading a text and writing the
    result back the way handleEdit does reaches a fixed point after one
    round. *)
Theorem parseAliases_clean (aliasesValue : string) :
  Forall clean_alias (AdminPage.parseAliases aliasesValue) /\
  AdminPage.parseAliases (join ", " (AdminPage.parseAliases aliasesValue))
  = AdminPage.parseAliases aliasesValue.
Proof.
  split; [apply parseAliases_Forall_clean |].
  apply parseAliases_join_clean, parseAliases_Forall_clean.
Qed.

(** X14: the text handleEdit builds from clean aliases is read back by
    parseAliases as those aliases. *)
Theorem parseAliases_join (aliases : list string) :
  Forall clean_alias aliases ->
  AdminPage.parseAliases (join ", " aliases) = aliases.
Proof.
  apply parseAliases_join_clean.
Qed.

Lemma parseAliases_join_witness :
  AdminPage.parseAliases (join ", " ["press banca"; "bench press"])
  = ["press banca"; "bench press"].
Proof.
  apply (parseAliases_join ["press banca"; "bench press"]).
  repeat constructor; discriminate.
Defined.

(** X15: the exercise form is refused exactly when its name is blank.
    Otherwise the payload goes to updateExercise for the selected
    exercise, or to createExercise when none is selected, with the name
    trimmed and not empty, a description and a video path that are absent
    rather than empty, and clean aliases. *)
Theorem exercise_payload_outcome (selectedExercise : option Exercise.t)
    (formState : ExerciseFormState.t) :
  (trim (ExerciseFormState.name formState) = "" ->
   AdminPage.handleSubmit selectedExercise formState
   = AdminPage.setFormError AdminPage.msg_name) /\
  (trim (ExerciseFormState.name formState) <> "" ->
   exists payload,
     AdminPage.handleSubmit selectedExercise formState
     = match selectedExercise with
       | Some selected =>
           AdminPage.updateExercise (Exercise.id selected) payload
       | None => AdminPage.createExercise payload
       end /\
     ExercisePayload.name payload = trim (ExerciseFormState.name formState) /\
     ExercisePayload.description payload <> Some "" /\
     ExercisePayload.videoPath payload <> Some "" /\
     Forall clean_alias (ExercisePayload.aliases payload)).
Proof.
  unfold AdminPage.handleSubmit. split; intros Hname.
  - now rewrite Hname.
  - rewrite (proj2 (truthy_true _) Hname). cbn [negb].
    eexists. split; [reflexivity |].
    cbn [ExercisePayload.name ExercisePayload.description
         ExercisePayload.videoPath ExercisePayload.aliases].
    split; [reflexivity |].
    split; [unfold or_undefined;
            destruct (trim (ExerciseFormState.description formState));
            discriminate |].
    split; [unfold or_undefined;
            destruct (trim (ExerciseFormState.videoPath formState));
            discriminate |].
    apply parseAliases_Forall_clean.
Qed.

Lemma exercise_payload_outcome_witness :
  AdminPage.handleSubmit None
    (ExerciseFormState.mk "  " "Pecho" "" "press banca")
  = AdminPage.setFormError AdminPage.msg_name.
Proof.
  apply (proj1 (exercise_payload_outcome None
                  (ExerciseFormState.mk "  " "Pecho" "" "press banca"))).
  reflexivity.
Defined.

(** X16: an exercise opened with handleEdit and saved untouched is sent to
    updateExercise under its own id with the name, description, video
    path and aliases it had, an empty description or video path becoming
    absent, provided the stored texts are trimmed, the name is not empty
    and the aliases are clean. *)
Theorem edited_exercise_resubmitted (exercise : Exercise.t) :
  trim (Exercise.name exercise) = Exercise.name exercise ->
  Exercise.name exercise <> "" ->
  (forall text, Exercise.description exercise = Some text ->
                trim text = text) ->
  (forall text, Exercise.videoPath exercise = Some text ->
                trim text = text) ->
  Forall clean_alias (Exercise.aliases exercise) ->
  AdminPage.handleSubmit (Some exercise) (AdminPage.handleEdit exercise)
  = AdminPage.updateExercise (Exercise.id exercise)
      (ExercisePayload.mk
         (Exercise.name exercise)
         (or_undefined (or_empty (Exercise.description exercise)))
         (or_undefined (or_empty (Exercise.videoPath exercise)))
         (Exercise.aliases exercise)).
Proof.
  intros Hname Hne Hdescription Hvideo Haliases.
  unfold AdminPage.handleSubmit, AdminPage.handleEdit.
  cbn [ExerciseFormState.name ExerciseFormState.description
       ExerciseFormState.videoPath ExerciseFormState.aliases].
  rewrite Hname, (proj2 (truthy_true _) Hne). cbn [negb].
  rewrite parseAliases_join_clean by assumption.
  assert (forall text : option string,
            (forall t, text = Some t -> trim t = t) ->
            trim (or_empty text) = or_empty text) as Htrim.
  { intros [t |] Ht; [| reflexivity]. unfold or_empty.
    destruct (truthy t); [now apply Ht | reflexivity]. }
  now rewrite !Htrim by assumption.
Qed.

Lemma edited_exercise_resubmitted_witness :
  AdminPage.handleSubmit
    (Some (Exercise.mk 7 "Press de banca" (Some "") None
             ["press banca"; "bench press"]))
    (AdminPage.handleEdit
       (Exercise.mk 7 "Press de banca" (Some "") None
          ["press banca"; "bench press"]))
  = AdminPage.updateExercise 7
      (ExercisePayload.mk "Press de banca" None None
         ["press banca"; "bench press"]).
Proof.
  refine (edited_exercise_resubmitted
            (Exercise.mk 7 "Press de banca" (Some "") None
               ["press banca"; "bench press"]) _ _ _ _ _).
  - reflexivity.
  - discriminate.
  - intros text [= <-]. reflexivity.
  - discriminate.
  - repeat constructor; discriminate.
Defined.

(** ** Numbering and order of the sets *)

Module NumberingFacts.

Lemma filedUnder_payloadSet exercise (sets : list WorkoutSetForm.t) :
  filedUnder <$> imap (payloadSet exercise) sets
  = (fun number : nat =>
       (ExerciseWorkoutForm.exerciseId exercise, Z.of_nat number))
    <$> seq 1 (length sets).
Proof.
  apply list_eq. intros i.
  rewrite !list_lookup_fmap, list_lookup_imap.
  destruct (sets !! i) as [set |] eqn:Hi.
  - pose proof (lookup_lt_Some _ _ _ Hi) as Hlt.
    rewrite lookup_seq_lt by assumption. cbn.
    unfold filedUnder. cbn. do 2 f_equal. lia.
  - apply lookup_ge_None in Hi. rewrite lookup_seq_ge by assumption.
    reflexivity.
Qed.

Lemma filedUnder_payloadSets exercises :
  filedUnder <$> payloadSets exercises = flat_map places exercises.
Proof.
  unfold payloadSets.
  induction exercises as [| exercise rest IH]; [reflexivity |].
  cbn [flat_map]. rewrite fmap_app, IH. f_equal.
  apply filedUnder_payloadSet.
Qed.

(** Sorting a list that ascends already returns it. *)
Lemma Array_sort_sorted_id (array : list WorkoutSet.t) :
  Sorted setNumber_le array -> Array_sort bySetNumber array = array.
Proof.
  induction 1 as [| x rest Hrest IH Hhd]; [reflexivity |].
  cbn [Array_sort foldr]. fold (Array_sort bySetNumber rest). rewrite IH.
  destruct Hhd as [| y rest' Hxy]; [reflexivity |].
  cbn [sort_insert]. unfold bySetNumber, setNumber_le in *.
  now rewrite (proj2 (Z.leb_le _ _)) by lia.
Qed.

Lemma setsByExercise_groups (sets : list WorkoutSet.t) :
  setsByExercise (Some sets)
  = map (fun k => ExerciseGroup.mk (nameOf k sets)
                    (Array_sort bySetNumber (setsOf k sets)))
        (firstSeen (map WorkoutSet.exerciseId sets)).
Proof.
  unfold setsByExercise. rewrite grouped_eq, map_map. reflexivity.
Qed.

End NumberingFacts.
Import NumberingFacts.

(** X6: in every payload the sets are filed exercise by exercise in form
    order, and within an exercise they are numbered 1, 2, ... without a
    gap, whatever sets were added or removed before; there are as many of
    them as the page counts, and at least one. *)
Theorem payload_numbering (Date_getTime : string -> option Z)
    (st : FormState.t) (payload : CreateWorkoutRequest.t) :
  handleSubmit Date_getTime st = createWorkout payload ->
  filedUnder <$> CreateWorkoutRequest.sets payload
  = flat_map places (FormState.exercises st) /\
  length (CreateWorkoutRequest.sets payload)
  = totalSets (FormState.exercises st) /\
  (0 < totalSets (FormState.exercises st))%nat.
Proof.
  intros H.
  destruct (handleSubmit_created _ _ _ H)
    as (routine & s & _ & _ & _ & _ & Hne & _ & _ & _ & _ & ->).
  split; [apply filedUnder_payloadSets |].
  rewrite payloadSets_length, totalSets_allSets.
  split; [reflexivity |].
  destruct (allSets (FormState.exercises st)); [congruence | simpl; lia].
Qed.

Lemma payload_numbering_witness :
  exists payload,
    handleSubmit UtcHost.Date_getTime
      (FormState.mk (Some Sample.routine)
         (handleRemoveSet 0 1 (materialize Sample.routine))
         Sample.startText false "" "" "")
    = createWorkout payload /\
    filedUnder <$> CreateWorkoutRequest.sets payload = [(7, 1); (7, 2)].
Proof.
  eexists. split; [vm_compute; reflexivity |].
  exact (proj1 (payload_numbering UtcHost.Date_getTime
                  (FormState.mk (Some Sample.routine)
                     (handleRemoveSet 0 1 (materialize Sample.routine))
                     Sample.startText false "" "" "") _ eq_refl)).
Defined.

(** X22: the sort inside setsByExercise is stable: within a group, the sets
    that share a set number stand in the order they have in the list.  So
    when the sets of every exercise already ascend by set number in the
    list, grouping reorders nothing: each group holds the sets of its
    exercise in list order. *)
Theorem setsByExercise_stable (sets : list WorkoutSet.t) :
  Forall2 (fun k group =>
             forall n : Z,
               filter (fun s => WorkoutSet.setNumber s = n)
                      (ExerciseGroup.sets group)
               = filter (fun s => WorkoutSet.setNumber s = n)
                        (setsOf k sets))
          (firstSeen (map WorkoutSet.exerciseId sets))
          (setsByExercise (Some sets)) /\
  ((forall k, Sorted setNumber_le (setsOf k sets)) ->
   setsByExercise (Some sets)
   = map (fun k => ExerciseGroup.mk (nameOf k sets) (setsOf k sets))
         (firstSeen (map WorkoutSet.exerciseId sets))).
Proof.
  rewrite setsByExercise_groups. split.
  - induction (firstSeen (map WorkoutSet.exerciseId sets)) as [| k rest IH];
      [constructor |].
    cbn [map]. constructor; [| exact IH].
    intros n. cbn [ExerciseGroup.sets]. apply Array_sort_stable.
  - intros Hsorted. apply map_ext. intros k.
    now rewrite Array_sort_sorted_id.
Qed.

Lemma setsByExercise_stable_witness :
  setsByExercise (Some [Sample.setA 1; Sample.setB 1; Sample.setA 2])
  = [ExerciseGroup.mk "A" [Sample.setA 1; Sample.setA 2];
     ExerciseGroup.mk "B" [Sample.setB 1]].
Proof.
  refine (proj2 (setsByExercise_stable
                   [Sample.setA 1; Sample.setB 1; Sample.setA 2]) _).
  intros k. unfold setsOf. rewrite !filter_cons, filter_nil.
  cbn [WorkoutSet.exerciseId Sample.setA Sample.setB].
  repeat destruct (decide _); repeat constructor;
    unfold setNumber_le; cbn; lia.
Defined.

(** ** The search request *)

Module SearchFacts.
Import exerciseService.

Lemma query_text_app (s t : string) :
  query_text (s ++ t) = query_text s && query_text t.
Proof.
  induction s as [| c s IH]; [reflexivity |].
  rewrite append_cons. cbn [query_text]. rewrite IH. apply andb_assoc.
Qed.

Lemma query_text_percent_encode (c : ascii) :
  query_text (percent_encode c) = true.
Proof.
  destruct c as [[] [] [] [] [] [] [] []]; vm_compute; reflexivity.
Qed.

Lemma query_text_urlencode (s : string) : query_text (urlencode s) = true.
Proof.
  induction s as [| c s IH]; [reflexivity |].
  cbn [urlencode]. now rewrite query_text_app, query_text_percent_encode, IH.
Qed.

End SearchFacts.
Import SearchFacts.

(** X30: a search from the routine form: a blank term is refused with the
    message and nothing is requested; any other term is trimmed (twice,
    to the same effect as once) and requested as the only parameter [q]
    of /api/exercises, written with unreserved bytes, [%] and [+]
    only. *)
Theorem handleSearch_request (searchTerm : string) :
  (trim searchTerm = "" ->
   RoutineFormPage.handleSearch searchTerm
   = RoutineFormPage.setSearchError RoutineFormPage.msg_search) /\
  (trim searchTerm <> "" ->
   RoutineFormPage.handleSearch searchTerm
   = RoutineFormPage.requested
       (Some ("/api/exercises?q="
              ++ exerciseService.urlencode (trim searchTerm))%string)) /\
  query_text (exerciseService.urlencode (trim searchTerm)) = true.
Proof.
  unfold RoutineFormPage.handleSearch. repeat split.
  - intros H. now rewrite H.
  - intros H. rewrite (proj2 (truthy_true _) H). cbn [negb].
    unfold exerciseService.search. rewrite trim_idempotent.
    unfold or_undefined. rewrite (proj2 (truthy_true _) H).
    unfold exerciseService.getExercises.
    rewrite (proj2 (truthy_true _) H). reflexivity.
  - apply query_text_urlencode.
Qed.

Lemma handleSearch_request_witness :
  RoutineFormPage.handleSearch " press de banca "
  = RoutineFormPage.requested (Some "/api/exercises?q=press+de+banca").
Proof.
  apply (proj1 (proj2 (handleSearch_request " press de banca "))).
  discriminate.
Defined.

